(** * Multiplier synthesis analysis: report parser, metrics estimator,
      result store and comparison report of [scripts/analyze.py].

    The development embeds the Python code shallowly:
    - Python [int] is [Z], and [int(s)] on a decimal string raises
      [ValueError] above the 4300 digits CPython converts by default;
      Python [float] is the primitive binary64 [float], whose operations
      are the IEEE-754 ones Python uses;
    - Python [str] is [string], read as a sequence of code points below 256;
    - an exception is a value of [exn] carried by the [result] monad;
    - [print] appends a structured [line] to the output of the [printer] monad;
    - the insertion-ordered [dict] of results is an association list. *)

From Stdlib Require Import ZArith List Bool Ascii String Lia Floats Sorted.
Import ListNotations.

Set Warnings "-inexact-float".

Local Open Scope Z_scope.
Local Open Scope string_scope.

(** ** Exceptions and the two monads *)

Inductive exn : Type :=
| ZeroDivisionError
| OverflowError
| ValueError.

Inductive result (A : Type) : Type :=
| Ok (a : A)
| Raise (e : exn).

Arguments Ok {A} a.
Arguments Raise {A} e.

Definition rbind {A B : Type} (m : result A) (f : A -> result B) : result B :=
  match m with
  | Ok a => f a
  | Raise e => Raise e
  end.

Declare Scope result_scope.
Delimit Scope result_scope with result.
Notation "x <- m ;; k" := (rbind m (fun x => k))
  (at level 61, m at next level, right associativity) : result_scope.

(** ** Python floats *)

Module PyFloat.

Local Open Scope float_scope.

(** [float(n)] for an [int]: the nearest binary64, ties to even;
    [OverflowError] when the integer is out of range. *)
Definition of_int (n : Z) : result float :=
  match binary_normalize prec emax n 0%Z false with
  | S754_infinity _ => Raise OverflowError
  | sf => Ok (SF2Prim sf)
  end.

(** [n * x] with [n] an [int] and [x] a [float]. *)
Definition int_mul (n : Z) (x : float) : result float :=
  (f <- of_int n ;; Ok (f * x))%result.

(** [a / b]: true division raises when the divisor compares equal to zero. *)
Definition div (a b : float) : result float :=
  if b =? 0 then Raise ZeroDivisionError else Ok (a / b).

(** [math.ceil(x)]: the least integer not below [x]. *)
Definition ceil (x : float) : result Z :=
  match Prim2SF x with
  | S754_nan => Raise ValueError
  | S754_infinity _ => Raise OverflowError
  | S754_zero _ => Ok 0%Z
  | S754_finite s m e =>
      let num := (if s then Z.neg m else Z.pos m) in
      Ok (if (0 <=? e)%Z then (num * 2 ^ e)%Z
          else (- ((- num) / 2 ^ (- e)))%Z)
  end.

(** The builtin [min] and [max] over an iterable: the first item is kept
    until a later one compares strictly smaller (resp. larger). *)
Definition min_step (best x : float) : float := if x <? best then x else best.
Definition max_step (best x : float) : float := if best <? x then x else best.

Definition min_list (l : list float) : result float :=
  match l with
  | [] => Raise ValueError
  | x :: xs => Ok (fold_left min_step xs x)
  end.

Definition max_list (l : list float) : result float :=
  match l with
  | [] => Raise ValueError
  | x :: xs => Ok (fold_left max_step xs x)
  end.

End PyFloat.

(** ** The metrics record ([SynthesisResults]) *)

Record SynthesisResults : Type := mkResults {
  name : string;
  total_cells : Z;
  wires : Z;
  public_wires : Z;
  memories : Z;
  processes : Z;
  and_gates : Z;
  or_gates : Z;
  xor_gates : Z;
  not_gates : Z;
  nand_gates : Z;
  nor_gates : Z;
  xnor_gates : Z;
  mux_gates : Z;
  add_cells : Z;
  critical_path_delay_ns : float;
  estimated_area_ge : float;
  estimated_power_mw : float;
  max_frequency_mhz : float;
  simulation_time_ms : float
}.

(** [SynthesisResults(name=name)]: every other field at its default. *)
Definition new_results (n : string) : SynthesisResults :=
  mkResults n 0 0 0 0 0 0 0 0 0 0 0 0 0 0 0%float 0%float 0%float 0%float 0%float.

(** Attribute assignment [result.field = v]. *)
Definition set_total_cells (v : Z) (r : SynthesisResults) : SynthesisResults :=
  mkResults (name r) v (wires r) (public_wires r) (memories r) (processes r)
    (and_gates r) (or_gates r) (xor_gates r) (not_gates r) (nand_gates r)
    (nor_gates r) (xnor_gates r) (mux_gates r) (add_cells r)
    (critical_path_delay_ns r) (estimated_area_ge r) (estimated_power_mw r)
    (max_frequency_mhz r) (simulation_time_ms r).

Definition set_wires (v : Z) (r : SynthesisResults) : SynthesisResults :=
  mkResults (name r) (total_cells r) v (public_wires r) (memories r) (processes r)
    (and_gates r) (or_gates r) (xor_gates r) (not_gates r) (nand_gates r)
    (nor_gates r) (xnor_gates r) (mux_gates r) (add_cells r)
    (critical_path_delay_ns r) (estimated_area_ge r) (estimated_power_mw r)
    (max_frequency_mhz r) (simulation_time_ms r).

Definition set_public_wires (v : Z) (r : SynthesisResults) : SynthesisResults :=
  mkResults (name r) (total_cells r) (wires r) v (memories r) (processes r)
    (and_gates r) (or_gates r) (xor_gates r) (not_gates r) (nand_gates r)
    (nor_gates r) (xnor_gates r) (mux_gates r) (add_cells r)
    (critical_path_delay_ns r) (estimated_area_ge r) (estimated_power_mw r)
    (max_frequency_mhz r) (simulation_time_ms r).

Definition set_and_gates (v : Z) (r : SynthesisResults) : SynthesisResults :=
  mkResults (name r) (total_cells r) (wires r) (public_wires r) (memories r)
    (processes r) v (or_gates r) (xor_gates r) (not_gates r) (nand_gates r)
    (nor_gates r) (xnor_gates r) (mux_gates r) (add_cells r)
    (critical_path_delay_ns r) (estimated_area_ge r) (estimated_power_mw r)
    (max_frequency_mhz r) (simulation_time_ms r).

Definition set_or_gates (v : Z) (r : SynthesisResults) : SynthesisResults :=
  mkResults (name r) (total_cells r) (wires r) (public_wires r) (memories r)
    (processes r) (and_gates r) v (xor_gates r) (not_gates r) (nand_gates r)
    (nor_gates r) (xnor_gates r) (mux_gates r) (add_cells r)
    (critical_path_delay_ns r) (estimated_area_ge r) (estimated_power_mw r)
    (max_frequency_mhz r) (simulation_time_ms r).

Definition set_xor_gates (v : Z) (r : SynthesisResults) : SynthesisResults :=
  mkResults (name r) (total_cells r) (wires r) (public_wires r) (memories r)
    (processes r) (and_gates r) (or_gates r) v (not_gates r) (nand_gates r)
    (nor_gates r) (xnor_gates r) (mux_gates r) (add_cells r)
    (critical_path_delay_ns r) (estimated_area_ge r) (estimated_power_mw r)
    (max_frequency_mhz r) (simulation_time_ms r).

Definition set_not_gates (v : Z) (r : SynthesisResults) : SynthesisResults :=
  mkResults (name r) (total_cells r) (wires r) (public_wires r) (memories r)
    (processes r) (and_gates r) (or_gates r) (xor_gates r) v (nand_gates r)
    (nor_gates r) (xnor_gates r) (mux_gates r) (add_cells r)
    (critical_path_delay_ns r) (estimated_area_ge r) (estimated_power_mw r)
    (max_frequency_mhz r) (simulation_time_ms r).

Definition set_nand_gates (v : Z) (r : SynthesisResults) : SynthesisResults :=
  mkResults (name r) (total_cells r) (wires r) (public_wires r) (memories r)
    (processes r) (and_gates r) (or_gates r) (xor_gates r) (not_gates r) v
    (nor_gates r) (xnor_gates r) (mux_gates r) (add_cells r)
    (critical_path_delay_ns r) (estimated_area_ge r) (estimated_power_mw r)
    (max_frequency_mhz r) (simulation_time_ms r).

Definition set_nor_gates (v : Z) (r : SynthesisResults) : SynthesisResults :=
  mkResults (name r) (total_cells r) (wires r) (public_wires r) (memories r)
    (processes r) (and_gates r) (or_gates r) (xor_gates r) (not_gates r)
    (nand_gates r) v (xnor_gates r) (mux_gates r) (add_cells r)
    (critical_path_delay_ns r) (estimated_area_ge r) (estimated_power_mw r)
    (max_frequency_mhz r) (simulation_time_ms r).

Definition set_xnor_gates (v : Z) (r : SynthesisResults) : SynthesisResults :=
  mkResults (name r) (total_cells r) (wires r) (public_wires r) (memories r)
    (processes r) (and_gates r) (or_gates r) (xor_gates r) (not_gates r)
    (nand_gates r) (nor_gates r) v (mux_gates r) (add_cells r)
    (critical_path_delay_ns r) (estimated_area_ge r) (estimated_power_mw r)
    (max_frequency_mhz r) (simulation_time_ms r).

Definition set_mux_gates (v : Z) (r : SynthesisResults) : SynthesisResults :=
  mkResults (name r) (total_cells r) (wires r) (public_wires r) (memories r)
    (processes r) (and_gates r) (or_gates r) (xor_gates r) (not_gates r)
    (nand_gates r) (nor_gates r) (xnor_gates r) v (add_cells r)
    (critical_path_delay_ns r) (estimated_area_ge r) (estimated_power_mw r)
    (max_frequency_mhz r) (simulation_time_ms r).

Definition set_add_cells (v : Z) (r : SynthesisResults) : SynthesisResults :=
  mkResults (name r) (total_cells r) (wires r) (public_wires r) (memories r)
    (processes r) (and_gates r) (or_gates r) (xor_gates r) (not_gates r)
    (nand_gates r) (nor_gates r) (xnor_gates r) (mux_gates r) v
    (critical_path_delay_ns r) (estimated_area_ge r) (estimated_power_mw r)
    (max_frequency_mhz r) (simulation_time_ms r).

Definition set_critical_path_delay_ns (v : float) (r : SynthesisResults)
  : SynthesisResults :=
  mkResults (name r) (total_cells r) (wires r) (public_wires r) (memories r)
    (processes r) (and_gates r) (or_gates r) (xor_gates r) (not_gates r)
    (nand_gates r) (nor_gates r) (xnor_gates r) (mux_gates r) (add_cells r)
    v (estimated_area_ge r) (estimated_power_mw r)
    (max_frequency_mhz r) (simulation_time_ms r).

Definition set_estimated_area_ge (v : float) (r : SynthesisResults)
  : SynthesisResults :=
  mkResults (name r) (total_cells r) (wires r) (public_wires r) (memories r)
    (processes r) (and_gates r) (or_gates r) (xor_gates r) (not_gates r)
    (nand_gates r) (nor_gates r) (xnor_gates r) (mux_gates r) (add_cells r)
    (critical_path_delay_ns r) v (estimated_power_mw r)
    (max_frequency_mhz r) (simulation_time_ms r).

Definition set_estimated_power_mw (v : float) (r : SynthesisResults)
  : SynthesisResults :=
  mkResults (name r) (total_cells r) (wires r) (public_wires r) (memories r)
    (processes r) (and_gates r) (or_gates r) (xor_gates r) (not_gates r)
    (nand_gates r) (nor_gates r) (xnor_gates r) (mux_gates r) (add_cells r)
    (critical_path_delay_ns r) (estimated_area_ge r) v
    (max_frequency_mhz r) (simulation_time_ms r).

Definition set_max_frequency_mhz (v : float) (r : SynthesisResults)
  : SynthesisResults :=
  mkResults (name r) (total_cells r) (wires r) (public_wires r) (memories r)
    (processes r) (and_gates r) (or_gates r) (xor_gates r) (not_gates r)
    (nand_gates r) (nor_gates r) (xnor_gates r) (mux_gates r) (add_cells r)
    (critical_path_delay_ns r) (estimated_area_ge r) (estimated_power_mw r)
    v (simulation_time_ms r).

(** ** Metrics estimator *)

Module Estimator.

Import PyFloat.
Local Open Scope result_scope.

(** [area += n * w]: convert the count, multiply, accumulate. *)
Definition add_term (acc : float) (n : Z) (w : float) : result float :=
  t <- int_mul n w ;; Ok (acc + t)%float.

(** The sum of the nine classified counts, as both models compute it. *)
Definition known_gates (r : SynthesisResults) : Z :=
  and_gates r + or_gates r + xor_gates r +
  not_gates r + nand_gates r + nor_gates r +
  xnor_gates r + mux_gates r + add_cells r.

(** [max(0, result.total_cells - known_gates)]. *)
Definition other_cells (r : SynthesisResults) : Z :=
  Z.max 0 (total_cells r - known_gates r).

Definition calculate_area (r : SynthesisResults) : result float :=
  let area := 0%float in
  area <- add_term area (and_gates r) 1.33 ;;
  area <- add_term area (or_gates r) 1.33 ;;
  area <- add_term area (xor_gates r) 2.67 ;;
  area <- add_term area (not_gates r) 0.67 ;;
  area <- add_term area (nand_gates r) 1.0 ;;
  area <- add_term area (nor_gates r) 1.0 ;;
  area <- add_term area (xnor_gates r) 2.67 ;;
  area <- add_term area (mux_gates r) 2.0 ;;
  area <- add_term area (add_cells r) 8.0 ;;
  let known_gates := known_gates r in
  let other_cells := Z.max 0 (total_cells r - known_gates) in
  area <- add_term area other_cells 2.0 ;;
  Ok area.

(** The two values [math.log] returns in this program: the binary64
    numbers nearest to ln 32 and ln 1.5. *)
Definition log_32 : float := 3.4657359027997265%float.
Definition log_1_5 : float := 0.4054651081081644%float.

(** [math.ceil(math.log(32) / math.log(1.5))]. *)
Definition reduction_levels : result Z :=
  q <- div log_32 log_1_5 ;; ceil q.

Definition estimate_critical_path (r : SynthesisResults) : result float :=
  if (name r =? "Classical")%string then
    let levels := 32 in
    let delay_per_stage := 0.3%float in
    int_mul levels delay_per_stage
  else if (name r =? "Wallace")%string then
    levels <- reduction_levels ;;
    let delay_per_level := 0.25%float in
    let final_adder_delay := 2.0%float in
    t <- int_mul levels delay_per_level ;;
    Ok (t + final_adder_delay)%float
  else if (name r =? "Dadda")%string then
    levels <- reduction_levels ;;
    let delay_per_level := 0.25%float in
    let final_adder_delay := 2.0%float in
    t <- int_mul levels delay_per_level ;;
    Ok (t + final_adder_delay)%float
  else Ok 5.0%float.

(** [total_cap += n * w * cap_per_gate]. *)
Definition add_cap (acc : float) (n : Z) (w cap_per_gate : float) : result float :=
  t <- int_mul n w ;; Ok (acc + t * cap_per_gate)%float.

Definition estimate_power (r : SynthesisResults) : result float :=
  let voltage := 1.0%float in
  let frequency := 100e6%float in
  let activity := 0.2%float in
  let cap_per_gate := 1e-15%float in
  let total_cap := 0%float in
  total_cap <- add_cap total_cap (and_gates r) 2.0 cap_per_gate ;;
  total_cap <- add_cap total_cap (or_gates r) 2.0 cap_per_gate ;;
  total_cap <- add_cap total_cap (xor_gates r) 4.0 cap_per_gate ;;
  total_cap <- add_cap total_cap (not_gates r) 1.0 cap_per_gate ;;
  total_cap <- add_cap total_cap (nand_gates r) 2.0 cap_per_gate ;;
  total_cap <- add_cap total_cap (nor_gates r) 2.0 cap_per_gate ;;
  total_cap <- add_cap total_cap (xnor_gates r) 4.0 cap_per_gate ;;
  total_cap <- add_cap total_cap (mux_gates r) 3.0 cap_per_gate ;;
  total_cap <- add_cap total_cap (add_cells r) 10.0 cap_per_gate ;;
  let known_gates := known_gates r in
  let other_cells := Z.max 0 (total_cells r - known_gates) in
  total_cap <- add_cap total_cap other_cells 2.5 cap_per_gate ;;
  (* voltage ** 2: the square of the supply voltage *)
  let power_w := (activity * total_cap * (voltage * voltage) * frequency)%float in
  let power_mw := (power_w * 1000)%float in
  Ok power_mw.

End Estimator.

(** ** Text primitives: character classes of [re] and [str] methods *)

Module Text.

Definition code (c : ascii) : N := N_of_ascii c.

Definition in_range (lo hi : N) (c : ascii) : bool :=
  ((lo <=? code c) && (code c <=? hi))%N.

(** [\d]: the decimal digits. *)
Definition is_digit (c : ascii) : bool := in_range 48 57 c.

(** [\s] and the characters [str.strip] removes. *)
Definition is_space (c : ascii) : bool :=
  in_range 9 13 c || in_range 28 32 c ||
  (code c =? 133)%N || (code c =? 160)%N.

(** [[A-Z]]. *)
Definition is_upper (c : ascii) : bool := in_range 65 90 c.

(** [\w]: alphanumeric characters and the underscore. *)
Definition is_word (c : ascii) : bool :=
  in_range 48 57 c || in_range 65 90 c || in_range 97 122 c ||
  (code c =? 95)%N ||
  (code c =? 170)%N || in_range 178 179 c || (code c =? 181)%N ||
  in_range 185 186 c || in_range 188 190 c ||
  in_range 192 214 c || in_range 216 246 c || in_range 248 255 c.

Definition newline : ascii := "010"%char.

Definition is_empty (s : string) : bool :=
  match s with
  | EmptyString => true
  | String _ _ => false
  end.

(** The longest prefix of [s] made of characters satisfying [p], and what
    follows it: what a greedy [c+] consumes when the next pattern item
    cannot start with a character of the class. *)
Fixpoint take_while (p : ascii -> bool) (s : string) : string :=
  match s with
  | EmptyString => EmptyString
  | String c s' => if p c then String c (take_while p s') else EmptyString
  end.

Fixpoint drop_while (p : ascii -> bool) (s : string) : string :=
  match s with
  | EmptyString => EmptyString
  | String c s' => if p c then drop_while p s' else s
  end.

Fixpoint drop (n : nat) (s : string) : string :=
  match n, s with
  | O, _ => s
  | S _, EmptyString => EmptyString
  | S n', String _ s' => drop n' s'
  end.

(** The number a string of decimal digits denotes. *)
Definition digit_value (c : ascii) : Z := Z.of_N (code c) - 48.

Fixpoint digits_value_acc (acc : Z) (s : string) : Z :=
  match s with
  | EmptyString => acc
  | String c s' => digits_value_acc (10 * acc + digit_value c) s'
  end.

Definition digits_value (s : string) : Z := digits_value_acc 0 s.

(** [sys.get_int_max_str_digits()]: the longest decimal string that [int]
    converts, at its default in CPython 3.11. *)
Definition int_max_str_digits : Z := 4300.

(** [int(s)] for a string of decimal digits: the number it denotes, and
    [ValueError] when the string has more characters than the limit, the
    leading zeros counted. *)
Definition int_of_digits (s : string) : result Z :=
  if (int_max_str_digits <? Z.of_nat (String.length s))%Z then Raise ValueError
  else Ok (digits_value s).

(** [s.strip()]. *)
Fixpoint rstrip (s : string) : string :=
  match s with
  | EmptyString => EmptyString
  | String c s' =>
      let t := rstrip s' in
      if is_space c && is_empty t then EmptyString else String c t
  end.

Definition strip (s : string) : string := rstrip (drop_while is_space s).

(** [s.split('\n')]. *)
Fixpoint split_lines (s : string) : list string :=
  match s with
  | EmptyString => [EmptyString]
  | String c s' =>
      if Ascii.eqb c newline then EmptyString :: split_lines s'
      else match split_lines s' with
           | l :: ls => String c l :: ls
           | [] => [String c EmptyString]
           end
  end.

End Text.

(** ** Report parser *)

Module Parser.

Import Text.

Definition header : string := "=== design hierarchy ===".

(** The lookahead text [\n===]. *)
Definition next_banner : string := String newline "===".

(** [.*?(?=\n===|\Z)] with [re.DOTALL]: the shortest text after which
    either [\n===] follows or the input ends; returns the text consumed and
    the remaining input. *)
Fixpoint lazy_body (s : string) : string * string :=
  if prefix next_banner s then (EmptyString, s)
  else match s with
       | EmptyString => (EmptyString, EmptyString)
       | String c s' =>
           let (body, rest) := lazy_body s' in (String c body, rest)
       end.

(** [re.finditer(r'=== design hierarchy ===.*?(?=\n===|\Z)', s, re.DOTALL)]:
    the successive non-overlapping matches, scanning from the left; after a
    match the scan resumes where the match ended.  The recursion is on
    [fuel], which [hierarchy_sections] sets above the length of the text. *)
Fixpoint finditer_from (fuel : nat) (s : string) : list string :=
  match fuel with
  | O => []
  | S fuel' =>
      if prefix header s then
        let (body, rest) := lazy_body (drop (String.length header) s) in
        (header ++ body) :: finditer_from fuel' rest
      else match s with
           | EmptyString => []
           | String _ s' => finditer_from fuel' s'
           end
  end.

Definition hierarchy_sections (output : string) : list string :=
  finditer_from (S (String.length output)) output.

(** [re.match(r'(\d+)\s+' + kw, s)]: group 1 when [s] starts with a run
    of digits, then a run of white space, then the keyword.  Both runs are
    greedy and no shorter run can succeed, since the item after a run
    never starts with a character of that run's class. *)
Definition match_count (kw s : string) : option string :=
  let ds := take_while is_digit s in
  let r1 := drop_while is_digit s in
  let ws := take_while is_space r1 in
  let r2 := drop_while is_space r1 in
  if is_empty ds then None
  else if is_empty ws then None
  else if prefix kw r2 then Some ds
  else None.

(** [re.search(r'(\d+)\s+' + kw, s)]: group 1 of the match at the leftmost
    position that has one. *)
Fixpoint search_count (kw s : string) : option string :=
  match match_count kw s with
  | Some g => Some g
  | None =>
      match s with
      | EmptyString => None
      | String _ s' => search_count kw s'
      end
  end.

(** The first alternative [\$_[A-Z]+_] after the dollar sign: an
    underscore, a run of capitals, an underscore. *)
Definition gate_primitive (s : string) : option string :=
  match s with
  | String "_" s1 =>
      let up := take_while is_upper s1 in
      if is_empty up then None
      else match drop_while is_upper s1 with
           | String "_" _ => Some ("$_" ++ up ++ "_")
           | _ => None
           end
  | _ => None
  end.

(** The second alternative [\$\w+] after the dollar sign. *)
Definition gate_macro (s : string) : option string :=
  let w := take_while is_word s in
  if is_empty w then None else Some ("$" ++ w).

(** [re.match(r'(\d+)\s+(\$_[A-Z]+_|\$\w+)', line)]: groups 1 and 2. *)
Definition match_gate_line (line : string) : option (string * string) :=
  let ds := take_while is_digit line in
  let r1 := drop_while is_digit line in
  let ws := take_while is_space r1 in
  let r2 := drop_while is_space r1 in
  if is_empty ds then None
  else if is_empty ws then None
  else match r2 with
       | String "$" r3 =>
           match gate_primitive r3 with
           | Some tok => Some (ds, tok)
           | None =>
               match gate_macro r3 with
               | Some tok => Some (ds, tok)
               | None => None
               end
           end
       | _ => None
       end.

(** The chain of comparisons on [gate_type]. *)
Definition set_gate (gate_type : string) (count : Z) (result : SynthesisResults)
  : SynthesisResults :=
  if gate_type =? "$_AND_" then set_and_gates count result
  else if gate_type =? "$_OR_" then set_or_gates count result
  else if gate_type =? "$_XOR_" then set_xor_gates count result
  else if gate_type =? "$_NOT_" then set_not_gates count result
  else if gate_type =? "$_NAND_" then set_nand_gates count result
  else if gate_type =? "$_NOR_" then set_nor_gates count result
  else if gate_type =? "$_XNOR_" then set_xnor_gates count result
  else if gate_type =? "$_MUX_" then set_mux_gates count result
  else if gate_type =? "$add" then set_add_cells count result
  else result.

Local Open Scope result_scope.

(** One iteration of the loop over the lines of the section: [int] is
    applied to group 1 of a matched line before the token is compared. *)
Definition parse_line (res : SynthesisResults) (line : string)
  : result SynthesisResults :=
  let line := strip line in
  if is_empty line then Ok res
  else match match_gate_line line with
       | Some (group1, group2) =>
           count <- int_of_digits group1 ;;
           let gate_type := group2 in
           Ok (set_gate gate_type count res)
       | None => Ok res
       end.

(** [for line in lines: ...]: the loop stops at the first line that raises. *)
Fixpoint parse_lines (res : SynthesisResults) (lines : list string)
  : result SynthesisResults :=
  match lines with
  | [] => Ok res
  | line :: lines' => res <- parse_line res line ;; parse_lines res lines'
  end.

(** The body of [if hierarchy_sections:], on the text of the last match. *)
Definition parse_section (res : SynthesisResults) (hierarchy_text : string)
  : result SynthesisResults :=
  res <- match search_count "cells" hierarchy_text with
         | Some group1 => n <- int_of_digits group1 ;; Ok (set_total_cells n res)
         | None => Ok res
         end ;;
  res <- match search_count "wires" hierarchy_text with
         | Some group1 => n <- int_of_digits group1 ;; Ok (set_wires n res)
         | None => Ok res
         end ;;
  res <- match search_count "public wires" hierarchy_text with
         | Some group1 => n <- int_of_digits group1 ;; Ok (set_public_wires n res)
         | None => Ok res
         end ;;
  parse_lines res (split_lines hierarchy_text).

Definition parse_yosys_output (name : string) (output : string)
  : result SynthesisResults :=
  let res := new_results name in
  let hierarchy_sections := hierarchy_sections output in
  match hierarchy_sections with
  | [] => Ok res
  | _ :: _ => parse_section res (last hierarchy_sections EmptyString)
  end.

End Parser.

(** ** Result store: the insertion-ordered [dict] [self.results] *)

Module Store.

Definition store : Type := list (string * SynthesisResults).

(** [d[k]] or absence. *)
Fixpoint dict_get (k : string) (d : store) : option SynthesisResults :=
  match d with
  | [] => None
  | (k', v) :: d' => if k' =? k then Some v else dict_get k d'
  end.

(** [k in d]. *)
Definition contains (k : string) (d : store) : bool :=
  match dict_get k d with
  | Some _ => true
  | None => false
  end.

(** [d[k] = v]: a present key keeps its position, a new key goes last. *)
Fixpoint dict_set (k : string) (v : SynthesisResults) (d : store) : store :=
  match d with
  | [] => [(k, v)]
  | (k', v') :: d' =>
      if k' =? k then (k, v) :: d' else (k', v') :: dict_set k v d'
  end.

Definition keys (d : store) : list string := map fst d.
Definition values (d : store) : list SynthesisResults := map snd d.

(** [min(d.items(), key=f)]: the first item is kept until a later one has
    a strictly smaller key. *)
Definition min_item_step (key : SynthesisResults -> float)
    (best x : string * SynthesisResults) : string * SynthesisResults :=
  if (key (snd x) <? key (snd best))%float then x else best.

Definition min_item (key : SynthesisResults -> float) (d : store)
  : result (string * SynthesisResults) :=
  match d with
  | [] => Raise ValueError
  | x :: xs => Ok (fold_left (min_item_step key) xs x)
  end.

End Store.

(** ** Running one variant and the whole analysis *)

Module Analyzer.

Import PyFloat Estimator Parser Store.

(** What [print] writes, one constructor per data-carrying line of the
    report; banners and column headings carry no data and are left out.
    Numbers are kept as computed, before formatting. *)
Inductive line : Type :=
| NoResults
| AreaRow (n : string) (cells : Z) (area relative : float)
| TimingRow (n : string) (delay freq speedup : float)
| PowerRow (n : string) (power energy_pj relative : float)
| GateBreakdown (n : string) (r : SynthesisResults)
| FasterThanClassical (who : string) (ratio : float)
| TimingDifference (percent : float)
| SmallerThanWallace (percent : float)
| Fastest (n : string) (delay : float)
| Smallest (n : string) (area : float)
| LeastPower (n : string) (power : float)
| Recommendation
| SavedResults (d : store).

(** Output written so far, and how the computation ended. *)
Definition printer (A : Type) : Type := list line * result A.

Definition pret {A : Type} (a : A) : printer A := ([], Ok a).

Definition pbind {A B : Type} (m : printer A) (f : A -> printer B) : printer B :=
  match m with
  | (out, Ok a) => let (out', r) := f a in ((out ++ out')%list, r)
  | (out, Raise e) => (out, Raise e)
  end.

Definition print (l : line) : printer unit := ([l], Ok tt).

Definition lift {A : Type} (r : result A) : printer A := ([], r).

Declare Scope printer_scope.
Delimit Scope printer_scope with printer.
Notation "x <- m ;; k" := (pbind m (fun x => k))
  (at level 61, m at next level, right associativity) : printer_scope.
Notation "m ;; k" := (pbind m (fun _ => k))
  (at level 61, right associativity) : printer_scope.

(** [for x in l: body(x)]. *)
Fixpoint for_each {A : Type} (l : list A) (body : A -> printer unit) : printer unit :=
  match l with
  | [] => pret tt
  | x :: l' => (body x ;; for_each l' body)%printer
  end.

(** The assignment guarded by [if result.critical_path_delay_ns > 0]. *)
Definition update_frequency (res : SynthesisResults) : result SynthesisResults :=
  (if (0 <? critical_path_delay_ns res)%float then
     freq <- div 1000 (critical_path_delay_ns res) ;;
     Ok (set_max_frequency_mhz freq res)
   else Ok res)%result.

(** The estimator: the derived fields, in the order [synthesize_design]
    assigns them to the parsed record. *)
Definition estimate (res : SynthesisResults) : result SynthesisResults :=
  (area <- calculate_area res ;;
   let res := set_estimated_area_ge area res in
   delay <- estimate_critical_path res ;;
   let res := set_critical_path_delay_ns delay res in
   power <- estimate_power res ;;
   let res := set_estimated_power_mw power res in
   update_frequency res)%result.

(** [synthesize_design]: [proc] is the standard output of the synthesis
    run, or [None] when running it or writing its log raised.  Any
    exception in the body, from the parser or from the estimator, is caught
    and turned into [None]. *)
Definition synthesize_design (name : string) (proc : option string)
  : option SynthesisResults :=
  match proc with
  | None => None
  | Some output =>
      match (res <- parse_yosys_output name output ;; estimate res)%result with
      | Ok res => Some res
      | Raise _ => None
      end
  end.

(** The placeholder records of the fallback branch.  The source writes
    the areas as the integers 5000, 4200 and 5100; each is exactly
    representable and behaves as the float of the same value. *)
Definition theoretical (n : string) (cells : Z) (area delay power freq : float)
  : SynthesisResults :=
  mkResults n cells 0 0 0 0 0 0 0 0 0 0 0 0 0 delay area power freq 0%float.

Definition theoretical_classical : SynthesisResults :=
  theoretical "Classical" 2048 5000 9.6 15.0 104.2.
Definition theoretical_dadda : SynthesisResults :=
  theoretical "Dadda" 1800 4200 6.75 12.5 148.1.
Definition theoretical_wallace : SynthesisResults :=
  theoretical "Wallace" 2200 5100 6.75 14.8 148.1.

(** The store [analyze_all] builds before it calls [generate_report]. *)
Definition insert_if_some (k : string) (r : option SynthesisResults) (d : store)
  : store :=
  match r with
  | Some v => dict_set k v d
  | None => d
  end.

Definition build_results (has_yosys : bool)
    (classical_out dadda_out wallace_out : option string) : store :=
  if has_yosys then
    let results := [] in
    let results :=
      insert_if_some "Classical" (synthesize_design "Classical" classical_out) results in
    let results :=
      insert_if_some "Dadda" (synthesize_design "Dadda" dadda_out) results in
    let results :=
      insert_if_some "Wallace" (synthesize_design "Wallace" wallace_out) results in
    results
  else
    let results := [] in
    let results := dict_set "Classical" theoretical_classical results in
    let results := dict_set "Dadda" theoretical_dadda results in
    let results := dict_set "Wallace" theoretical_wallace results in
    results.

Definition variant_order : list string := ["Classical"; "Dadda"; "Wallace"].

Definition is_nil {A : Type} (l : list A) : bool :=
  match l with
  | [] => true
  | _ :: _ => false
  end.

(** [min(xs) if xs else 1], and the same with [max]. *)
Definition min_or_one (xs : list float) : printer float :=
  if is_nil xs then pret 1%float else lift (min_list xs).
Definition max_or_one (xs : list float) : printer float :=
  if is_nil xs then pret 1%float else lift (max_list xs).

(** A loop [for name in [...]: if name in self.results: ...]. *)
Definition for_present (results : store)
    (body : string -> SynthesisResults -> printer unit) : printer unit :=
  for_each variant_order (fun name =>
    match dict_get name results with
    | Some res => body name res
    | None => pret tt
    end).

Local Open Scope printer_scope.

Definition area_analysis (results : store) : printer unit :=
  let areas := map estimated_area_ge (values results) in
  min_area <- min_or_one areas ;;
  for_present results (fun name res =>
    relative <- lift (div (estimated_area_ge res) min_area) ;;
    print (AreaRow name (total_cells res) (estimated_area_ge res) relative)).

Definition timing_analysis (results : store) : printer unit :=
  let delays := map critical_path_delay_ns (values results) in
  max_delay <- max_or_one delays ;;
  for_present results (fun name res =>
    speedup <- lift (div max_delay (critical_path_delay_ns res)) ;;
    print (TimingRow name (critical_path_delay_ns res) (max_frequency_mhz res) speedup)).

Definition power_analysis (results : store) : printer unit :=
  let powers := map estimated_power_mw (values results) in
  min_power <- min_or_one powers ;;
  for_present results (fun name res =>
    let energy_pj := (estimated_power_mw res * 10)%float in
    relative <- lift (div (estimated_power_mw res) min_power) ;;
    print (PowerRow name (estimated_power_mw res) energy_pj relative)).

Definition gate_breakdown (results : store) : printer unit :=
  for_present results (fun name res => print (GateBreakdown name res)).

(** [if "Classical" in self.results and <who> in self.results: ...]. *)
Definition faster_than_classical (who : string) (results : store) : printer unit :=
  match dict_get "Classical" results, dict_get who results with
  | Some c, Some w =>
      let c_delay := critical_path_delay_ns c in
      let w_delay := critical_path_delay_ns w in
      ratio <- lift (div c_delay w_delay) ;;
      print (FasterThanClassical who ratio)
  | _, _ => pret tt
  end.

Definition wallace_vs_dadda (results : store) : printer unit :=
  match dict_get "Wallace" results, dict_get "Dadda" results with
  | Some w, Some d =>
      let w_area := estimated_area_ge w in
      let d_area := estimated_area_ge d in
      let w_delay := critical_path_delay_ns w in
      let d_delay := critical_path_delay_ns d in
      q <- lift (div (abs (w_delay - d_delay)) (min_step w_delay d_delay)) ;;
      let timing_diff := (q * 100)%float in
      q <- lift (div (w_area - d_area) w_area) ;;
      let area_saving := (q * 100)%float in
      print (TimingDifference timing_diff) ;;
      print (SmallerThanWallace area_saving)
  | _, _ => pret tt
  end.

Definition speedup_analysis (results : store) : printer unit :=
  faster_than_classical "Wallace" results ;;
  faster_than_classical "Dadda" results ;;
  wallace_vs_dadda results.

Definition recommendation (results : store) : printer unit :=
  best_speed <- lift (min_item critical_path_delay_ns results) ;;
  best_area <- lift (min_item estimated_area_ge results) ;;
  best_power <- lift (min_item estimated_power_mw results) ;;
  print (Fastest (fst best_speed) (critical_path_delay_ns (snd best_speed))) ;;
  print (Smallest (fst best_area) (estimated_area_ge (snd best_area))) ;;
  print (LeastPower (fst best_power) (estimated_power_mw (snd best_power))) ;;
  print Recommendation.

(** [save_results]: the store as written to the results file. *)
Definition save_results (results : store) : printer unit :=
  print (SavedResults results).

Definition generate_report (results : store) : printer unit :=
  if is_nil results then print NoResults
  else
    area_analysis results ;;
    timing_analysis results ;;
    power_analysis results ;;
    gate_breakdown results ;;
    speedup_analysis results ;;
    recommendation results ;;
    save_results results.

Definition analyze_all (has_yosys : bool)
    (classical_out dadda_out wallace_out : option string) : printer unit :=
  generate_report (build_results has_yosys classical_out dadda_out wallace_out).

End Analyzer.

(** ** Vocabulary of the properties *)

Import PyFloat Estimator Text Parser Store Analyzer.

(** The nine classified terms of the area model, before the remainder. *)
Definition classified_area (r : SynthesisResults) : result float :=
  (let area := 0%float in
   area <- add_term area (and_gates r) 1.33 ;;
   area <- add_term area (or_gates r) 1.33 ;;
   area <- add_term area (xor_gates r) 2.67 ;;
   area <- add_term area (not_gates r) 0.67 ;;
   area <- add_term area (nand_gates r) 1.0 ;;
   area <- add_term area (nor_gates r) 1.0 ;;
   area <- add_term area (xnor_gates r) 2.67 ;;
   area <- add_term area (mux_gates r) 2.0 ;;
   add_term area (add_cells r) 8.0)%result.

(** The nine classified terms of the capacitance sum. *)
Definition classified_cap (r : SynthesisResults) : result float :=
  (let cap_per_gate := 1e-15%float in
   let total_cap := 0%float in
   total_cap <- add_cap total_cap (and_gates r) 2.0 cap_per_gate ;;
   total_cap <- add_cap total_cap (or_gates r) 2.0 cap_per_gate ;;
   total_cap <- add_cap total_cap (xor_gates r) 4.0 cap_per_gate ;;
   total_cap <- add_cap total_cap (not_gates r) 1.0 cap_per_gate ;;
   total_cap <- add_cap total_cap (nand_gates r) 2.0 cap_per_gate ;;
   total_cap <- add_cap total_cap (nor_gates r) 2.0 cap_per_gate ;;
   total_cap <- add_cap total_cap (xnor_gates r) 4.0 cap_per_gate ;;
   total_cap <- add_cap total_cap (mux_gates r) 3.0 cap_per_gate ;;
   add_cap total_cap (add_cells r) 10.0 cap_per_gate)%result.

(** Power in milliwatts from the total capacitance. *)
Definition power_of_cap (total_cap : float) : float :=
  (0.2 * total_cap * (1.0 * 1.0) * 100e6 * 1000)%float.

(** A record whose structural counts that the estimator reads are zero. *)
Definition zero_counts (r : SynthesisResults) : Prop :=
  total_cells r = 0 /\ and_gates r = 0 /\ or_gates r = 0 /\ xor_gates r = 0 /\
  not_gates r = 0 /\ nand_gates r = 0 /\ nor_gates r = 0 /\ xnor_gates r = 0 /\
  mux_gates r = 0 /\ add_cells r = 0.

(** The delay of a reduction tree: levels times the per-level delay, plus
    the final adder. *)
Definition tree_delay : result float :=
  (levels <- reduction_levels ;;
   t <- int_mul levels 0.25 ;;
   Ok (t + 2.0)%float)%result.

(** *** Comparison of floats

    A float that is not a NaN is ranked by a triple of integers ordered
    lexicographically: the sign class, then the exponent, then the
    mantissa, the last two negated for negative numbers.  The comparisons
    of binary64 are the comparisons of the ranks. *)
Definition sf_key (f : spec_float) : option (Z * Z * Z) :=
  match f with
  | S754_nan => None
  | S754_zero _ => Some (0, 0, 0)
  | S754_infinity s => Some (if s then -2 else 2, 0, 0)
  | S754_finite s m e => Some (if s then (-1, - e, Z.neg m) else (1, e, Z.pos m))
  end.

Definition lex_compare (a b : Z * Z * Z) : comparison :=
  let '(a1, a2, a3) := a in
  let '(b1, b2, b3) := b in
  match (a1 ?= b1)%Z with
  | Eq => match (a2 ?= b2)%Z with
          | Eq => (a3 ?= b3)%Z
          | c => c
          end
  | c => c
  end.

Definition fkey (x : float) : option (Z * Z * Z) := sf_key (Prim2SF x).

(** A finite float that is not a zero. *)
Definition finite_nonzero (x : float) : Prop :=
  exists s m e, Prim2SF x = S754_finite s m e.

(** *** Parser *)

(** The nine recognised tokens and the field each one assigns. *)
Definition gate_fields : list (string * (SynthesisResults -> Z)) :=
  [("$_AND_", and_gates); ("$_OR_", or_gates); ("$_XOR_", xor_gates);
   ("$_NOT_", not_gates); ("$_NAND_", nand_gates); ("$_NOR_", nor_gates);
   ("$_XNOR_", xnor_gates); ("$_MUX_", mux_gates); ("$add", add_cells)].

(** What the loop body reads on a line: groups 1 and 2 of the match on the
    stripped line. *)
Definition line_groups (line : string) : option (string * string) :=
  match_gate_line (strip line).

(** The count and the token of a line: the number group 1 denotes, and
    group 2. *)
Definition line_token (line : string) : option (Z * string) :=
  match line_groups line with
  | Some (group1, tok) => Some (digits_value group1, tok)
  | None => None
  end.

(** A digit run that [int] converts: at most 4300 characters. *)
Definition convertible (ds : string) : bool :=
  (Z.of_nat (String.length ds) <=? int_max_str_digits)%Z.

(** The conversion the loop body makes on a line succeeds; a line without
    a match converts nothing. *)
Definition line_converts (line : string) : bool :=
  match line_groups line with
  | Some (group1, _) => convertible group1
  | None => true
  end.

(** The conversion made after a search succeeds; a search without a match
    converts nothing. *)
Definition search_converts (kw s : string) : bool :=
  match search_count kw s with
  | Some group1 => convertible group1
  | None => true
  end.

(** Every conversion the parser makes on a section succeeds: the three
    searched counts and the count of every matched line. *)
Definition section_converts (s : string) : bool :=
  search_converts "cells" s && search_converts "wires" s &&
  search_converts "public wires" s && forallb line_converts (split_lines s).

(** The number a search reports, zero without a match. *)
Definition searched (kw s : string) : Z :=
  match search_count kw s with
  | Some group1 => digits_value group1
  | None => 0
  end.

(** The count on the last line, in order, whose token is [tok]. *)
Fixpoint last_count (tok : string) (lines : list string) : option Z :=
  match lines with
  | [] => None
  | l :: ls =>
      match last_count tok ls with
      | Some c => Some c
      | None =>
          match line_token l with
          | Some (c, t) => if t =? tok then Some c else None
          | None => None
          end
      end
  end.


Definition counts_nonneg (r : SynthesisResults) : Prop :=
  0 <= total_cells r /\ 0 <= wires r /\ 0 <= public_wires r /\
  0 <= memories r /\ 0 <= processes r /\
  0 <= and_gates r /\ 0 <= or_gates r /\ 0 <= xor_gates r /\
  0 <= not_gates r /\ 0 <= nand_gates r /\ 0 <= nor_gates r /\
  0 <= xnor_gates r /\ 0 <= mux_gates r /\ 0 <= add_cells r.

(** Whether [\n===] occurs in the text. *)
Fixpoint contains_banner (s : string) : bool :=
  prefix next_banner s ||
  match s with
  | EmptyString => false
  | String _ s' => contains_banner s'
  end.

(** Whether a character occurs in a text. *)
Fixpoint contains_char (c : ascii) (s : string) : bool :=
  match s with
  | EmptyString => false
  | String a s' => Ascii.eqb a c || contains_char c s'
  end.

(** *** Store and report *)

(** Position of a name in the canonical order of the variants. *)
Definition canonical_index (n : string) : nat :=
  if n =? "Classical" then 0
  else if n =? "Dadda" then 1
  else if n =? "Wallace" then 2
  else 3.

(** A store whose insertion order follows the canonical order. *)
Definition canonical_order (d : store) : Prop :=
  StronglySorted
    (fun x y => (canonical_index (fst x) < canonical_index (fst y))%nat) d.

(** One row per variant present in the store, in the order of the loop. *)
Definition rows_of (d : store) (row : string -> SynthesisResults -> line)
  : list line :=
  flat_map (fun n => match dict_get n d with
                     | Some r => [row n r]
                     | None => []
                     end) variant_order.

Definition nonzero (x : float) : Prop := (x =? 0)%float = false.

(** Every record of the store has non-zero area, delay and power. *)
Definition nonzero_metrics (d : store) : Prop :=
  forall n r, In (n, r) d ->
    nonzero (estimated_area_ge r) /\
    nonzero (critical_path_delay_ns r) /\
    nonzero (estimated_power_mw r).

(** Every record of the store has a finite, non-zero area, delay and
    power. *)
Definition finite_metrics (d : store) : Prop :=
  forall n r, In (n, r) d ->
    finite_nonzero (estimated_area_ge r) /\
    finite_nonzero (critical_path_delay_ns r) /\
    finite_nonzero (estimated_power_mw r).

(** The lines of the speedup section for a store, as data. *)
Definition speedup_lines (d : store) : list line :=
  ((match dict_get "Classical" d, dict_get "Wallace" d with
    | Some c, Some w =>
        [FasterThanClassical "Wallace"
           (critical_path_delay_ns c / critical_path_delay_ns w)%float]
    | _, _ => []
    end) ++
   (match dict_get "Classical" d, dict_get "Dadda" d with
    | Some c, Some dd =>
        [FasterThanClassical "Dadda"
           (critical_path_delay_ns c / critical_path_delay_ns dd)%float]
    | _, _ => []
    end) ++
   (match dict_get "Wallace" d, dict_get "Dadda" d with
    | Some w, Some dd =>
        [TimingDifference
           (abs (critical_path_delay_ns w - critical_path_delay_ns dd) /
            min_step (critical_path_delay_ns w) (critical_path_delay_ns dd) *
            100)%float;
         SmallerThanWallace
           ((estimated_area_ge w - estimated_area_ge dd) /
            estimated_area_ge w * 100)%float]
    | _, _ => []
    end))%list.

(** The reading of the comparison under which the variant holding the
    minimum delay is reported with ratio one. *)
Definition minimum_delay_reported_as_one (d : store) : Prop :=
  forall out n delay freq ratio,
    timing_analysis d = (out, Ok tt) ->
    In (TimingRow n delay freq ratio) out ->
    (forall m r, In (m, r) d -> (critical_path_delay_ns r <? delay)%float = false) ->
    ratio = 1%float.

(** The reading of the selection under which a tie goes to the variant
    that is earlier in the canonical order. *)
Definition canonical_tie_break (key : SynthesisResults -> float) (d : store)
  : Prop :=
  forall b n r,
    min_item key d = Ok b ->
    In (n, r) d ->
    (key r =? key (snd b))%float = true ->
    (canonical_index (fst b) <= canonical_index n)%nat.

(** Agreement to a relative tolerance. *)
Definition rel_close (tol a b : float) : bool :=
  (abs (a - b) <=? tol * abs b)%float.

(** The frequency of a record matches its delay: the inverse to 1e-9
    relative when the delay is positive, the zero sentinel otherwise. *)
Definition frequency_round_trip (r : SynthesisResults) : bool :=
  if (0 <? critical_path_delay_ns r)%float then
    rel_close 1e-9 (max_frequency_mhz r) (1000 / critical_path_delay_ns r)
  else (max_frequency_mhz r =? 0)%float.

(** The step of a minimum by key: keep the best so far unless the new
    item has a strictly smaller key. *)
Definition keep_smaller {A : Type} (k : A -> float) (best x : A) : A :=
  if (k x <? k best)%float then x else best.

(** *** Sample inputs *)

(** A text with two hierarchy sections of different counts: the first
    section, then the body of the second. *)
Definition first_section : string :=
  header ++ String newline "   7 cells" ++ String newline "   4 $_AND_".
Definition second_body : string :=
  String newline "   10 cells" ++ String newline "   6 $_AND_".

(** A run of [n] zeros. *)
Fixpoint zeros (n : nat) : string :=
  match n with
  | O => EmptyString
  | S n' => String "0" (zeros n')
  end.

(** An output whose only section gives the cell count with 4301 digits. *)
Definition overlong_output : string :=
  header ++ String newline (zeros 4301 ++ " cells").

(** The reading of the claim under which the parser returns, on every
    text, a record whose counts are not negative. *)
Definition parse_never_raises : Prop :=
  forall variant output,
    exists r, parse_yosys_output variant output = Ok r /\ counts_nonneg r.

(** A record whose classified sum, 5, exceeds its 3 cells. *)
Definition overfull_record : SynthesisResults :=
  set_and_gates 5 (set_total_cells 3 (new_results "Dadda")).

(** The store of the fallback branch. *)
Definition fallback_store : store := build_results false None None None.

(** *** Vocabulary of the further properties *)

(** The ten counts the estimator reads are non-negative and below [b]. *)
Definition counts_within (b : Z) (r : SynthesisResults) : Prop :=
  0 <= total_cells r < b /\ 0 <= and_gates r < b /\ 0 <= or_gates r < b /\
  0 <= xor_gates r < b /\ 0 <= not_gates r < b /\ 0 <= nand_gates r < b /\
  0 <= nor_gates r < b /\ 0 <= xnor_gates r < b /\ 0 <= mux_gates r < b /\
  0 <= add_cells r < b.

(** Two records with the same name and the same integer fields. *)
Definition same_structure (r p : SynthesisResults) : Prop :=
  name r = name p /\ total_cells r = total_cells p /\ wires r = wires p /\
  public_wires r = public_wires p /\ memories r = memories p /\
  processes r = processes p /\ and_gates r = and_gates p /\
  or_gates r = or_gates p /\ xor_gates r = xor_gates p /\
  not_gates r = not_gates p /\ nand_gates r = nand_gates p /\
  nor_gates r = nor_gates p /\ xnor_gates r = xnor_gates p /\
  mux_gates r = mux_gates p /\ add_cells r = add_cells p.

(** Whether the section header occurs in the text. *)
Fixpoint contains_header (s : string) : bool :=
  prefix header s ||
  match s with
  | EmptyString => false
  | String _ s' => contains_header s'
  end.

(** Every character of the text satisfies [p]. *)
Fixpoint all_chars (p : ascii -> bool) (s : string) : bool :=
  match s with
  | EmptyString => true
  | String c s' => p c && all_chars p s'
  end.

Definition not_digit (c : ascii) : bool := negb (is_digit c).

(** The line written by [save_results]. *)
Definition is_saved (l : line) : bool :=
  match l with
  | SavedResults _ => true
  | _ => false
  end.

(** What a pairwise line of the report says about the store: both variants
    are present, the divisor is not zero and the number is the one computed
    from their records.  The two lines that compare Wallace with Dadda are
    written together, after both of their divisions, so each comes with
    both divisors non-zero.  Other lines say nothing. *)
Definition pair_line_justified (d : store) (l : line) : Prop :=
  match l with
  | FasterThanClassical who ratio =>
      (who = "Wallace" \/ who = "Dadda") /\
      exists c w,
        dict_get "Classical" d = Some c /\ dict_get who d = Some w /\
        nonzero (critical_path_delay_ns w) /\
        ratio = (critical_path_delay_ns c / critical_path_delay_ns w)%float
  | TimingDifference percent =>
      exists w dd,
        dict_get "Wallace" d = Some w /\ dict_get "Dadda" d = Some dd /\
        nonzero
          (min_step (critical_path_delay_ns w) (critical_path_delay_ns dd)) /\
        nonzero (estimated_area_ge w) /\
        percent =
          (abs (critical_path_delay_ns w - critical_path_delay_ns dd) /
           min_step (critical_path_delay_ns w) (critical_path_delay_ns dd) *
           100)%float
  | SmallerThanWallace percent =>
      exists w dd,
        dict_get "Wallace" d = Some w /\ dict_get "Dadda" d = Some dd /\
        nonzero
          (min_step (critical_path_delay_ns w) (critical_path_delay_ns dd)) /\
        nonzero (estimated_area_ge w) /\
        percent =
          ((estimated_area_ge w - estimated_area_ge dd) /
           estimated_area_ge w * 100)%float
  | _ => True
  end.

(** Some variant of the three names is in the store. *)
Definition some_variant_present (d : store) : Prop :=
  exists n, In n variant_order /\ contains n d = true.

(** A run that did not complete, or whose output has no hierarchy section. *)
Definition without_section (proc : option string) : Prop :=
  match proc with
  | Some output => hierarchy_sections output = []
  | None => True
  end.

(** The eight gate primitives among the recognised tokens. *)
Definition primitive_tokens : list string :=
  ["$_AND_"; "$_OR_"; "$_XOR_"; "$_NOT_"; "$_NAND_"; "$_NOR_"; "$_XNOR_";
   "$_MUX_"].

(** The store of a run in which only Dadda completed, with a section. *)
Definition dadda_only_store : store :=
  build_results true None (Some (header ++ second_body)) None.

(** ** The estimator *)

Section EstimatorFacts.

Local Open Scope result_scope.

Lemma known_gates_unfold (r : SynthesisResults) :
  calculate_area r =
    (a <- classified_area r ;; add_term a (other_cells r) 2.0).
Proof.
  unfold calculate_area, classified_area, other_cells.
  repeat (match goal with
          | |- context [add_term ?a ?n ?w] =>
              destruct (add_term a n w); simpl; try reflexivity
          end).
Qed.

Lemma power_unfold (r : SynthesisResults) :
  estimate_power r =
    (c <- classified_cap r ;;
     c <- add_cap c (other_cells r) 2.5 1e-15 ;;
     Ok (power_of_cap c)).
Proof.
  unfold estimate_power, classified_cap, other_cells, power_of_cap.
  repeat (match goal with
          | |- context [add_cap ?a ?n ?w ?c] =>
              destruct (add_cap a n w c); simpl; try reflexivity
          end).
Qed.

(** C6: the remainder both models price is [total_cells] minus the nine
    classified counts, clamped at zero; it is never negative, and when the
    classified sum exceeds [total_cells] it is zero and adds a zero term to
    the area and to the capacitance. *)
Theorem other_cells_clamped (r : SynthesisResults) :
  other_cells r = Z.max 0 (total_cells r - known_gates r) /\
  0 <= other_cells r /\
  (known_gates r <= total_cells r ->
     other_cells r = total_cells r - known_gates r) /\
  (total_cells r < known_gates r ->
     other_cells r = 0 /\
     calculate_area r = (a <- classified_area r ;; Ok (a + 0 * 2.0)%float) /\
     estimate_power r =
       (c <- classified_cap r ;; Ok (power_of_cap (c + 0 * 2.5 * 1e-15)%float))) /\
  calculate_area r = (a <- classified_area r ;; add_term a (other_cells r) 2.0) /\
  estimate_power r =
    (c <- classified_cap r ;;
     c <- add_cap c (other_cells r) 2.5 1e-15 ;;
     Ok (power_of_cap c)).
Proof.
  assert (Hmax : other_cells r = Z.max 0 (total_cells r - known_gates r))
    by reflexivity.
  repeat split.
  - rewrite Hmax. apply Z.le_max_l.
  - intros. rewrite Hmax. lia.
  - rewrite Hmax. lia.
  - rewrite known_gates_unfold.
    replace (other_cells r) with 0 by (rewrite Hmax; lia).
    reflexivity.
  - rewrite power_unfold.
    replace (other_cells r) with 0 by (rewrite Hmax; lia).
    reflexivity.
  - apply known_gates_unfold.
  - apply power_unfold.
Qed.

Lemma other_cells_clamped_witness :
  total_cells overfull_record < known_gates overfull_record /\
  other_cells overfull_record = 0 /\
  calculate_area overfull_record = Ok 6.65%float.
Proof.
  assert (H : total_cells overfull_record < known_gates overfull_record)
    by (vm_compute; reflexivity).
  split; [exact H|].
  destruct (other_cells_clamped overfull_record) as (_ & _ & _ & Hover & _).
  destruct (Hover H) as (H0 & Ha & _).
  split; [exact H0|]. rewrite Ha. vm_compute. reflexivity.
Defined.

(** C9: on a record named "Classical" whose counts are all zero the
    estimator gives area 0.0, delay 9.6 ns (32 stages of 0.3 ns), frequency
    1000 / 9.6 (about 104.17 MHz) and power 0.0. *)
Theorem classical_zero_estimate (r : SynthesisResults) :
  name r = "Classical" ->
  zero_counts r ->
  calculate_area r = Ok 0%float /\
  estimate_critical_path r = int_mul 32 0.3 /\
  estimate_critical_path r = Ok 9.6%float /\
  estimate_power r = Ok 0%float /\
  exists r',
    estimate r = Ok r' /\
    estimated_area_ge r' = 0%float /\
    critical_path_delay_ns r' = 9.6%float /\
    max_frequency_mhz r' = (1000 / 9.6)%float /\
    (abs (max_frequency_mhz r' - 104.17) <? 0.005)%float = true /\
    estimated_power_mw r' = 0%float.
Proof.
  destruct r; unfold zero_counts; simpl.
  intros -> (-> & -> & -> & -> & -> & -> & -> & -> & -> & ->).
  split; [vm_compute; reflexivity|].
  split; [reflexivity|].
  split; [vm_compute; reflexivity|].
  split; [vm_compute; reflexivity|].
  eexists; split; [vm_compute; reflexivity|].
  cbn [estimated_area_ge critical_path_delay_ns max_frequency_mhz estimated_power_mw].
  split; [reflexivity|].
  split; [reflexivity|].
  split; [vm_compute; reflexivity|].
  split; vm_compute; reflexivity.
Qed.

Lemma classical_zero_estimate_witness :
  name (new_results "Classical") = "Classical" /\
  zero_counts (new_results "Classical") /\
  estimate_critical_path (new_results "Classical") = Ok 9.6%float.
Proof.
  assert (Hn : name (new_results "Classical") = "Classical") by reflexivity.
  assert (Hz : zero_counts (new_results "Classical"))
    by (vm_compute; repeat split).
  split; [exact Hn|]. split; [exact Hz|].
  exact (proj1 (proj2 (proj2
           (classical_zero_estimate (new_results "Classical") Hn Hz)))).
Defined.

(** C7: the timing model reads only the name.  Two records with the same
    name get the same delay; Wallace and Dadda both get
    ceil(log 32 / log 1.5) = 9 levels of 0.25 ns plus 2.0 ns, hence the same
    4.25 ns; every name other than the three variants gets 5.0 ns. *)
Theorem timing_depends_on_name_only :
  (forall r1 r2, name r1 = name r2 ->
     estimate_critical_path r1 = estimate_critical_path r2) /\
  (forall r, name r = "Wallace" \/ name r = "Dadda" ->
     estimate_critical_path r = tree_delay) /\
  reduction_levels = (q <- div log_32 log_1_5 ;; ceil q) /\
  reduction_levels = Ok 9 /\
  tree_delay = Ok 4.25%float /\
  (forall rw rd, name rw = "Wallace" -> name rd = "Dadda" ->
     estimate_critical_path rw = estimate_critical_path rd) /\
  (forall r, name r <> "Classical" -> name r <> "Wallace" -> name r <> "Dadda" ->
     estimate_critical_path r = Ok 5.0%float).
Proof.
  assert (Htree : forall r, name r = "Wallace" \/ name r = "Dadda" ->
            estimate_critical_path r = tree_delay).
  { intros r [H | H]; unfold estimate_critical_path; rewrite H; reflexivity. }
  split; [|split; [|split; [|split; [|split; [|split]]]]].
  - intros r1 r2 H. unfold estimate_critical_path. rewrite H. reflexivity.
  - exact Htree.
  - reflexivity.
  - vm_compute. reflexivity.
  - vm_compute. reflexivity.
  - intros rw rd Hw Hd. rewrite (Htree rw), (Htree rd); auto.
  - intros r Hc Hw Hd. unfold estimate_critical_path.
    apply String.eqb_neq in Hc, Hw, Hd. rewrite Hc, Hw, Hd. reflexivity.
Qed.

Lemma timing_depends_on_name_only_witness :
  estimate_critical_path (new_results "Wallace") =
  estimate_critical_path overfull_record.
Proof.
  destruct timing_depends_on_name_only as (_ & _ & _ & _ & _ & H & _).
  apply H; reflexivity.
Defined.

End EstimatorFacts.

(** ** Floats *)

Section FloatFacts.

Lemma SFcompare_key (x y : spec_float) :
  SFcompare x y =
    match sf_key x, sf_key y with
    | Some kx, Some ky => Some (lex_compare kx ky)
    | _, _ => None
    end.
Proof.
  destruct x as [sx | sx | | sx mx ex], y as [sy | sy | | sy my ey];
    try destruct sx; try destruct sy; try reflexivity.
  cbn [SFcompare sf_key lex_compare].
  change (-1 ?= -1)%Z with Eq. cbv iota.
  rewrite Z.compare_opp.
  destruct (Z.compare_spec ey ex) as [H | H | H].
  - subst. rewrite Z.compare_refl. reflexivity.
  - rewrite (proj2 (Z.compare_gt_iff ex ey)) by lia. reflexivity.
  - rewrite (proj2 (Z.compare_lt_iff ex ey)) by lia. reflexivity.
Qed.

Lemma lex_compare_refl (a : Z * Z * Z) : lex_compare a a = Eq.
Proof.
  destruct a as [[a1 a2] a3]. unfold lex_compare.
  now rewrite !Z.compare_refl.
Qed.

Ltac lex_cases :=
  unfold lex_compare;
  repeat match goal with
         | |- context [Z.compare ?a ?b] => destruct (Z.compare_spec a b)
         | H : context [Z.compare ?a ?b] |- _ => destruct (Z.compare_spec a b)
         end;
  try congruence; try lia.

Lemma lex_compare_eq (a b : Z * Z * Z) : lex_compare a b = Eq -> a = b.
Proof.
  destruct a as [[a1 a2] a3], b as [[b1 b2] b3]. lex_cases.
Qed.

Lemma lex_compare_lt_trans (a b c : Z * Z * Z) :
  lex_compare a b = Lt -> lex_compare b c = Lt -> lex_compare a c = Lt.
Proof.
  destruct a as [[a1 a2] a3], b as [[b1 b2] b3], c as [[c1 c2] c3]. lex_cases.
Qed.

Lemma ltb_key (x y : float) :
  (x <? y)%float =
    match fkey x, fkey y with
    | Some kx, Some ky =>
        match lex_compare kx ky with Lt => true | _ => false end
    | _, _ => false
    end.
Proof.
  rewrite ltb_spec. unfold SFltb, fkey. rewrite SFcompare_key.
  destruct (sf_key (Prim2SF x)), (sf_key (Prim2SF y)); reflexivity.
Qed.

Lemma eqb_key (x y : float) :
  (x =? y)%float =
    match fkey x, fkey y with
    | Some kx, Some ky =>
        match lex_compare kx ky with Eq => true | _ => false end
    | _, _ => false
    end.
Proof.
  rewrite eqb_spec. unfold SFeqb, fkey. rewrite SFcompare_key.
  destruct (sf_key (Prim2SF x)), (sf_key (Prim2SF y)); reflexivity.
Qed.

Lemma ltb_irrefl (x : float) : (x <? x)%float = false.
Proof.
  rewrite ltb_key. destruct (fkey x); [|reflexivity].
  now rewrite lex_compare_refl.
Qed.

Lemma ltb_trans (x y z : float) :
  (x <? y)%float = true -> (y <? z)%float = true -> (x <? z)%float = true.
Proof.
  rewrite !ltb_key.
  destruct (fkey x) as [kx|], (fkey y) as [ky|], (fkey z) as [kz|];
    try discriminate.
  destruct (lex_compare kx ky) eqn:Hxy; try discriminate.
  destruct (lex_compare ky kz) eqn:Hyz; try discriminate.
  now rewrite (lex_compare_lt_trans _ _ _ Hxy Hyz).
Qed.

Lemma eqb_ltb_compat (x y z : float) :
  (x =? y)%float = true -> (y <? z)%float = true -> (x <? z)%float = true.
Proof.
  rewrite eqb_key, !ltb_key.
  destruct (fkey x) as [kx|], (fkey y) as [ky|], (fkey z) as [kz|];
    try discriminate.
  destruct (lex_compare kx ky) eqn:Hxy; try discriminate.
  apply lex_compare_eq in Hxy. now subst.
Qed.

Lemma ltb_not_eqb (x y : float) :
  (x <? y)%float = true -> (y =? x)%float = false.
Proof.
  intros H. destruct (y =? x)%float eqn:E; [|reflexivity].
  pose proof (eqb_ltb_compat _ _ _ E H) as Hyy.
  rewrite ltb_irrefl in Hyy. discriminate.
Qed.

Lemma positive_nonzero (d : float) :
  (0 <? d)%float = true -> (d =? 0)%float = false.
Proof. apply ltb_not_eqb. Qed.

Lemma lex_compare_antisym (a b : Z * Z * Z) :
  lex_compare a b <> Lt -> lex_compare b a <> Lt -> a = b.
Proof.
  destruct a as [[a1 a2] a3], b as [[b1 b2] b3]. lex_cases.
Qed.

(** Two finite non-zero floats neither of which is below the other are the
    same float. *)
Lemma float_minimal_eq (x y : float) :
  finite_nonzero x -> finite_nonzero y ->
  (x <? y)%float = false -> (y <? x)%float = false -> x = y.
Proof.
  intros (s & m & e & Hx) (s' & m' & e' & Hy).
  rewrite !ltb_key. unfold fkey. rewrite Hx, Hy. cbn [sf_key].
  intros H1 H2. apply Prim2SF_inj. rewrite Hx, Hy.
  match type of H1 with
  | match lex_compare ?a ?b with _ => _ end = _ =>
      assert (Hk : a = b)
        by (apply lex_compare_antisym;
            [destruct (lex_compare a b) | destruct (lex_compare b a)];
            congruence)
  end.
  destruct s, s'; try discriminate Hk; injection Hk as He Hm;
    f_equal; lia.
Qed.

Lemma SFdiv_self (s : bool) (m : positive) (e : Z) :
  SF64div (S754_finite s m e) (S754_finite s m e) = Prim2SF 1.
Proof.
  unfold SF64div, SFdiv, SFdiv_core_binary.
  replace (Zdigits2 (Z.pos m) + e - (Zdigits2 (Z.pos m) + e)) with 0 by lia.
  replace (e - e) with 0 by lia.
  change (Z.min (fexp prec emax 0) 0) with (-53).
  change (0 - -53) with 53.
  cbv iota.
  assert (Hdiv : Z.div_eucl (Z.shiftl (Z.pos m) 53) (Z.pos m) = (2 ^ 53, 0)).
  { rewrite Z.shiftl_mul_pow2 by lia.
    pose proof (Z.div_eucl_eq (Z.pos m * 2 ^ 53) (Z.pos m) ltac:(lia)) as H.
    pose proof (Z.mod_pos_bound (Z.pos m * 2 ^ 53) (Z.pos m) ltac:(lia)) as Hb.
    unfold Z.modulo in Hb.
    destruct (Z.div_eucl (Z.pos m * 2 ^ 53) (Z.pos m)) as [q r].
    assert (r = 0 /\ q = 2 ^ 53) as [-> ->]; [|reflexivity].
    assert (Z.pos m * (2 ^ 53 - q) = r) by lia.
    assert (2 ^ 53 - q = 0) by nia.
    lia. }
  rewrite Hdiv.
  assert (Hloc : new_location (Z.pos m) 0 = loc_Exact).
  { unfold new_location. destruct (Z.even (Z.pos m)); reflexivity. }
  rewrite Hloc. destruct s; vm_compute; reflexivity.
Qed.

Lemma div_self (x : float) (s : bool) (m : positive) (e : Z) :
  Prim2SF x = S754_finite s m e -> (x / x)%float = 1%float.
Proof.
  intros H. apply Prim2SF_inj. rewrite div_spec, H. apply SFdiv_self.
Qed.

End FloatFacts.

(** ** The parser *)

Section ParserFacts.

Lemma is_empty_true (s : string) : is_empty s = true -> s = "".
Proof. destruct s; [reflexivity | discriminate]. Qed.

Lemma set_gate_field (t : string) (g : SynthesisResults -> Z) :
  In (t, g) gate_fields ->
  forall tok c r, g (set_gate tok c r) = if tok =? t then c else g r.
Proof.
  intros Hin tok c r. unfold set_gate.
  simpl in Hin.
  repeat (destruct Hin as [Hin | Hin]; [injection Hin as <- <- | ]);
    try contradiction.
  all: repeat match goal with
         | |- context [if ?x =? ?k then _ else _] =>
             is_var x;
             let E := fresh "E" in
             destruct (x =? k) eqn:E;
             [ apply String.eqb_eq in E; subst x | ]
         end; try reflexivity; try discriminate.
Qed.

Lemma set_gate_structure (tok : string) (c : Z) (r : SynthesisResults) :
  name (set_gate tok c r) = name r /\
  total_cells (set_gate tok c r) = total_cells r /\
  wires (set_gate tok c r) = wires r /\
  public_wires (set_gate tok c r) = public_wires r /\
  memories (set_gate tok c r) = memories r /\
  processes (set_gate tok c r) = processes r /\
  critical_path_delay_ns (set_gate tok c r) = critical_path_delay_ns r /\
  estimated_area_ge (set_gate tok c r) = estimated_area_ge r /\
  estimated_power_mw (set_gate tok c r) = estimated_power_mw r /\
  max_frequency_mhz (set_gate tok c r) = max_frequency_mhz r /\
  simulation_time_ms (set_gate tok c r) = simulation_time_ms r.
Proof.
  unfold set_gate.
  repeat match goal with
         | |- context [if ?b then _ else _] => destruct b
         end; repeat split.
Qed.

Lemma set_gate_nonneg (tok : string) (c : Z) (r : SynthesisResults) :
  0 <= c -> counts_nonneg r -> counts_nonneg (set_gate tok c r).
Proof.
  intros Hc Hr. unfold counts_nonneg in *. unfold set_gate.
  repeat match goal with
         | |- context [if ?b then _ else _] => destruct b
         end; simpl; intuition.
Qed.

Lemma int_of_digits_spec (ds : string) :
  int_of_digits ds =
    if convertible ds then Ok (digits_value ds) else Raise ValueError.
Proof.
  unfold int_of_digits, convertible. rewrite Z.ltb_antisym.
  destruct (Z.of_nat (String.length ds) <=? int_max_str_digits)%Z; reflexivity.
Qed.

(** One iteration of the loop: it raises when the count of the line does
    not convert, and otherwise assigns the count of a matched line. *)
Lemma parse_line_spec (r : SynthesisResults) (l : string) :
  parse_line r l =
    if line_converts l then
      Ok match line_token l with
         | Some (c, tok) => set_gate tok c r
         | None => r
         end
    else Raise ValueError.
Proof.
  unfold parse_line, line_converts, line_token, line_groups.
  destruct (is_empty (strip l)) eqn:E.
  - apply is_empty_true in E. rewrite E. reflexivity.
  - destruct (match_gate_line (strip l)) as [[g1 g2]|]; [|reflexivity].
    rewrite int_of_digits_spec. destruct (convertible g1); reflexivity.
Qed.

Lemma parse_line_ok (r r' : SynthesisResults) (l : string) :
  parse_line r l = Ok r' ->
  r' = match line_token l with
       | Some (c, tok) => set_gate tok c r
       | None => r
       end.
Proof.
  rewrite parse_line_spec. destruct (line_converts l); congruence.
Qed.

Lemma parse_line_exn (r : SynthesisResults) (l : string) (e : exn) :
  parse_line r l = Raise e -> e = ValueError.
Proof.
  rewrite parse_line_spec. destruct (line_converts l); congruence.
Qed.

(** The loop returns exactly when every line converts. *)
Lemma parse_lines_returns (lines : list string) :
  forall r, forallb line_converts lines = true ->
  exists r', parse_lines r lines = Ok r'.
Proof.
  induction lines as [|l ls IH]; intros r H; cbn [parse_lines].
  - now exists r.
  - cbn [forallb] in H. apply andb_true_iff in H as [Hl Hls].
    rewrite parse_line_spec, Hl. cbn [rbind]. now apply IH.
Qed.

Lemma parse_lines_raises (lines : list string) :
  forall r, forallb line_converts lines = false ->
  parse_lines r lines = Raise ValueError.
Proof.
  induction lines as [|l ls IH]; intros r H; cbn [parse_lines forallb] in *;
    [discriminate|].
  rewrite parse_line_spec. destruct (line_converts l); [|reflexivity].
  cbn [rbind]. now apply IH.
Qed.

Lemma parse_lines_exn (lines : list string) (e : exn) :
  forall r, parse_lines r lines = Raise e -> e = ValueError.
Proof.
  induction lines as [|l ls IH]; intros r; cbn [parse_lines]; [discriminate|].
  destruct (parse_line r l) as [r1|e1] eqn:E; cbn [rbind].
  - apply IH.
  - intros [= <-]. eapply parse_line_exn; eauto.
Qed.

(** The loop assigns: after it, a gate field holds the count of the last
    line carrying its token, or what it held before when there is none. *)
Lemma parse_lines_field (t : string) (g : SynthesisResults -> Z) :
  In (t, g) gate_fields ->
  forall lines r r',
    parse_lines r lines = Ok r' ->
    g r' =
      match last_count t lines with
      | Some c => c
      | None => g r
      end.
Proof.
  intros Hin lines. induction lines as [|l ls IH]; intros r r';
    cbn [parse_lines last_count]; [now intros [= <-]|].
  destruct (parse_line r l) as [r1|] eqn:E; [|discriminate]. cbn [rbind].
  intros H. rewrite (IH _ _ H).
  destruct (last_count t ls); [reflexivity|].
  rewrite (parse_line_ok _ _ _ E).
  destruct (line_token l) as [[c tok]|]; [|reflexivity].
  rewrite (set_gate_field t g Hin).
  destruct (tok =? t); reflexivity.
Qed.

Lemma parse_lines_structure (lines : list string) :
  forall r r',
  parse_lines r lines = Ok r' ->
  name r' = name r /\ total_cells r' = total_cells r /\ wires r' = wires r /\
  public_wires r' = public_wires r /\ memories r' = memories r /\
  processes r' = processes r /\
  critical_path_delay_ns r' = critical_path_delay_ns r /\
  estimated_area_ge r' = estimated_area_ge r /\
  estimated_power_mw r' = estimated_power_mw r /\
  max_frequency_mhz r' = max_frequency_mhz r /\
  simulation_time_ms r' = simulation_time_ms r.
Proof.
  induction lines as [|l ls IH]; intros r r'; cbn [parse_lines].
  - intros [= <-]. repeat split.
  - destruct (parse_line r l) as [r1|] eqn:E; [|discriminate]. cbn [rbind].
    intros H. specialize (IH _ _ H).
    rewrite (parse_line_ok _ _ _ E) in IH.
    destruct (line_token l) as [[c tok]|]; [|exact IH].
    pose proof (set_gate_structure tok c r) as Hs.
    intuition congruence.
Qed.

(** Digits and counts. *)
Lemma digit_value_nonneg (c : ascii) : is_digit c = true -> 0 <= digit_value c.
Proof.
  unfold is_digit, in_range, digit_value. intros H.
  apply andb_true_iff in H as [H _]. apply N.leb_le in H. lia.
Qed.

Lemma digits_value_acc_nonneg (s : string) :
  forall acc, 0 <= acc -> 0 <= digits_value_acc acc (take_while is_digit s).
Proof.
  induction s as [|c s IH]; intros acc Hacc; cbn [take_while]; [exact Hacc|].
  destruct (is_digit c) eqn:E; [|exact Hacc].
  cbn [digits_value_acc]. apply IH.
  pose proof (digit_value_nonneg c E). lia.
Qed.

Lemma digits_value_nonneg (s : string) :
  0 <= digits_value (take_while is_digit s).
Proof. apply digits_value_acc_nonneg. lia. Qed.

Lemma match_count_nonneg (kw s g : string) :
  match_count kw s = Some g -> 0 <= digits_value g.
Proof.
  unfold match_count.
  repeat match goal with
         | |- context [if ?b then _ else _] => destruct b
         end; try discriminate.
  intros [= <-]. apply digits_value_nonneg.
Qed.

Lemma search_count_nonneg (kw s g : string) :
  search_count kw s = Some g -> 0 <= digits_value g.
Proof.
  induction s as [|c s IH]; cbn [search_count].
  - destruct (match_count kw "") eqn:E; [|discriminate].
    intros [= <-]. eapply match_count_nonneg; eauto.
  - destruct (match_count kw (String c s)) eqn:E; [|exact IH].
    intros [= <-]. eapply match_count_nonneg; eauto.
Qed.

Lemma searched_nonneg (kw s : string) : 0 <= searched kw s.
Proof.
  unfold searched. destruct (search_count kw s) eqn:E; [|lia].
  eapply search_count_nonneg; eauto.
Qed.

Lemma match_gate_line_nonneg (l g tok : string) :
  match_gate_line l = Some (g, tok) -> 0 <= digits_value g.
Proof.
  unfold match_gate_line.
  destruct (is_empty (take_while is_digit l)); [discriminate|].
  destruct (is_empty _); [discriminate|].
  destruct (drop_while is_space (drop_while is_digit l)) as [|a r3];
    [discriminate|].
  destruct (Ascii.eqb a "$") eqn:Ea.
  - apply Ascii.eqb_eq in Ea. subst a.
    destruct (gate_primitive r3); [|destruct (gate_macro r3)];
      try discriminate; intros [= <- _]; apply digits_value_nonneg.
  - intros H. exfalso. revert H.
    destruct a as [[] [] [] [] [] [] [] []]; try discriminate.
Qed.

Lemma line_token_nonneg (l : string) (c : Z) (tok : string) :
  line_token l = Some (c, tok) -> 0 <= c.
Proof.
  unfold line_token, line_groups.
  destruct (match_gate_line (strip l)) as [[g t]|] eqn:E; [|discriminate].
  intros [= <- _]. eapply match_gate_line_nonneg; eauto.
Qed.

Lemma parse_lines_nonneg (lines : list string) :
  forall r r', counts_nonneg r -> parse_lines r lines = Ok r' ->
  counts_nonneg r'.
Proof.
  induction lines as [|l ls IH]; intros r r' Hr; cbn [parse_lines].
  - now intros [= <-].
  - destruct (parse_line r l) as [r1|] eqn:E; [|discriminate]. cbn [rbind].
    apply IH. rewrite (parse_line_ok _ _ _ E).
    destruct (line_token l) as [[c tok]|] eqn:Et; [|exact Hr].
    apply set_gate_nonneg; [|exact Hr].
    eapply line_token_nonneg; eauto.
Qed.

(** *** Hierarchy sections *)

Lemma append_assoc (a b c : string) : (a ++ b) ++ c = a ++ (b ++ c).
Proof. induction a as [|x a IH]; simpl; [reflexivity | now rewrite IH]. Qed.

Lemma length_append (a b : string) :
  String.length (a ++ b) = (String.length a + String.length b)%nat.
Proof. induction a as [|x a IH]; simpl; [reflexivity | now rewrite IH]. Qed.

Lemma prefix_append (h t : string) : prefix h (h ++ t) = true.
Proof.
  induction h as [|a h IH]; [destruct t; reflexivity|].
  simpl. destruct (ascii_dec a a); [exact IH | congruence].
Qed.

Lemma prefix_split (h s : string) :
  prefix h s = true -> s = h ++ drop (String.length h) s.
Proof.
  revert s. induction h as [|a h IH]; intros s H; [reflexivity|].
  destruct s as [|b s]; [discriminate|].
  simpl in H. destruct (ascii_dec a b); [|discriminate].
  subst b. simpl. f_equal. now apply IH.
Qed.

Lemma drop_append (h t : string) : drop (String.length h) (h ++ t) = t.
Proof. induction h as [|a h IH]; [reflexivity | exact IH]. Qed.

(** A text without the newline, found at the start of [p ++ "\n" ++ t],
    lies inside [p]. *)
Lemma prefix_before_newline (h p t : string) :
  contains_char newline h = false ->
  prefix h (p ++ String newline t) = true ->
  exists p', p = h ++ p'.
Proof.
  revert p. induction h as [|a h IH]; intros p Hn H; [now exists p|].
  cbn [contains_char] in Hn. apply orb_false_iff in Hn as [Ha Hh].
  destruct p as [|b p]; simpl in H.
  - destruct (ascii_dec a newline) as [->|]; [|discriminate].
    rewrite Ascii.eqb_refl in Ha. discriminate.
  - destruct (ascii_dec a b) as [->|]; [|discriminate].
    destruct (IH p Hh H) as [p' ->]. now exists p'.
Qed.


(** Up to the next banner, the lazy body consumes a part of what precedes
    it and leaves the banner in place. *)
Lemma lazy_body_before_banner (p t : string) :
  exists b p',
    lazy_body (p ++ next_banner ++ t) = (b, p' ++ next_banner ++ t) /\
    (String.length p' <= String.length p)%nat.
Proof.
  induction p as [|c p IH].
  - exists "", "". split; [|apply Nat.le_refl].
    change ("" ++ next_banner ++ t) with (String newline ("===" ++ t)).
    cbn [lazy_body].
    assert (Hp : prefix next_banner (String newline ("===" ++ t)) = true)
      by apply (prefix_append next_banner t).
    now rewrite Hp.
  - change (String c p ++ next_banner ++ t)
      with (String c (p ++ next_banner ++ t)).
    cbn [lazy_body].
    destruct (prefix next_banner (String c (p ++ next_banner ++ t))).
    + exists "", (String c p). split; [reflexivity | apply Nat.le_refl].
    + destruct IH as (b & p' & -> & Hlen).
      exists (String c b), p'. split; [reflexivity|]. simpl. lia.
Qed.




(** Enough fuel: above the length of the text, more fuel changes nothing. *)
Lemma lazy_body_length (s : string) :
  (String.length (snd (lazy_body s)) <= String.length s)%nat.
Proof.
  induction s as [|c s IH]; cbn [lazy_body].
  - destruct (prefix next_banner ""); apply Nat.le_refl.
  - destruct (prefix next_banner (String c s)); [apply Nat.le_refl|].
    destruct (lazy_body s) as [b r]. simpl in *. lia.
Qed.

Lemma drop_length (n : nat) (s : string) :
  String.length (drop n s) = (String.length s - n)%nat.
Proof.
  revert s. induction n as [|n IH]; intros s; [simpl; lia|].
  destruct s as [|c s]; [reflexivity | apply IH].
Qed.

Lemma finditer_fuel (n m : nat) :
  forall s, (String.length s < n)%nat -> (String.length s < m)%nat ->
  finditer_from n s = finditer_from m s.
Proof.
  revert m. induction n as [|n IH]; intros m s Hn Hm; [inversion Hn|].
  destruct m as [|m]; [inversion Hm|].
  cbn [finditer_from].
  destruct (prefix header s) eqn:Hp.
  - pose proof (lazy_body_length (drop (String.length header) s)) as Hl.
    rewrite drop_length in Hl.
    pose proof (prefix_split _ _ Hp) as Hs.
    assert (String.length header <= String.length s)%nat.
    { rewrite Hs, length_append. lia. }
    destruct (lazy_body (drop (String.length header) s)) as [b r].
    simpl in Hl. change (String.length header) with 24%nat in *.
    f_equal. apply IH; lia.
  - destruct s as [|c s]; [reflexivity|]. apply IH; simpl in *; lia.
Qed.

(** *** The parsed record *)

Lemma hierarchy_sections_empty_text : hierarchy_sections "" = [].
Proof. reflexivity. Qed.

Lemma parse_of_last_section (name output : string) (earlier : list string)
    (s : string) :
  hierarchy_sections output = (earlier ++ [s])%list ->
  parse_yosys_output name output = parse_section (new_results name) s.
Proof.
  intros H. unfold parse_yosys_output. rewrite H, last_last.
  destruct earlier; reflexivity.
Qed.

Lemma parse_without_section (name output : string) :
  hierarchy_sections output = [] ->
  parse_yosys_output name output = Ok (new_results name).
Proof. intros H. unfold parse_yosys_output. now rewrite H. Qed.

Lemma sections_nil_or_last (output : string) :
  hierarchy_sections output = [] \/
  exists earlier s, hierarchy_sections output = (earlier ++ [s])%list.
Proof.
  destruct (hierarchy_sections output) as [|x l] eqn:E; [now left | right].
  destruct (exists_last (l := x :: l)) as (earlier & s & ->); [discriminate|].
  now exists earlier, s.
Qed.

(** A search followed by its conversion and assignment. *)
Lemma search_step (kw : string) (set : Z -> SynthesisResults -> SynthesisResults)
    (r : SynthesisResults) (s : string) :
  match search_count kw s with
  | Some group1 => rbind (int_of_digits group1) (fun n => Ok (set n r))
  | None => Ok r
  end =
  if search_converts kw s then
    Ok match search_count kw s with
       | Some group1 => set (digits_value group1) r
       | None => r
       end
  else Raise ValueError.
Proof.
  unfold search_converts.
  destruct (search_count kw s) as [g|]; [|reflexivity].
  rewrite int_of_digits_spec. destruct (convertible g); reflexivity.
Qed.

(** The section as a whole: the three searched counts are assigned, then
    the loop runs on the lines. *)
Lemma parse_section_spec (r : SynthesisResults) (s : string) :
  parse_section r s =
    if search_converts "cells" s && search_converts "wires" s &&
       search_converts "public wires" s
    then
      parse_lines
        (let r1 := match search_count "cells" s with
                   | Some g => set_total_cells (digits_value g) r
                   | None => r
                   end in
         let r2 := match search_count "wires" s with
                   | Some g => set_wires (digits_value g) r1
                   | None => r1
                   end in
         match search_count "public wires" s with
         | Some g => set_public_wires (digits_value g) r2
         | None => r2
         end)
        (split_lines s)
    else Raise ValueError.
Proof.
  unfold parse_section.
  rewrite (search_step "cells" set_total_cells r s).
  destruct (search_converts "cells" s); [|reflexivity]. cbn [rbind andb].
  match goal with
  | |- context [set_wires _ ?r1] =>
      rewrite (search_step "wires" set_wires r1 s)
  end.
  destruct (search_converts "wires" s); [|reflexivity]. cbn [rbind andb].
  match goal with
  | |- context [set_public_wires _ ?r2] =>
      rewrite (search_step "public wires" set_public_wires r2 s)
  end.
  destruct (search_converts "public wires" s); reflexivity.
Qed.

Lemma parse_section_returns (r : SynthesisResults) (s : string) :
  section_converts s = true -> exists r', parse_section r s = Ok r'.
Proof.
  unfold section_converts. intros H. apply andb_true_iff in H as [Hs Hl].
  rewrite parse_section_spec, Hs. now apply parse_lines_returns.
Qed.

Lemma parse_section_raises (r : SynthesisResults) (s : string) :
  section_converts s = false -> parse_section r s = Raise ValueError.
Proof.
  unfold section_converts. intros H. rewrite parse_section_spec.
  destruct (search_converts "cells" s && search_converts "wires" s &&
            search_converts "public wires" s); [|reflexivity].
  now apply parse_lines_raises.
Qed.

Lemma parse_section_exn (r : SynthesisResults) (s : string) (e : exn) :
  parse_section r s = Raise e -> e = ValueError.
Proof.
  rewrite parse_section_spec.
  destruct (search_converts "cells" s && search_converts "wires" s &&
            search_converts "public wires" s); [|congruence].
  apply parse_lines_exn.
Qed.

(** The three counts found by a search, and the fields the loop leaves
    alone. *)
Lemma parse_section_searched (r r' : SynthesisResults) (s : string) :
  parse_section r s = Ok r' ->
  name r' = name r /\
  total_cells r' =
    match search_count "cells" s with
    | Some g => digits_value g
    | None => total_cells r
    end /\
  wires r' =
    match search_count "wires" s with
    | Some g => digits_value g
    | None => wires r
    end /\
  public_wires r' =
    match search_count "public wires" s with
    | Some g => digits_value g
    | None => public_wires r
    end /\
  memories r' = memories r /\ processes r' = processes r /\
  critical_path_delay_ns r' = critical_path_delay_ns r /\
  estimated_area_ge r' = estimated_area_ge r /\
  estimated_power_mw r' = estimated_power_mw r /\
  max_frequency_mhz r' = max_frequency_mhz r /\
  simulation_time_ms r' = simulation_time_ms r.
Proof.
  rewrite parse_section_spec.
  destruct (search_converts "cells" s && search_converts "wires" s &&
            search_converts "public wires" s); [|discriminate].
  intros H. apply parse_lines_structure in H. cbv zeta in H.
  destruct H as (-> & -> & -> & -> & -> & -> & -> & -> & -> & -> & ->).
  destruct (search_count "cells" s), (search_count "wires" s),
    (search_count "public wires" s); repeat split.
Qed.

Lemma parse_section_gate (t : string) (g : SynthesisResults -> Z)
    (r r' : SynthesisResults) (s : string) :
  In (t, g) gate_fields ->
  parse_section r s = Ok r' ->
  g r' =
    match last_count t (split_lines s) with
    | Some c => c
    | None => g r
    end.
Proof.
  intros Hin. rewrite parse_section_spec.
  destruct (search_converts "cells" s && search_converts "wires" s &&
            search_converts "public wires" s); [|discriminate].
  intros H. rewrite (parse_lines_field t g Hin _ _ _ H).
  destruct (last_count t (split_lines s)); [reflexivity|].
  simpl in Hin.
  repeat (destruct Hin as [Hin | Hin]; [injection Hin as <- <- | ]);
    try contradiction;
    destruct (search_count "cells" s), (search_count "wires" s),
      (search_count "public wires" s); reflexivity.
Qed.

Lemma parse_section_nonneg (r r' : SynthesisResults) (s : string) :
  counts_nonneg r -> parse_section r s = Ok r' -> counts_nonneg r'.
Proof.
  intros Hr. rewrite parse_section_spec.
  destruct (search_converts "cells" s && search_converts "wires" s &&
            search_converts "public wires" s); [|discriminate].
  apply parse_lines_nonneg. cbv zeta.
  destruct (search_count "cells" s) eqn:E1,
           (search_count "wires" s) eqn:E2,
           (search_count "public wires" s) eqn:E3;
    repeat match goal with
           | H : search_count _ _ = Some _ |- _ =>
               apply search_count_nonneg in H
           end;
    unfold counts_nonneg in *; simpl; intuition.
Qed.

Lemma new_results_nonneg (name : string) : counts_nonneg (new_results name).
Proof. unfold counts_nonneg; simpl; lia. Qed.

(** What the parser returns, read off the last section. *)
Lemma parsed_counts (name output : string) (earlier : list string)
    (s : string) (r : SynthesisResults) :
  hierarchy_sections output = (earlier ++ [s])%list ->
  parse_yosys_output name output = Ok r ->
  total_cells r = searched "cells" s /\
  wires r = searched "wires" s /\
  public_wires r = searched "public wires" s /\
  forall t g, In (t, g) gate_fields ->
    g r = match last_count t (split_lines s) with
          | Some c => c
          | None => 0
          end.
Proof.
  intros Hs. rewrite (parse_of_last_section name output earlier s Hs).
  intros H.
  destruct (parse_section_searched _ _ _ H) as (_ & Hc & Hw & Hp & _).
  split; [exact Hc|]. split; [exact Hw|]. split; [exact Hp|].
  intros t g Hin. rewrite (parse_section_gate t g _ _ s Hin H).
  destruct (last_count t (split_lines s)); [reflexivity|].
  simpl in Hin.
  repeat (destruct Hin as [Hin | Hin]; [injection Hin as <- <- | ]);
    try contradiction; reflexivity.
Qed.

Lemma parse_returns (name output : string) (earlier : list string) (s : string) :
  hierarchy_sections output = (earlier ++ [s])%list ->
  section_converts s = true ->
  exists r, parse_yosys_output name output = Ok r.
Proof.
  intros Hs Hc. rewrite (parse_of_last_section name output earlier s Hs).
  now apply parse_section_returns.
Qed.

Lemma parse_raises (name output : string) (earlier : list string) (s : string) :
  hierarchy_sections output = (earlier ++ [s])%list ->
  section_converts s = false ->
  parse_yosys_output name output = Raise ValueError.
Proof.
  intros Hs Hc. rewrite (parse_of_last_section name output earlier s Hs).
  now apply parse_section_raises.
Qed.

Lemma parse_exn (name output : string) (e : exn) :
  parse_yosys_output name output = Raise e -> e = ValueError.
Proof.
  destruct (sections_nil_or_last output) as [H | (earlier & s & H)].
  - rewrite (parse_without_section name output H). discriminate.
  - rewrite (parse_of_last_section name output earlier s H).
    apply parse_section_exn.
Qed.

Lemma parse_name (n output : string) (r : SynthesisResults) :
  parse_yosys_output n output = Ok r -> name r = n.
Proof.
  destruct (sections_nil_or_last output) as [H | (earlier & s & H)].
  - rewrite (parse_without_section n output H). now intros [= <-].
  - rewrite (parse_of_last_section n output earlier s H).
    intros Hr. apply (parse_section_searched _ _ _ Hr).
Qed.

Lemma parse_nonneg (n output : string) (r : SynthesisResults) :
  parse_yosys_output n output = Ok r -> counts_nonneg r.
Proof.
  destruct (sections_nil_or_last output) as [H | (earlier & s & H)].
  - rewrite (parse_without_section n output H). intros [= <-].
    apply new_results_nonneg.
  - rewrite (parse_of_last_section n output earlier s H).
    apply parse_section_nonneg, new_results_nonneg.
Qed.

Lemma parse_untouched (n output : string) (r : SynthesisResults) :
  parse_yosys_output n output = Ok r ->
  memories r = 0 /\ processes r = 0 /\ simulation_time_ms r = 0%float.
Proof.
  destruct (sections_nil_or_last output) as [H | (earlier & s & H)].
  - rewrite (parse_without_section n output H). intros [= <-]. repeat split.
  - rewrite (parse_of_last_section n output earlier s H).
    intros Hr.
    destruct (parse_section_searched _ _ _ Hr)
      as (_ & _ & _ & _ & Hm & Hp & _ & _ & _ & _ & Ht).
    rewrite Hm, Hp, Ht. repeat split.
Qed.

(** What [synthesize_design] does with the parser and the estimator. *)
Lemma synthesize_design_some (n output : string) (r : SynthesisResults) :
  synthesize_design n (Some output) = Some r ->
  exists p, parse_yosys_output n output = Ok p /\ estimate p = Ok r.
Proof.
  unfold synthesize_design.
  destruct (parse_yosys_output n output) as [p|]; cbn [rbind]; [|discriminate].
  destruct (estimate p) as [r'|] eqn:E; [|discriminate].
  intros [= <-]. now exists p.
Qed.

Lemma synthesize_design_parse_raises (n output : string) (e : exn) :
  parse_yosys_output n output = Raise e ->
  synthesize_design n (Some output) = None.
Proof. intros H. unfold synthesize_design. now rewrite H. Qed.



(** C5 (amended): the parser raises nothing but [ValueError], and that
    exactly when a count of the last section that it converts has more
    than 4300 digits; [synthesize_design] then returns nothing.  On every
    other text it returns a record: the all-zero one without a hierarchy
    section (the empty text included), and otherwise one whose counts are
    not negative and in which a count whose pattern matches nowhere in the
    last section is zero. *)
Theorem parse_total_nonneg (variant output : string) :
  parse_yosys_output variant "" = Ok (new_results variant) /\
  (hierarchy_sections output = [] ->
     parse_yosys_output variant output = Ok (new_results variant)) /\
  (forall earlier s,
     hierarchy_sections output = (earlier ++ [s])%list ->
     (section_converts s = true ->
        exists r, parse_yosys_output variant output = Ok r) /\
     (section_converts s = false ->
        parse_yosys_output variant output = Raise ValueError)) /\
  (forall e,
     parse_yosys_output variant output = Raise e ->
     e = ValueError /\ synthesize_design variant (Some output) = None) /\
  (forall r,
     parse_yosys_output variant output = Ok r ->
     counts_nonneg r /\
     name r = variant /\
     memories r = 0 /\ processes r = 0 /\
     forall earlier s,
       hierarchy_sections output = (earlier ++ [s])%list ->
       total_cells r = searched "cells" s /\
       wires r = searched "wires" s /\
       public_wires r = searched "public wires" s /\
       forall t g, In (t, g) gate_fields ->
         g r = match last_count t (split_lines s) with
               | Some c => c
               | None => 0
               end).
Proof.
  split; [reflexivity|].
  split; [apply parse_without_section|].
  split.
  { intros earlier s Hs. split.
    - exact (parse_returns variant output earlier s Hs).
    - exact (parse_raises variant output earlier s Hs). }
  split.
  { intros e He. split; [exact (parse_exn _ _ _ He)|].
    exact (synthesize_design_parse_raises _ _ _ He). }
  intros r Hr.
  split; [exact (parse_nonneg _ _ _ Hr)|].
  split; [exact (parse_name _ _ _ Hr)|].
  destruct (parse_untouched _ _ _ Hr) as (Hm & Hp & _).
  split; [exact Hm|]. split; [exact Hp|].
  intros earlier s Hs. exact (parsed_counts variant output earlier s r Hs Hr).
Qed.

Lemma parse_total_nonneg_witness :
  hierarchy_sections "12 cells" = [] /\
  parse_yosys_output "Dadda" "12 cells" = Ok (new_results "Dadda").
Proof.
  assert (Hs : hierarchy_sections "12 cells" = []) by (vm_compute; reflexivity).
  split; [exact Hs|].
  destruct (parse_total_nonneg "Dadda" "12 cells") as (_ & H & _).
  exact (H Hs).
Defined.

(** C5, as stated, fails on a count of 4301 digits: [int] rejects it and
    the parser raises [ValueError]. *)
Lemma overlong_count_raises :
  parse_yosys_output "Dadda" overlong_output = Raise ValueError /\
  ~ parse_never_raises.
Proof.
  assert (H : parse_yosys_output "Dadda" overlong_output = Raise ValueError)
    by (vm_compute; reflexivity).
  split; [exact H|].
  intros Hn. destruct (Hn "Dadda" overlong_output) as (r & Hr & _).
  rewrite H in Hr. discriminate.
Qed.



End ParserFacts.

(** ** The store and the report *)

Section StoreFacts.

Variable A : Type.
Variable k : A -> float.

Lemma fold_keep_smaller (xs : list A) :
  forall b pre mid,
    (forall x, In x pre -> (k x =? k b)%float = false) ->
    (forall x, In x (pre ++ b :: mid) -> (k x <? k b)%float = false) ->
    exists pre' post',
      (pre ++ b :: mid ++ xs = pre' ++ fold_left (keep_smaller k) xs b :: post')%list /\
      (forall x, In x pre' ->
         (k x =? k (fold_left (keep_smaller k) xs b))%float = false) /\
      (forall x, In x (pre ++ b :: mid ++ xs) ->
         (k x <? k (fold_left (keep_smaller k) xs b))%float = false).
Proof.
  induction xs as [|y ys IH]; intros b pre mid Hpre Hlow.
  - exists pre, mid. rewrite app_nil_r. auto.
  - cbn [fold_left]. unfold keep_smaller at 2 4 6.
    destruct (k y <? k b)%float eqn:Hy.
    + destruct (IH y (pre ++ b :: mid)%list []) as (pre' & post' & He & Hp & Hl).
      * intros x Hx. destruct (k x =? k y)%float eqn:E; [|reflexivity].
        rewrite <- (Hlow x Hx). symmetry. eapply eqb_ltb_compat; eauto.
      * intros x Hx. rewrite in_app_iff in Hx. destruct Hx as [Hx | [<- | []]].
        -- destruct (k x <? k y)%float eqn:E; [|reflexivity].
           rewrite <- (Hlow x Hx). symmetry. eapply ltb_trans; eauto.
        -- apply ltb_irrefl.
      * exists pre', post'. cbn [app] in He, Hl.
        rewrite <- app_assoc in He, Hl. cbn [app] in He, Hl. auto.
    + destruct (IH b pre (mid ++ [y])%list Hpre) as (pre' & post' & He & Hp & Hl).
      * intros x Hx.
        replace (pre ++ b :: mid ++ [y])%list
          with ((pre ++ b :: mid) ++ [y])%list in Hx
          by (rewrite <- app_assoc; reflexivity).
        rewrite in_app_iff in Hx. destruct Hx as [Hx | [<- | []]]; auto.
      * exists pre', post'. rewrite <- app_assoc in He, Hl. cbn [app] in He, Hl.
        auto.
Qed.

End StoreFacts.

Arguments fold_keep_smaller {A} k xs b pre mid.

Section ReportFacts.

Local Open Scope float_scope.

(** *** Selection of a minimum *)

Lemma min_item_first_minimum (key : SynthesisResults -> float) (d : store)
    (b : string * SynthesisResults) :
  min_item key d = Ok b ->
  exists pre post,
    d = (pre ++ b :: post)%list /\
    (forall x, In x pre -> (key (snd x) =? key (snd b)) = false) /\
    (forall x, In x d -> (key (snd x) <? key (snd b)) = false).
Proof.
  destruct d as [|x xs]; [discriminate|].
  intros [= <-].
  destruct (fold_keep_smaller (fun p => key (snd p)) xs x [] [])
    as (pre & post & He & Hp & Hl).
  - intros ? [].
  - intros y [<- | []]. apply ltb_irrefl.
  - exists pre, post. split; [exact He|]. split; [exact Hp | exact Hl].
Qed.

Lemma min_item_defined (key : SynthesisResults -> float) (d : store) :
  d <> [] -> exists b, min_item key d = Ok b /\ In b d.
Proof.
  intros Hd. destruct d as [|x xs]; [contradiction|].
  eexists; split; [reflexivity|].
  destruct (min_item_first_minimum key (x :: xs) _ eq_refl)
    as (pre & post & He & _).
  pose proof (in_elt (fold_left (min_item_step key) xs x) pre post) as Hin.
  now rewrite <- He in Hin.
Qed.

Lemma min_list_spec (l : list float) :
  l <> [] ->
  exists m, min_list l = Ok m /\ In m l /\
            forall x, In x l -> (x <? m) = false.
Proof.
  intros Hl. destruct l as [|x xs]; [contradiction|].
  eexists; split; [reflexivity|].
  destruct (fold_keep_smaller (fun y => y) xs x [] [])
    as (pre & post & He & _ & Hlow).
  - intros ? [].
  - intros y [<- | []]. apply ltb_irrefl.
  - change (fold_left (keep_smaller (fun y => y)) xs x)
      with (fold_left min_step xs x) in *.
    split; [|exact Hlow].
    pose proof (in_elt (fold_left min_step xs x) pre post) as Hin.
    cbn [app] in He. now rewrite <- He in Hin.
Qed.

Lemma fold_max_step (xs : list float) :
  forall b seen,
    In b seen ->
    (forall y, In y seen -> (b <? y) = false) ->
    In (fold_left max_step xs b) (seen ++ xs) /\
    forall y, In y (seen ++ xs) -> (fold_left max_step xs b <? y) = false.
Proof.
  induction xs as [|x xs IH]; intros b seen Hin Hup.
  - rewrite app_nil_r. auto.
  - cbn [fold_left]. unfold max_step at 2 4.
    replace (seen ++ x :: xs)%list with ((seen ++ [x]) ++ xs)%list
      by (rewrite <- app_assoc; reflexivity).
    destruct (b <? x) eqn:Hx; apply IH.
    + apply in_or_app. right. now left.
    + intros y Hy. apply in_app_or in Hy as [Hy | [<- | []]].
      * destruct (x <? y) eqn:E; [|reflexivity].
        rewrite <- (Hup y Hy). symmetry. eapply ltb_trans; eauto.
      * apply ltb_irrefl.
    + apply in_or_app. now left.
    + intros y Hy. apply in_app_or in Hy as [Hy | [<- | []]]; auto.
Qed.

Lemma max_list_spec (l : list float) :
  l <> [] ->
  exists m, max_list l = Ok m /\ In m l /\
            forall x, In x l -> (m <? x) = false.
Proof.
  intros Hl. destruct l as [|x xs]; [contradiction|].
  eexists; split; [reflexivity|].
  apply (fold_max_step xs x [x]).
  - now left.
  - intros y [<- | []]. apply ltb_irrefl.
Qed.

(** *** The store *)

Lemma dict_get_in (k : string) (d : store) (v : SynthesisResults) :
  dict_get k d = Some v -> In (k, v) d.
Proof.
  induction d as [|[k' v'] d IH]; [discriminate|].
  cbn [dict_get]. destruct (String.eqb_spec k' k) as [-> | _].
  - intros [= ->]. now left.
  - intros H. right. auto.
Qed.

Lemma in_values (n : string) (r : SynthesisResults) (d : store)
    (f : SynthesisResults -> float) :
  In (n, r) d -> In (f r) (map f (values d)).
Proof.
  intros H. apply in_map. unfold values.
  change r with (snd (n, r)). now apply in_map.
Qed.

Lemma in_values_inv (x : float) (d : store) (f : SynthesisResults -> float) :
  In x (map f (values d)) -> exists n r, In (n, r) d /\ x = f r.
Proof.
  unfold values. rewrite map_map, in_map_iff.
  intros ([n r] & <- & H). now exists n, r.
Qed.

(** *** The loops over the variants *)

Lemma for_each_rows (B : Type) (l : list B) (body : B -> printer unit)
    (out : B -> list line) :
  (forall x, In x l -> body x = (out x, Ok tt)) ->
  for_each l body = (flat_map out l, Ok tt).
Proof.
  induction l as [|x l IH]; intros H; [reflexivity|].
  cbn [for_each flat_map]. unfold pbind.
  rewrite (H x (or_introl eq_refl)), IH; [reflexivity|].
  intros y Hy. apply H. now right.
Qed.

Lemma for_present_rows (d : store)
    (body : string -> SynthesisResults -> printer unit)
    (row : string -> SynthesisResults -> line) :
  (forall n r, dict_get n d = Some r -> body n r = ([row n r], Ok tt)) ->
  for_present d body = (rows_of d row, Ok tt).
Proof.
  intros H. unfold for_present, rows_of.
  apply for_each_rows. intros n _.
  destruct (dict_get n d) eqn:E; [now apply H | reflexivity].
Qed.

Lemma div_nonzero (a b : float) : nonzero b -> div a b = Ok (a / b).
Proof. unfold nonzero, div. now intros ->. Qed.

Lemma values_not_nil (d : store) (f : SynthesisResults -> float) :
  d <> [] -> map f (values d) <> [].
Proof. destruct d; [contradiction | discriminate]. Qed.

Lemma is_nil_false (B : Type) (l : list B) : l <> [] -> is_nil l = false.
Proof. destruct l; [contradiction | reflexivity]. Qed.

(** *** The three tables *)

Lemma area_analysis_rows (d : store) (m : float) :
  d <> [] ->
  min_list (map estimated_area_ge (values d)) = Ok m ->
  nonzero m ->
  area_analysis d =
    (rows_of d (fun n r =>
       AreaRow n (total_cells r) (estimated_area_ge r) (estimated_area_ge r / m)),
     Ok tt).
Proof.
  intros Hd Hm Hz. unfold area_analysis, min_or_one.
  rewrite (is_nil_false _ _ (values_not_nil d _ Hd)), Hm.
  unfold lift at 1. unfold pbind at 1.
  erewrite for_present_rows; [reflexivity|].
  intros n r _. now rewrite (div_nonzero _ _ Hz).
Qed.

Lemma timing_analysis_rows (d : store) (m : float) :
  d <> [] ->
  max_list (map critical_path_delay_ns (values d)) = Ok m ->
  nonzero_metrics d ->
  timing_analysis d =
    (rows_of d (fun n r =>
       TimingRow n (critical_path_delay_ns r) (max_frequency_mhz r)
         (m / critical_path_delay_ns r)),
     Ok tt).
Proof.
  intros Hd Hm Hz. unfold timing_analysis, max_or_one.
  rewrite (is_nil_false _ _ (values_not_nil d _ Hd)), Hm.
  unfold lift at 1. unfold pbind at 1.
  erewrite for_present_rows; [reflexivity|].
  intros n r Hr. apply dict_get_in, Hz in Hr as (_ & Hr & _).
  now rewrite (div_nonzero _ _ Hr).
Qed.

Lemma power_analysis_rows (d : store) (m : float) :
  d <> [] ->
  min_list (map estimated_power_mw (values d)) = Ok m ->
  nonzero m ->
  power_analysis d =
    (rows_of d (fun n r =>
       PowerRow n (estimated_power_mw r) (estimated_power_mw r * 10)
         (estimated_power_mw r / m)),
     Ok tt).
Proof.
  intros Hd Hm Hz. unfold power_analysis, min_or_one.
  rewrite (is_nil_false _ _ (values_not_nil d _ Hd)), Hm.
  unfold lift at 1. unfold pbind at 1.
  erewrite for_present_rows; [reflexivity|].
  intros n r _. now rewrite (div_nonzero _ _ Hz).
Qed.

Lemma gate_breakdown_rows (d : store) :
  gate_breakdown d = (rows_of d GateBreakdown, Ok tt).
Proof. unfold gate_breakdown. now apply for_present_rows. Qed.

(** The extremum of a metric over the store, with its two properties. *)
Lemma min_metric (f : SynthesisResults -> float) (d : store) :
  d <> [] ->
  exists m,
    min_list (map f (values d)) = Ok m /\
    (exists n r, In (n, r) d /\ m = f r) /\
    (forall n r, In (n, r) d -> (f r <? m) = false).
Proof.
  intros Hd.
  destruct (min_list_spec _ (values_not_nil d f Hd)) as (m & Hm & Hin & Hlow).
  exists m. split; [exact Hm|]. split; [now apply in_values_inv|].
  intros n r H. apply Hlow. eapply in_values; eauto.
Qed.

Lemma max_metric (f : SynthesisResults -> float) (d : store) :
  d <> [] ->
  exists m,
    max_list (map f (values d)) = Ok m /\
    (exists n r, In (n, r) d /\ m = f r) /\
    (forall n r, In (n, r) d -> (m <? f r) = false).
Proof.
  intros Hd.
  destruct (max_list_spec _ (values_not_nil d f Hd)) as (m & Hm & Hin & Hup).
  exists m. split; [exact Hm|]. split; [now apply in_values_inv|].
  intros n r H. apply Hup. eapply in_values; eauto.
Qed.

Lemma div_same (x y : float) : x = y -> finite_nonzero y -> x / y = 1.
Proof. intros -> (s & m & e & H). eapply div_self; eauto. Qed.

Lemma in_rows_of (d : store) (row : string -> SynthesisResults -> line)
    (n : string) (r : SynthesisResults) :
  In n variant_order -> dict_get n d = Some r -> In (row n r) (rows_of d row).
Proof.
  intros Hn Hr. unfold rows_of. apply in_flat_map.
  exists n. split; [exact Hn|]. rewrite Hr. now left.
Qed.

(** Every store [analyze_all] builds holds its records under the three
    names only. *)
Lemma build_results_keys (has_yosys : bool)
    (classical_out dadda_out wallace_out : option string)
    (n : string) (r : SynthesisResults) :
  In (n, r) (build_results has_yosys classical_out dadda_out wallace_out) ->
  In n variant_order /\
  dict_get n (build_results has_yosys classical_out dadda_out wallace_out) =
    Some r.
Proof.
  unfold build_results, variant_order. destruct has_yosys.
  - destruct (synthesize_design "Classical" classical_out),
             (synthesize_design "Dadda" dadda_out),
             (synthesize_design "Wallace" wallace_out);
      cbn [insert_if_some dict_set String.eqb Ascii.eqb Bool.eqb In];
      intros Hin;
      repeat (destruct Hin as [[= <- <-] | Hin]; [split; [tauto | reflexivity]|]);
      contradiction.
  - cbn [dict_set String.eqb Ascii.eqb Bool.eqb In]. intros Hin.
    repeat (destruct Hin as [[= <- <-] | Hin]; [split; [tauto | reflexivity]|]).
    contradiction.
Qed.

(** C1 (amended): area and power are reported relative to the minimum over
    the store, the delay as the speedup over the maximum.  On a non-empty
    store whose metrics are all non-zero, each table has one row per
    present variant carrying that ratio.  When the metrics are finite, the
    row of a present variant that holds the minimum area or power, or the
    maximum delay, carries the ratio 1; in a store built by [analyze_all]
    every record is under one of the three names, so the record holding
    the extremum always has its row. *)
Theorem ratios_in_report (d : store) :
  d <> [] ->
  nonzero_metrics d ->
  exists min_area max_delay min_power,
    (min_list (map estimated_area_ge (values d)) = Ok min_area /\
     (exists n r, In (n, r) d /\ min_area = estimated_area_ge r) /\
     (forall n r, In (n, r) d -> (estimated_area_ge r <? min_area) = false)) /\
    (max_list (map critical_path_delay_ns (values d)) = Ok max_delay /\
     (exists n r, In (n, r) d /\ max_delay = critical_path_delay_ns r) /\
     (forall n r, In (n, r) d -> (max_delay <? critical_path_delay_ns r) = false)) /\
    (min_list (map estimated_power_mw (values d)) = Ok min_power /\
     (exists n r, In (n, r) d /\ min_power = estimated_power_mw r) /\
     (forall n r, In (n, r) d -> (estimated_power_mw r <? min_power) = false)) /\
    area_analysis d =
      (rows_of d (fun n r =>
         AreaRow n (total_cells r) (estimated_area_ge r)
           (estimated_area_ge r / min_area)),
       Ok tt) /\
    timing_analysis d =
      (rows_of d (fun n r =>
         TimingRow n (critical_path_delay_ns r) (max_frequency_mhz r)
           (max_delay / critical_path_delay_ns r)),
       Ok tt) /\
    power_analysis d =
      (rows_of d (fun n r =>
         PowerRow n (estimated_power_mw r) (estimated_power_mw r * 10)
           (estimated_power_mw r / min_power)),
       Ok tt) /\
    (forall r, estimated_area_ge r = min_area -> finite_nonzero min_area ->
       estimated_area_ge r / min_area = 1) /\
    (forall r, critical_path_delay_ns r = max_delay ->
       finite_nonzero (critical_path_delay_ns r) ->
       max_delay / critical_path_delay_ns r = 1) /\
    (forall r, estimated_power_mw r = min_power -> finite_nonzero min_power ->
       estimated_power_mw r / min_power = 1) /\
    (forall n r, In n variant_order -> dict_get n d = Some r ->
       In (AreaRow n (total_cells r) (estimated_area_ge r)
             (estimated_area_ge r / min_area)) (fst (area_analysis d)) /\
       In (TimingRow n (critical_path_delay_ns r) (max_frequency_mhz r)
             (max_delay / critical_path_delay_ns r)) (fst (timing_analysis d)) /\
       In (PowerRow n (estimated_power_mw r) (estimated_power_mw r * 10)
             (estimated_power_mw r / min_power)) (fst (power_analysis d))) /\
    (finite_metrics d ->
     forall n r, In n variant_order -> dict_get n d = Some r ->
       ((forall m r', In (m, r') d ->
           (estimated_area_ge r' <? estimated_area_ge r) = false) ->
        In (AreaRow n (total_cells r) (estimated_area_ge r) 1)
           (fst (area_analysis d))) /\
       ((forall m r', In (m, r') d ->
           (critical_path_delay_ns r <? critical_path_delay_ns r') = false) ->
        In (TimingRow n (critical_path_delay_ns r) (max_frequency_mhz r) 1)
           (fst (timing_analysis d))) /\
       ((forall m r', In (m, r') d ->
           (estimated_power_mw r' <? estimated_power_mw r) = false) ->
        In (PowerRow n (estimated_power_mw r) (estimated_power_mw r * 10) 1)
           (fst (power_analysis d)))) /\
    (forall has_yosys classical_out dadda_out wallace_out,
       d = build_results has_yosys classical_out dadda_out wallace_out ->
       forall n r, In (n, r) d -> In n variant_order /\ dict_get n d = Some r).
Proof.
  intros Hd Hz.
  destruct (min_metric estimated_area_ge d Hd) as (ma & Hma & Hain & Halow).
  destruct (max_metric critical_path_delay_ns d Hd) as (md & Hmd & Hdin & Hdup).
  destruct (min_metric estimated_power_mw d Hd) as (mp & Hmp & Hpin & Hplow).
  exists ma, md, mp.
  assert (Hza : nonzero ma).
  { destruct Hain as (n & r & Hin & ->). now apply (Hz n r Hin). }
  assert (Hzp : nonzero mp).
  { destruct Hpin as (n & r & Hin & ->). now apply (Hz n r Hin). }
  pose proof (area_analysis_rows d ma Hd Hma Hza) as Ha.
  pose proof (timing_analysis_rows d md Hd Hmd Hz) as Ht.
  pose proof (power_analysis_rows d mp Hd Hmp Hzp) as Hp.
  assert (Hrows : forall n r, In n variant_order -> dict_get n d = Some r ->
       In (AreaRow n (total_cells r) (estimated_area_ge r)
             (estimated_area_ge r / ma)) (fst (area_analysis d)) /\
       In (TimingRow n (critical_path_delay_ns r) (max_frequency_mhz r)
             (md / critical_path_delay_ns r)) (fst (timing_analysis d)) /\
       In (PowerRow n (estimated_power_mw r) (estimated_power_mw r * 10)
             (estimated_power_mw r / mp)) (fst (power_analysis d))).
  { intros n r Hn Hr. rewrite Ha, Ht, Hp. cbn [fst].
    split; [|split].
    - exact (in_rows_of d (fun n r =>
               AreaRow n (total_cells r) (estimated_area_ge r)
                 (estimated_area_ge r / ma)) n r Hn Hr).
    - exact (in_rows_of d (fun n r =>
               TimingRow n (critical_path_delay_ns r) (max_frequency_mhz r)
                 (md / critical_path_delay_ns r)) n r Hn Hr).
    - exact (in_rows_of d (fun n r =>
               PowerRow n (estimated_power_mw r) (estimated_power_mw r * 10)
                 (estimated_power_mw r / mp)) n r Hn Hr). }
  split; [auto|]. split; [auto|]. split; [auto|].
  split; [exact Ha|]. split; [exact Ht|]. split; [exact Hp|].
  split; [intros r; apply div_same|].
  split; [intros r H; apply div_same; now symmetry|].
  split; [intros r; apply div_same|].
  split; [exact Hrows|].
  split.
  - intros Hf n r Hn Hr.
    destruct (Hrows n r Hn Hr) as (Ra & Rt & Rp).
    pose proof (dict_get_in _ _ _ Hr) as Hin.
    destruct (Hf n r Hin) as (Fa & Fd & Fp).
    split; [|split]; intros Hext.
    + destruct Hain as (n0 & r0 & Hin0 & E0).
      assert (Fm : finite_nonzero ma) by (rewrite E0; apply (Hf n0 r0 Hin0)).
      assert (E : estimated_area_ge r = ma).
      { apply float_minimal_eq; [exact Fa | exact Fm | now apply (Halow n r) |].
        rewrite E0. now apply (Hext n0 r0). }
      rewrite (div_same _ _ E Fm) in Ra. exact Ra.
    + destruct Hdin as (n0 & r0 & Hin0 & E0).
      assert (E : md = critical_path_delay_ns r).
      { symmetry. apply float_minimal_eq;
          [exact Fd | rewrite E0; apply (Hf n0 r0 Hin0) | |].
        - rewrite E0. now apply (Hext n0 r0).
        - now apply (Hdup n r). }
      rewrite (div_same _ _ E Fd) in Rt. exact Rt.
    + destruct Hpin as (n0 & r0 & Hin0 & E0).
      assert (Fm : finite_nonzero mp) by (rewrite E0; apply (Hf n0 r0 Hin0)).
      assert (E : estimated_power_mw r = mp).
      { apply float_minimal_eq; [exact Fp | exact Fm | now apply (Hplow n r) |].
        rewrite E0. now apply (Hext n0 r0). }
      rewrite (div_same _ _ E Fm) in Rp. exact Rp.
  - intros h c dd w -> n r Hin. now apply build_results_keys.
Qed.

Lemma fallback_store_nonzero : nonzero_metrics fallback_store.
Proof.
  intros n r Hin. vm_compute in Hin.
  destruct Hin as [[= <- <-] | [[= <- <-] | [[= <- <-] | []]]];
    vm_compute; repeat split.
Qed.

Lemma fallback_store_finite : finite_metrics fallback_store.
Proof.
  intros n r Hin. vm_compute in Hin.
  destruct Hin as [[= <- <-] | [[= <- <-] | [[= <- <-] | []]]];
    (split; [|split]); do 3 eexists; vm_compute; reflexivity.
Qed.

Lemma ratios_in_report_witness :
  fallback_store <> [] /\
  nonzero_metrics fallback_store /\
  In (AreaRow "Dadda" 1800 4200 1) (fst (area_analysis fallback_store)) /\
  In (TimingRow "Classical" 9.6 104.2 1) (fst (timing_analysis fallback_store)) /\
  In (PowerRow "Dadda" 12.5 (12.5 * 10) 1) (fst (power_analysis fallback_store)).
Proof.
  assert (Hd : fallback_store <> []) by discriminate.
  split; [exact Hd|]. split; [exact fallback_store_nonzero|].
  destruct (ratios_in_report fallback_store Hd fallback_store_nonzero)
    as (ma & md & mp & _ & _ & _ & _ & _ & _ & _ & _ & _ & _ & Hone & _).
  assert (Hlow : forall (f : SynthesisResults -> float) (x : float),
            (f theoretical_classical <? x) = false ->
            (f theoretical_dadda <? x) = false ->
            (f theoretical_wallace <? x) = false ->
            forall m r', In (m, r') fallback_store -> (f r' <? x) = false).
  { intros f x H1 H2 H3 m r' Hin. vm_compute in Hin.
    destruct Hin as [[= <- <-] | [[= <- <-] | [[= <- <-] | []]]]; assumption. }
  assert (Hup : forall m r', In (m, r') fallback_store ->
            (9.6 <? critical_path_delay_ns r') = false).
  { intros m r' Hin. vm_compute in Hin.
    destruct Hin as [[= <- <-] | [[= <- <-] | [[= <- <-] | []]]]; reflexivity. }
  split; [|split].
  - apply (proj1 (Hone fallback_store_finite "Dadda"%string theoretical_dadda
                    ltac:(cbn; tauto) eq_refl)).
    apply (Hlow estimated_area_ge); reflexivity.
  - apply (proj1 (proj2 (Hone fallback_store_finite "Classical"%string
                           theoretical_classical ltac:(cbn; tauto) eq_refl))).
    exact Hup.
  - apply (proj2 (proj2 (Hone fallback_store_finite "Dadda"%string
                           theoretical_dadda ltac:(cbn; tauto) eq_refl))).
    apply (Hlow estimated_power_mw); reflexivity.
Defined.

(** *** The speedup section and the whole report *)

Lemma faster_than_classical_lines (who : string) (d : store) :
  nonzero_metrics d ->
  faster_than_classical who d =
    (match dict_get "Classical" d, dict_get who d with
     | Some c, Some w =>
         [FasterThanClassical who
            (critical_path_delay_ns c / critical_path_delay_ns w)]
     | _, _ => []
     end, Ok tt).
Proof.
  intros Hz. unfold faster_than_classical.
  destruct (dict_get "Classical" d) as [c|]; [|reflexivity].
  destruct (dict_get who d) as [w|] eqn:Hw; [|reflexivity].
  apply dict_get_in, Hz in Hw as (_ & Hw & _).
  now rewrite (div_nonzero _ _ Hw).
Qed.

Lemma min_step_nonzero (a b : float) :
  nonzero a -> nonzero b -> nonzero (min_step a b).
Proof. intros Ha Hb. unfold min_step. now destruct (b <? a). Qed.

Lemma wallace_vs_dadda_lines (d : store) :
  nonzero_metrics d ->
  wallace_vs_dadda d =
    (match dict_get "Wallace" d, dict_get "Dadda" d with
     | Some w, Some dd =>
         [TimingDifference
            (abs (critical_path_delay_ns w - critical_path_delay_ns dd) /
             min_step (critical_path_delay_ns w) (critical_path_delay_ns dd) *
             100);
          SmallerThanWallace
            ((estimated_area_ge w - estimated_area_ge dd) /
             estimated_area_ge w * 100)]
     | _, _ => []
     end, Ok tt).
Proof.
  intros Hz. unfold wallace_vs_dadda.
  destruct (dict_get "Wallace" d) as [w|] eqn:Hw; [|reflexivity].
  destruct (dict_get "Dadda" d) as [dd|] eqn:Hdd; [|reflexivity].
  apply dict_get_in, Hz in Hw as (Hwa & Hw & _).
  apply dict_get_in, Hz in Hdd as (_ & Hdd & _).
  rewrite (div_nonzero _ _ (min_step_nonzero _ _ Hw Hdd)).
  now rewrite (div_nonzero _ _ Hwa).
Qed.

Lemma speedup_analysis_lines (d : store) :
  nonzero_metrics d -> speedup_analysis d = (speedup_lines d, Ok tt).
Proof.
  intros Hz. unfold speedup_analysis, speedup_lines.
  rewrite !(faster_than_classical_lines _ d Hz), (wallace_vs_dadda_lines d Hz).
  reflexivity.
Qed.

(** Pairwise lines appear only for pairs that are present. *)
Lemma speedup_lines_without_classical (d : store) :
  dict_get "Classical" d = None ->
  speedup_lines d =
    match dict_get "Wallace" d, dict_get "Dadda" d with
    | Some w, Some dd =>
        [TimingDifference
           (abs (critical_path_delay_ns w - critical_path_delay_ns dd) /
            min_step (critical_path_delay_ns w) (critical_path_delay_ns dd) *
            100);
         SmallerThanWallace
           ((estimated_area_ge w - estimated_area_ge dd) /
            estimated_area_ge w * 100)]
    | _, _ => []
    end.
Proof. intros H. unfold speedup_lines. now rewrite H. Qed.

Lemma report_of_empty_store : generate_report [] = ([NoResults], Ok tt).
Proof. reflexivity. Qed.

(** With non-zero metrics the report runs to its end, whichever variants
    are present. *)
Lemma report_completes (d : store) :
  d <> [] ->
  nonzero_metrics d ->
  exists area_rows timing_rows power_rows best_speed best_area best_power,
    min_item critical_path_delay_ns d = Ok best_speed /\
    min_item estimated_area_ge d = Ok best_area /\
    min_item estimated_power_mw d = Ok best_power /\
    generate_report d =
      ((area_rows ++ timing_rows ++ power_rows ++
        rows_of d GateBreakdown ++ speedup_lines d ++
        [Fastest (fst best_speed) (critical_path_delay_ns (snd best_speed));
         Smallest (fst best_area) (estimated_area_ge (snd best_area));
         LeastPower (fst best_power) (estimated_power_mw (snd best_power));
         Recommendation;
         SavedResults d])%list,
       Ok tt).
Proof.
  intros Hd Hz.
  destruct (min_metric estimated_area_ge d Hd) as (ma & Hma & Hain & _).
  destruct (max_metric critical_path_delay_ns d Hd) as (md & Hmd & _).
  destruct (min_metric estimated_power_mw d Hd) as (mp & Hmp & Hpin & _).
  assert (Hza : nonzero ma).
  { destruct Hain as (n & r & Hin & ->). now apply (Hz n r Hin). }
  assert (Hzp : nonzero mp).
  { destruct Hpin as (n & r & Hin & ->). now apply (Hz n r Hin). }
  destruct (min_item_defined critical_path_delay_ns d Hd) as (bs & Hbs & _).
  destruct (min_item_defined estimated_area_ge d Hd) as (ba & Hba & _).
  destruct (min_item_defined estimated_power_mw d Hd) as (bp & Hbp & _).
  exists (rows_of d (fun n r =>
            AreaRow n (total_cells r) (estimated_area_ge r)
              (estimated_area_ge r / ma))),
         (rows_of d (fun n r =>
            TimingRow n (critical_path_delay_ns r) (max_frequency_mhz r)
              (md / critical_path_delay_ns r))),
         (rows_of d (fun n r =>
            PowerRow n (estimated_power_mw r) (estimated_power_mw r * 10)
              (estimated_power_mw r / mp))), bs, ba, bp.
  split; [exact Hbs|]. split; [exact Hba|]. split; [exact Hbp|].
  unfold generate_report. rewrite (is_nil_false _ _ Hd).
  rewrite (area_analysis_rows d ma Hd Hma Hza).
  rewrite (timing_analysis_rows d md Hd Hmd Hz).
  rewrite (power_analysis_rows d mp Hd Hmp Hzp).
  rewrite gate_breakdown_rows, (speedup_analysis_lines d Hz).
  unfold recommendation. rewrite Hbs, Hba, Hbp.
  cbn [pbind lift print save_results app].
  reflexivity.
Qed.

(** C8: a store holding only Dadda and Wallace, each estimated from an
    output without a hierarchy section, has zero areas; the area table then
    divides zero by zero and the report ends with [ZeroDivisionError]. *)
Theorem report_raises_on_zero_area :
  let d := build_results true None (Some "") (Some "") in
  keys d = ["Dadda"; "Wallace"] /\
  map estimated_area_ge (values d) = [0; 0] /\
  min_list (map estimated_area_ge (values d)) = Ok 0 /\
  div 0 0 = Raise ZeroDivisionError /\
  generate_report d = ([], Raise ZeroDivisionError) /\
  analyze_all true None (Some "") (Some "") = ([], Raise ZeroDivisionError).
Proof. vm_compute. repeat split. Qed.

(** C1, as stated, fails on the delay table: in the fallback store Dadda
    holds the minimum delay, 6.75 ns, and is reported with the speedup
    9.6 / 6.75, not with 1. *)
Lemma minimum_delay_not_reported_as_one :
  ~ minimum_delay_reported_as_one (build_results false None None None).
Proof.
  intros H.
  specialize (H _ "Dadda" 6.75 148.1 (9.6 / 6.75) eq_refl).
  assert (E : (9.6 / 6.75 =? 1) = true).
  { rewrite H; [reflexivity | |].
    - vm_compute. tauto.
    - intros m r Hin. vm_compute in Hin.
      destruct Hin as [[= <- <-] | [[= <- <-] | [[= <- <-] | []]]];
        reflexivity. }
  vm_compute in E. discriminate.
Qed.

(** *** Ties *)

Lemma sorted_after (B : Type) (R : B -> B -> Prop) (pre post : list B) (b : B) :
  StronglySorted R (pre ++ b :: post) -> Forall (R b) post.
Proof.
  induction pre as [|a pre IH]; cbn [app]; intros H;
    apply StronglySorted_inv in H as [H1 H2]; auto.
Qed.

Lemma canonical_order_tie_break (key : SynthesisResults -> float) (d : store) :
  canonical_order d -> canonical_tie_break key d.
Proof.
  intros Hs b n r Hb Hin Htie.
  destruct (min_item_first_minimum key d b Hb) as (pre & post & -> & Hpre & _).
  apply in_app_or in Hin as [Hin | [Heq | Hin]].
  - specialize (Hpre _ Hin). cbn [snd] in Hpre. congruence.
  - rewrite Heq. apply Nat.le_refl.
  - unfold canonical_order in Hs.
    apply sorted_after in Hs.
    rewrite Forall_forall in Hs. specialize (Hs _ Hin). cbn [fst] in Hs. lia.
Qed.

Lemma build_results_canonical (has_yosys : bool)
    (classical_out dadda_out wallace_out : option string) :
  canonical_order (build_results has_yosys classical_out dadda_out wallace_out).
Proof.
  unfold build_results, canonical_order.
  destruct has_yosys.
  - destruct (synthesize_design "Classical" classical_out),
             (synthesize_design "Dadda" dadda_out),
             (synthesize_design "Wallace" wallace_out);
      cbn [insert_if_some dict_set String.eqb Ascii.eqb Bool.eqb];
      repeat constructor.
  - cbn [dict_set String.eqb Ascii.eqb Bool.eqb]. repeat constructor.
Qed.

(** C3 (amended): a selection keeps the first minimum in insertion order:
    no earlier entry ties with it and no entry is below it.  In a store
    whose insertion order follows the canonical order, as every store built
    by [analyze_all] does, a tie therefore goes to the variant that is
    earlier in the canonical order. *)
Theorem first_minimum_selected :
  (forall key d, d <> [] -> exists b, min_item key d = Ok b /\ In b d) /\
  (forall key d b,
     min_item key d = Ok b ->
     exists pre post,
       d = (pre ++ b :: post)%list /\
       (forall x, In x pre -> (key (snd x) =? key (snd b)) = false) /\
       (forall x, In x d -> (key (snd x) <? key (snd b)) = false)) /\
  (forall key d, canonical_order d -> canonical_tie_break key d) /\
  (forall has_yosys classical_out dadda_out wallace_out,
     let d := build_results has_yosys classical_out dadda_out wallace_out in
     canonical_order d /\
     canonical_tie_break critical_path_delay_ns d /\
     canonical_tie_break estimated_area_ge d /\
     canonical_tie_break estimated_power_mw d).
Proof.
  split; [exact min_item_defined|].
  split; [exact min_item_first_minimum|].
  split; [exact canonical_order_tie_break|].
  intros h c dd w d.
  pose proof (build_results_canonical h c dd w) as Hs.
  split; [exact Hs|].
  repeat split; now apply canonical_order_tie_break.
Qed.

Lemma first_minimum_selected_witness :
  min_item critical_path_delay_ns fallback_store = Ok ("Dadda", theoretical_dadda) /\
  (critical_path_delay_ns theoretical_wallace =?
   critical_path_delay_ns theoretical_dadda) = true /\
  (canonical_index "Dadda" <= canonical_index "Wallace")%nat.
Proof.
  assert (Hb : min_item critical_path_delay_ns fallback_store =
               Ok ("Dadda", theoretical_dadda)) by reflexivity.
  assert (Ht : (critical_path_delay_ns theoretical_wallace =?
                critical_path_delay_ns theoretical_dadda) = true) by reflexivity.
  split; [exact Hb|]. split; [exact Ht|].
  destruct first_minimum_selected as (_ & _ & _ & H).
  destruct (H false None None None) as (_ & Htie & _).
  exact (Htie ("Dadda", theoretical_dadda) "Wallace" theoretical_wallace Hb
           (or_intror (or_intror (or_introl eq_refl))) Ht).
Defined.

(** C3, as stated, fails when the insertion order is not the canonical
    one: with Wallace inserted before Dadda and both at 6.75 ns, the
    fastest variant selected is Wallace. *)
Lemma insertion_order_breaks_ties :
  let d := dict_set "Dadda" theoretical_dadda
             (dict_set "Wallace" theoretical_wallace []) in
  min_item critical_path_delay_ns d = Ok ("Wallace", theoretical_wallace) /\
  ~ canonical_tie_break critical_path_delay_ns d.
Proof.
  cbv zeta. split; [reflexivity|].
  intros H.
  specialize (H ("Wallace", theoretical_wallace) "Dadda" theoretical_dadda
                eq_refl).
  assert (Hle : (2 <= 1)%nat); [|lia].
  apply H; [right; now left | reflexivity].
Qed.

(** *** Frequency *)

Lemma update_frequency_spec (r : SynthesisResults) :
  update_frequency r =
    Ok (if 0 <? critical_path_delay_ns r
        then set_max_frequency_mhz (1000 / critical_path_delay_ns r) r
        else r).
Proof.
  unfold update_frequency.
  destruct (0 <? critical_path_delay_ns r) eqn:E; [|reflexivity].
  now rewrite (div_nonzero _ _ (positive_nonzero _ E)).
Qed.

Lemma critical_path_values (r : SynthesisResults) :
  estimate_critical_path r = Ok 9.6 \/
  estimate_critical_path r = Ok 4.25 \/
  estimate_critical_path r = Ok 5.
Proof.
  unfold estimate_critical_path.
  destruct (name r =? "Classical")%string; [left; reflexivity|].
  destruct (name r =? "Wallace")%string; [right; left; vm_compute; reflexivity|].
  destruct (name r =? "Dadda")%string; [right; left; vm_compute; reflexivity|].
  right; right; reflexivity.
Qed.

Lemma estimate_frequency (r r' : SynthesisResults) :
  estimate r = Ok r' ->
  (0 <? critical_path_delay_ns r') = true /\
  max_frequency_mhz r' = 1000 / critical_path_delay_ns r' /\
  frequency_round_trip r' = true.
Proof.
  unfold estimate.
  destruct (calculate_area r) as [a|]; [|discriminate]. cbn [rbind].
  set (r1 := set_estimated_area_ge a r).
  destruct (critical_path_values r1) as [H | [H | H]]; rewrite H; cbn [rbind];
    (match goal with
     | |- context [estimate_power ?x] => destruct (estimate_power x) as [p|]
     end; [|discriminate]); cbn [rbind];
    rewrite update_frequency_spec; intros [= <-];
    unfold frequency_round_trip; cbn; repeat split; vm_compute; reflexivity.
Qed.

(** C2 (amended): the assignment sets the frequency to 1000 / delay when
    the delay is positive and leaves it alone otherwise.  Every record from
    [synthesize_design] has a positive delay and exactly that frequency.
    The three placeholder records of the fallback carry frequencies rounded
    to one decimal: they are within 0.05 MHz of 1000 / delay and outside the
    1e-9 relative tolerance. *)
Theorem frequency_from_delay :
  (forall r,
     update_frequency r =
       Ok (if 0 <? critical_path_delay_ns r
           then set_max_frequency_mhz (1000 / critical_path_delay_ns r) r
           else r)) /\
  (forall variant proc r,
     synthesize_design variant proc = Some r ->
     (0 <? critical_path_delay_ns r) = true /\
     max_frequency_mhz r = 1000 / critical_path_delay_ns r /\
     frequency_round_trip r = true) /\
  (forall classical_out dadda_out wallace_out n r,
     In (n, r) (build_results false classical_out dadda_out wallace_out) ->
     (0 <? critical_path_delay_ns r) = true /\
     (abs (max_frequency_mhz r - 1000 / critical_path_delay_ns r) <=? 0.05) = true /\
     frequency_round_trip r = false).
Proof.
  split; [exact update_frequency_spec|]. split.
  - intros variant proc r H. destruct proc as [output|]; [|discriminate].
    destruct (synthesize_design_some _ _ _ H) as (p & _ & E).
    now apply (estimate_frequency _ _ E).
  - intros c dd w n r Hin. vm_compute in Hin.
    destruct Hin as [[= <- <-] | [[= <- <-] | [[= <- <-] | []]]];
      vm_compute; repeat split.
Qed.

Lemma frequency_from_delay_witness :
  exists r,
    synthesize_design "Classical" (Some "") = Some r /\
    (0 <? critical_path_delay_ns r) = true /\
    max_frequency_mhz r = 1000 / critical_path_delay_ns r.
Proof.
  destruct (synthesize_design "Classical" (Some "")) as [r|] eqn:E;
    [|vm_compute in E; discriminate].
  exists r. split; [reflexivity|].
  destruct frequency_from_delay as (_ & H & _).
  destruct (H "Classical" (Some "") r E) as (Hp & Hf & _).
  split; [exact Hp | exact Hf].
Defined.

(** C2, as stated, fails on the fallback store: the Classical placeholder
    has delay 9.6 ns and frequency 104.2 MHz, which is not 1000 / 9.6 to
    1e-9 relative. *)
Lemma fallback_frequency_outside_tolerance :
  ~ (forall n r,
       In (n, r) (build_results false None None None) ->
       frequency_round_trip r = true).
Proof.
  intros H.
  specialize (H "Classical" theoretical_classical (or_introl eq_refl)).
  vm_compute in H. discriminate.
Qed.

End ReportFacts.

(** ** Further properties of the code *)

(** *** Conversion of small integers to floats *)

Section ConversionFacts.

Lemma digits2_size (m : positive) : digits2_pos m = Pos.size m.
Proof. induction m; simpl; congruence. Qed.

Lemma digits2_iter_xO (k m : positive) :
  digits2_pos (Pos.iter xO m k) = (digits2_pos m + k)%positive.
Proof.
  induction k using Pos.peano_ind.
  - simpl. lia.
  - rewrite Pos.iter_succ. simpl. rewrite IHk. lia.
Qed.

Lemma digits2_le_53 (m : positive) : Z.pos m < 2 ^ 53 -> Z.pos (digits2_pos m) <= 53.
Proof.
  intros H. rewrite digits2_size.
  destruct (Z.le_gt_cases (Z.pos (Pos.size m)) 53) as [Hle | Hgt]; [exact Hle|].
  exfalso.
  pose proof (Pos.size_le m) as Hs.
  assert (Hp : (2 ^ 53 <= 2 ^ (Z.pos (Pos.size m) - 1))%Z)
    by (apply Z.pow_le_mono_r; lia).
  assert (Hq : (2 ^ Z.pos (Pos.size m) = 2 * 2 ^ (Z.pos (Pos.size m) - 1))%Z).
  { rewrite <- Z.pow_succ_r by lia. f_equal. lia. }
  assert (Hr : (Z.pos (2 ^ Pos.size m) = 2 ^ Z.pos (Pos.size m))%Z)
    by (rewrite Pos2Z.inj_pow; reflexivity).
  assert (Z.pos (2 ^ Pos.size m) <= Z.pos m~0)%Z by exact Hs.
  lia.
Qed.

(** A mantissa of 53 digits with an exponent in range needs no rounding. *)
Lemma binary_round_aux_canonical (s : bool) (m : positive) (e : Z) :
  Z.pos (digits2_pos m) = 53 -> -1074 <= e <= 971 ->
  binary_round_aux prec emax s (Z.pos m) e loc_Exact = S754_finite s m e.
Proof.
  intros Hd He. unfold binary_round_aux, shr_fexp.
  cbn [Zdigits2 shr_record_of_loc]. rewrite Hd.
  assert (Hf : fexp prec emax (53 + e) - e = 0).
  { unfold fexp, SpecFloat.emin, prec, emax. lia. }
  rewrite Hf. cbn [shr shr_m loc_of_shr_record round_nearest_even Zdigits2 shr_record_of_loc].
  rewrite Hd, Hf. cbn [shr shr_m].
  replace (e <=? emax - prec)%Z with true; [reflexivity|].
  symmetry. apply Z.leb_le. unfold emax, prec. lia.
Qed.

Lemma of_int_small (n : Z) :
  0 <= n < 2 ^ 53 -> exists f, of_int n = Ok f.
Proof.
  intros [H0 H1]. unfold of_int.
  destruct n as [|m|m]; [eexists; reflexivity | | lia].
  cbn [binary_normalize]. unfold binary_round.
  pose proof (digits2_le_53 m H1) as Hd.
  unfold shl_align.
  assert (Hfe : fexp prec emax (Z.pos (digits2_pos m) + 0) - 0 =
                Z.pos (digits2_pos m) - 53).
  { unfold fexp, SpecFloat.emin, prec, emax. lia. }
  rewrite Hfe.
  destruct (Z.pos (digits2_pos m) - 53) as [|k|k] eqn:Hk; [ | lia | ].
  - rewrite binary_round_aux_canonical; [eexists; reflexivity | lia | lia].
  - assert (Hfx : fexp prec emax (Z.pos (digits2_pos m) + 0) = Z.neg k).
    { unfold fexp, SpecFloat.emin, prec, emax. lia. }
    rewrite Hfx.
    rewrite binary_round_aux_canonical; [eexists; reflexivity | | lia].
    rewrite digits2_iter_xO. lia.
Qed.

End ConversionFacts.

Section SynthesisFacts.

Local Open Scope result_scope.

Lemma add_term_small (acc w : float) (n : Z) :
  0 <= n < 2 ^ 53 -> exists f, add_term acc n w = Ok f.
Proof.
  intros H. destruct (of_int_small n H) as [f Hf].
  unfold add_term, int_mul. rewrite Hf. eexists; reflexivity.
Qed.

Lemma add_cap_small (acc w c : float) (n : Z) :
  0 <= n < 2 ^ 53 -> exists f, add_cap acc n w c = Ok f.
Proof.
  intros H. destruct (of_int_small n H) as [f Hf].
  unfold add_cap, int_mul. rewrite Hf. eexists; reflexivity.
Qed.

Lemma other_cells_within (r : SynthesisResults) :
  counts_within (2 ^ 53) r -> 0 <= Z.max 0 (total_cells r - known_gates r) < 2 ^ 53.
Proof. unfold counts_within, known_gates. lia. Qed.

Lemma calculate_area_small (r : SynthesisResults) :
  counts_within (2 ^ 53) r -> exists a, calculate_area r = Ok a.
Proof.
  intros H. pose proof (other_cells_within r H) as Ho.
  destruct H as (_ & H1 & H2 & H3 & H4 & H5 & H6 & H7 & H8 & H9).
  unfold calculate_area.
  repeat match goal with
         | |- context [add_term ?a ?n ?w] =>
             let f := fresh "f" in let Hf := fresh "Hf" in
             destruct (add_term_small a w n ltac:(assumption)) as [f Hf];
             rewrite Hf; cbn [rbind]
         end.
  eexists; reflexivity.
Qed.

Lemma estimate_power_small (r : SynthesisResults) :
  counts_within (2 ^ 53) r -> exists p, estimate_power r = Ok p.
Proof.
  intros H. pose proof (other_cells_within r H) as Ho.
  destruct H as (_ & H1 & H2 & H3 & H4 & H5 & H6 & H7 & H8 & H9).
  unfold estimate_power.
  repeat match goal with
         | |- context [add_cap ?a ?n ?w ?c] =>
             let f := fresh "f" in let Hf := fresh "Hf" in
             destruct (add_cap_small a w c n ltac:(assumption)) as [f Hf];
             rewrite Hf; cbn [rbind]
         end.
  eexists; reflexivity.
Qed.

(** What [estimate] returns, in terms of the record it is given. *)
Lemma estimate_inversion (p r : SynthesisResults) :
  estimate p = Ok r ->
  same_structure r p /\
  calculate_area p = Ok (estimated_area_ge r) /\
  estimate_critical_path p = Ok (critical_path_delay_ns r) /\
  estimate_power p = Ok (estimated_power_mw r) /\
  max_frequency_mhz r = (1000 / critical_path_delay_ns r)%float /\
  simulation_time_ms r = simulation_time_ms p.
Proof.
  unfold estimate.
  destruct (calculate_area p) as [a|] eqn:Ha; [|discriminate]. cbn [rbind].
  change (estimate_critical_path (set_estimated_area_ge a p))
    with (estimate_critical_path p).
  destruct (critical_path_values p) as [Hd | [Hd | Hd]]; rewrite Hd; cbn [rbind];
    (match goal with
     | |- context [estimate_power ?x] =>
         change (estimate_power x) with (estimate_power p)
     end;
     destruct (estimate_power p) as [w|] eqn:Hw; [|discriminate]; cbn [rbind];
     rewrite update_frequency_spec; intros [= <-];
     unfold same_structure; cbn; repeat split).
Qed.

Lemma estimate_raises (p : SynthesisResults) (e : exn) :
  estimate p = Raise e ->
  calculate_area p = Raise e \/ estimate_power p = Raise e.
Proof.
  unfold estimate.
  destruct (calculate_area p) as [a|] eqn:Ha; [|intros [= <-]; now left].
  cbn [rbind].
  change (estimate_critical_path (set_estimated_area_ge a p))
    with (estimate_critical_path p).
  destruct (critical_path_values p) as [Hd | [Hd | Hd]]; rewrite Hd; cbn [rbind];
    (match goal with
     | |- context [estimate_power ?x] =>
         change (estimate_power x) with (estimate_power p)
     end;
     destruct (estimate_power p) as [w|] eqn:Hw;
       [|intros [= <-]; now right]; cbn [rbind];
     rewrite update_frequency_spec; discriminate).
Qed.

Lemma estimate_small (p : SynthesisResults) :
  counts_within (2 ^ 53) p -> exists r, estimate p = Ok r.
Proof.
  intros H. destruct (estimate p) as [r|e] eqn:E; [now exists r|].
  destruct (calculate_area_small p H) as [a Ha].
  destruct (estimate_power_small p H) as [w Hw].
  destruct (estimate_raises p e E); congruence.
Qed.

Lemma of_int_exn (n : Z) (e : exn) : of_int n = Raise e -> e = OverflowError.
Proof.
  unfold of_int.
  destruct (binary_normalize prec emax n 0 false); congruence.
Qed.

Lemma add_term_exn (acc w : float) (n : Z) (e : exn) :
  add_term acc n w = Raise e -> e = OverflowError.
Proof.
  unfold add_term, int_mul. destruct (of_int n) eqn:E; [discriminate|].
  intros [= <-]. eapply of_int_exn; eauto.
Qed.

Lemma add_cap_exn (acc w c : float) (n : Z) (e : exn) :
  add_cap acc n w c = Raise e -> e = OverflowError.
Proof.
  unfold add_cap, int_mul. destruct (of_int n) eqn:E; [discriminate|].
  intros [= <-]. eapply of_int_exn; eauto.
Qed.

Lemma calculate_area_exn (r : SynthesisResults) (e : exn) :
  calculate_area r = Raise e -> e = OverflowError.
Proof.
  unfold calculate_area.
  repeat match goal with
         | |- context [add_term ?a ?n ?w] =>
             let E := fresh "E" in
             destruct (add_term a n w) eqn:E;
             [cbn [rbind] | intros [= <-]; eapply add_term_exn; eauto]
         end.
  discriminate.
Qed.

Lemma estimate_power_exn (r : SynthesisResults) (e : exn) :
  estimate_power r = Raise e -> e = OverflowError.
Proof.
  unfold estimate_power.
  repeat match goal with
         | |- context [add_cap ?a ?n ?w ?c] =>
             let E := fresh "E" in
             destruct (add_cap a n w c) eqn:E;
             [cbn [rbind] | intros [= <-]; eapply add_cap_exn; eauto]
         end.
  discriminate.
Qed.

Lemma synthesize_design_name (n : string) (proc : option string)
    (r : SynthesisResults) :
  synthesize_design n proc = Some r -> name r = n.
Proof.
  destruct proc as [output|]; [|discriminate]. intros H.
  destruct (synthesize_design_some _ _ _ H) as (p & Hp & E).
  apply estimate_inversion in E as ((Hn & _) & _).
  rewrite Hn. exact (parse_name _ _ _ Hp).
Qed.

Lemma estimate_exn (p : SynthesisResults) (e : exn) :
  estimate p = Raise e ->
  calculate_area p = Raise OverflowError \/
  estimate_power p = Raise OverflowError.
Proof.
  intros E. destruct (estimate_raises _ _ E) as [Ha | Hp]; [left | right].
  - now rewrite (calculate_area_exn _ _ Ha) in Ha.
  - now rewrite (estimate_power_exn _ _ Hp) in Hp.
Qed.

(** X2: the record [synthesize_design] returns for a completed run has the
    name it was given and the integer fields of the record the parser
    returned; its area, delay and power are the three estimates of that
    record, its frequency is 1000 / delay.  It returns nothing when the run
    did not complete, and for a completed run in two cases only: the
    parser raised [ValueError] on a count of more than 4300 digits, or a
    count is too large to convert to a float. *)
Theorem synthesize_design_record :
  (forall n, synthesize_design n None = None) /\
  (forall n output r,
     synthesize_design n (Some output) = Some r ->
     exists p,
       parse_yosys_output n output = Ok p /\
       name r = n /\
       same_structure r p /\
       calculate_area p = Ok (estimated_area_ge r) /\
       estimate_critical_path p = Ok (critical_path_delay_ns r) /\
       estimate_power p = Ok (estimated_power_mw r) /\
       max_frequency_mhz r = (1000 / critical_path_delay_ns r)%float /\
       simulation_time_ms r = 0%float) /\
  (forall n output,
     synthesize_design n (Some output) = None ->
     parse_yosys_output n output = Raise ValueError \/
     exists p,
       parse_yosys_output n output = Ok p /\
       (calculate_area p = Raise OverflowError \/
        estimate_power p = Raise OverflowError)) /\
  (forall n output e,
     parse_yosys_output n output = Raise e ->
     synthesize_design n (Some output) = None) /\
  (forall n output p e,
     parse_yosys_output n output = Ok p ->
     estimate p = Raise e ->
     synthesize_design n (Some output) = None).
Proof.
  split; [reflexivity|]. split; [|split; [|split]].
  - intros n output r H.
    destruct (synthesize_design_some _ _ _ H) as (p & Hp & E).
    exists p. split; [exact Hp|].
    split; [exact (synthesize_design_name n _ r H)|].
    destruct (estimate_inversion _ _ E) as (Hs & Ha & Hd & Hw & Hf & Ht).
    repeat (split; [assumption|]).
    rewrite Ht. apply (parse_untouched _ _ _ Hp).
  - intros n output H. unfold synthesize_design in H.
    destruct (parse_yosys_output n output) as [p|e] eqn:Hp; cbn [rbind] in H.
    + right. exists p. split; [reflexivity|].
      destruct (estimate p) as [r'|e] eqn:E; [discriminate|].
      exact (estimate_exn _ _ E).
    + left. f_equal. exact (parse_exn _ _ _ Hp).
  - exact synthesize_design_parse_raises.
  - intros n output p e Hp E. unfold synthesize_design.
    rewrite Hp. cbn [rbind]. now rewrite E.
Qed.

Lemma synthesize_design_record_witness :
  exists r,
    synthesize_design "Dadda" (Some (header ++ second_body)) = Some r /\
    total_cells r = 10 /\ and_gates r = 6.
Proof.
  destruct (synthesize_design "Dadda" (Some (header ++ second_body)))
    as [r|] eqn:E; [|vm_compute in E; discriminate].
  exists r. split; [reflexivity|].
  destruct synthesize_design_record as (_ & H & _).
  destruct (H "Dadda" (header ++ second_body) r E)
    as (p & Hp & _ & (_ & Hc & _ & _ & _ & _ & Ha & _) & _).
  rewrite Hc, Ha.
  assert (Hq : parse_yosys_output "Dadda" (header ++ second_body) =
               Ok (set_and_gates 6 (set_total_cells 10 (new_results "Dadda"))))
    by (vm_compute; reflexivity).
  rewrite Hq in Hp. injection Hp as <-. split; reflexivity.
Defined.

(** X3: the estimator cannot fail on counts below 2^53.  For such a record
    [estimate] returns a record, and a completed run for which the parser
    returns a record with counts below 2^53 always yields a record. *)
Theorem estimate_succeeds_below_2_53 :
  (forall p, counts_within (2 ^ 53) p -> exists r, estimate p = Ok r) /\
  (forall n output p,
     parse_yosys_output n output = Ok p ->
     counts_within (2 ^ 53) p ->
     exists r, synthesize_design n (Some output) = Some r).
Proof.
  split; [exact estimate_small|].
  intros n output p Hp H. unfold synthesize_design.
  rewrite Hp. cbn [rbind].
  destruct (estimate_small _ H) as [r ->]. now exists r.
Qed.

Lemma estimate_succeeds_below_2_53_witness :
  exists p,
    parse_yosys_output "Dadda" (header ++ second_body) = Ok p /\
    counts_within (2 ^ 53) p /\
    exists r, synthesize_design "Dadda" (Some (header ++ second_body)) = Some r.
Proof.
  exists (set_and_gates 6 (set_total_cells 10 (new_results "Dadda"))).
  assert (Hp : parse_yosys_output "Dadda" (header ++ second_body) =
               Ok (set_and_gates 6 (set_total_cells 10 (new_results "Dadda"))))
    by (vm_compute; reflexivity).
  assert (H : counts_within (2 ^ 53)
                (set_and_gates 6 (set_total_cells 10 (new_results "Dadda"))))
    by (vm_compute; repeat split; congruence).
  split; [exact Hp|]. split; [exact H|].
  exact (proj2 estimate_succeeds_below_2_53 "Dadda" (header ++ second_body) _
           Hp H).
Defined.

(** *** The store built by [analyze_all] *)

Lemma dict_get_other (n : string) (d : store) :
  (forall k v, In (k, v) d -> k <> n) -> dict_get n d = None.
Proof.
  induction d as [|[k v] d IH]; intros H; [reflexivity|].
  cbn [dict_get]. destruct (String.eqb_spec k n) as [-> | _].
  - exfalso. now apply (H n v (or_introl eq_refl)).
  - apply IH. intros k' v' Hin. apply (H k' v'). now right.
Qed.

(** X1: with the tool present the store holds, under each of the three
    names, exactly what [synthesize_design] returned for that variant, and
    nothing under any other name; in the fallback the three names are all
    present.  In both cases every record is stored under its own name and no
    name occurs twice. *)
Theorem build_results_lookup
    (has_yosys : bool) (classical_out dadda_out wallace_out : option string) :
  let d := build_results has_yosys classical_out dadda_out wallace_out in
  (has_yosys = true ->
     dict_get "Classical" d = synthesize_design "Classical" classical_out /\
     dict_get "Dadda" d = synthesize_design "Dadda" dadda_out /\
     dict_get "Wallace" d = synthesize_design "Wallace" wallace_out) /\
  (has_yosys = false ->
     d = [("Classical", theoretical_classical); ("Dadda", theoretical_dadda);
          ("Wallace", theoretical_wallace)]) /\
  (forall n, ~ In n variant_order -> dict_get n d = None) /\
  NoDup (keys d) /\
  (forall n r, In (n, r) d -> name r = n /\ dict_get n d = Some r).
Proof.
  cbv zeta. unfold build_results. destruct has_yosys.
  - destruct (synthesize_design "Classical" classical_out) as [c|] eqn:Ec,
             (synthesize_design "Dadda" dadda_out) as [dd|] eqn:Ed,
             (synthesize_design "Wallace" wallace_out) as [w|] eqn:Ew;
      cbn [insert_if_some dict_set String.eqb Ascii.eqb Bool.eqb];
      (split; [intros _; repeat split | ]);
      (split; [discriminate | ]);
      (split; [intros n Hn; apply dict_get_other; intros k v Hin Hk;
               apply Hn; subst k; unfold variant_order;
               cbn [In] in Hin |- *; intuition congruence | ]);
      (split; [cbn; repeat constructor; cbn; intuition discriminate | ]);
      intros n r Hin; cbn [In] in Hin;
      repeat (destruct Hin as [[= <- <-] | Hin];
              [split; [eapply synthesize_design_name; eassumption | reflexivity]|]);
      contradiction.
  - cbn [dict_set String.eqb Ascii.eqb Bool.eqb].
    split; [discriminate|]. split; [reflexivity|].
    split.
    { intros n Hn. apply dict_get_other. intros k v Hin Hk.
      apply Hn. subst k. unfold variant_order.
      cbn [In] in Hin |- *. intuition congruence. }
    split; [cbn; repeat constructor; cbn; intuition discriminate|].
    intros n r Hin. cbn [In] in Hin.
    repeat (destruct Hin as [[= <- <-] | Hin]; [split; reflexivity|]).
    contradiction.
Qed.

Lemma build_results_lookup_witness :
  dict_get "Dadda" (build_results true None (Some "") None) =
  synthesize_design "Dadda" (Some "").
Proof.
  destruct (build_results_lookup true None (Some "") None) as (H & _).
  exact (proj1 (proj2 (H eq_refl))).
Defined.

End SynthesisFacts.

Section SectionFacts.

Lemma prefix_app_true (p b r : string) :
  prefix p b = true -> prefix p (b ++ r) = true.
Proof.
  revert b. induction p as [|a p IH]; intros b H.
  - destruct (b ++ r); reflexivity.
  - destruct b as [|c b]; [discriminate|].
    cbn [append]. simpl in *. destruct (ascii_dec a c); [auto | discriminate].
Qed.

Lemma lazy_body_split (s : string) :
  s = fst (lazy_body s) ++ snd (lazy_body s).
Proof.
  induction s as [|c s IH]; cbn [lazy_body].
  - destruct (prefix next_banner ""); reflexivity.
  - destruct (prefix next_banner (String c s)); [reflexivity|].
    destruct (lazy_body s) as [b r]. cbn [fst snd append] in *. now f_equal.
Qed.

Lemma lazy_body_free (s : string) : contains_banner (fst (lazy_body s)) = false.
Proof.
  induction s as [|c s IH]; cbn [lazy_body].
  - destruct (prefix next_banner ""); reflexivity.
  - destruct (prefix next_banner (String c s)) eqn:Hp; [reflexivity|].
    pose proof (lazy_body_split s) as Hs.
    destruct (lazy_body s) as [b r]. cbn [fst snd] in *.
    cbn [contains_banner]. rewrite IH, orb_false_r.
    destruct (prefix next_banner (String c b)) eqn:Hq; [|reflexivity].
    apply (prefix_app_true _ _ r) in Hq. cbn [append] in Hq.
    rewrite <- Hs in Hq. congruence.
Qed.

Lemma finditer_form (fuel : nat) :
  forall s x, In x (finditer_from fuel s) ->
  exists body, x = header ++ body /\ contains_banner body = false.
Proof.
  induction fuel as [|fuel IH]; intros s x; cbn [finditer_from]; [intros []|].
  destruct (prefix header s).
  - pose proof (lazy_body_free (drop (String.length header) s)) as Hf.
    destruct (lazy_body (drop (String.length header) s)) as [b r].
    intros [<- | Hin]; [now exists b | eauto].
  - destruct s as [|c s]; [intros [] | eauto].
Qed.

Lemma finditer_nil_iff (fuel : nat) :
  forall s, (String.length s < fuel)%nat ->
  (finditer_from fuel s = [] <-> contains_header s = false).
Proof.
  induction fuel as [|fuel IH]; intros s Hlen; [inversion Hlen|].
  cbn [finditer_from].
  destruct s as [|c s].
  - cbn. tauto.
  - cbn [contains_header].
    destruct (prefix header (String c s)).
    + destruct (lazy_body _). cbn. split; discriminate.
    + cbn [orb]. apply IH. cbn in Hlen. lia.
Qed.

(** X4: every hierarchy section is the header followed by a text that is
    free of lines starting with "==="; there is no section exactly when the
    header does not occur in the text, and then the parser returns the
    all-zero record. *)
Theorem hierarchy_sections_shape (output : string) :
  (forall x, In x (hierarchy_sections output) ->
     exists body, x = header ++ body /\ contains_banner body = false) /\
  (hierarchy_sections output = [] <-> contains_header output = false) /\
  (contains_header output = false ->
     forall n, parse_yosys_output n output = Ok (new_results n)).
Proof.
  assert (Hiff : hierarchy_sections output = [] <-> contains_header output = false)
    by (apply finditer_nil_iff; lia).
  split; [apply finditer_form|]. split; [exact Hiff|].
  intros H n. apply parse_without_section. now apply Hiff.
Qed.

Lemma hierarchy_sections_shape_witness :
  contains_header "12 cells and 3 $_AND_" = false /\
  parse_yosys_output "Wallace" "12 cells and 3 $_AND_" =
    Ok (new_results "Wallace").
Proof.
  assert (H : contains_header "12 cells and 3 $_AND_" = false)
    by (vm_compute; reflexivity).
  split; [exact H|].
  exact (proj2 (proj2 (hierarchy_sections_shape "12 cells and 3 $_AND_"))
           H "Wallace").
Defined.

(** *** Text after the section *)

Lemma prefix_banner_straddle (b t : string) :
  b <> "" ->
  prefix next_banner b = false ->
  prefix next_banner (b ++ next_banner ++ t) = false.
Proof.
  intros Hb Hp.
  destruct b as [|c1 [|c2 [|c3 [|c4 b]]]]; [contradiction | | | |];
    unfold next_banner in *; cbn [append prefix] in *;
    repeat match goal with
           | |- context [ascii_dec ?x ?y] => destruct (ascii_dec x y)
           | H : context [ascii_dec ?x ?y] |- _ => destruct (ascii_dec x y)
           end; subst; try reflexivity; try discriminate.
  destruct b; discriminate Hp.
Qed.

Lemma lazy_body_stops (b t : string) :
  contains_banner b = false ->
  lazy_body (b ++ next_banner ++ t) = (b, next_banner ++ t).
Proof.
  induction b as [|c b IH]; intros H.
  - cbn [append]. change (next_banner ++ t) with (String newline ("===" ++ t)).
    cbn [lazy_body].
    assert (Hp : prefix next_banner (String newline ("===" ++ t)) = true)
      by apply (prefix_append next_banner t).
    now rewrite Hp.
  - cbn [contains_banner] in H. apply orb_false_iff in H as [Hp Hb].
    pose proof (prefix_banner_straddle (String c b) t ltac:(discriminate) Hp) as Hq.
    cbn [append] in Hq |- *. cbn [lazy_body]. rewrite Hq, (IH Hb). reflexivity.
Qed.

Lemma finditer_no_header (fuel : nat) (s : string) :
  contains_header s = false -> finditer_from fuel s = [].
Proof.
  revert s. induction fuel as [|fuel IH]; intros s H; [reflexivity|].
  cbn [finditer_from]. destruct s as [|c s]; [reflexivity|].
  cbn [contains_header] in H. apply orb_false_iff in H as [Hp Hs].
  rewrite Hp. now apply IH.
Qed.

Lemma finditer_header_then_rest (fuel : nat) (body rest : string) :
  contains_banner body = false ->
  contains_header (next_banner ++ rest) = false ->
  finditer_from (S fuel) (header ++ body ++ next_banner ++ rest) =
    [header ++ body].
Proof.
  intros Hb Hr. cbn [finditer_from].
  rewrite prefix_append, drop_append, (lazy_body_stops _ _ Hb).
  now rewrite (finditer_no_header _ _ Hr).
Qed.

Lemma finditer_last_section_rest (body rest : string) :
  contains_banner body = false ->
  contains_header (next_banner ++ rest) = false ->
  forall fuel pre,
    (String.length
       (pre ++ String newline (header ++ body ++ next_banner ++ rest)) < fuel)%nat ->
    exists l,
      finditer_from fuel
        (pre ++ String newline (header ++ body ++ next_banner ++ rest)) =
        (l ++ [(header ++ body)%string])%list.
Proof.
  intros Hb Hr.
  set (tl := body ++ next_banner ++ rest).
  set (t := " design hierarchy ===" ++ tl).
  assert (Ht : String newline (header ++ tl) = next_banner ++ t) by reflexivity.
  induction fuel as [|fuel IH]; intros pre Hlen; [inversion Hlen|].
  cbn [finditer_from].
  destruct (prefix header (pre ++ String newline (header ++ tl))) eqn:Hp.
  - destruct (prefix_before_newline header pre _ eq_refl Hp) as [p' ->].
    rewrite append_assoc, drop_append, Ht.
    destruct (lazy_body_before_banner p' t) as (b & p'' & -> & Hle).
    rewrite <- Ht.
    destruct (IH p'') as [l Hl].
    { rewrite !length_append in *.
      change (String.length header) with 24%nat in Hlen. lia. }
    rewrite Hl. now exists ((header ++ b) :: l).
  - destruct pre as [|c pre].
    + change ("" ++ String newline (header ++ tl))
        with (String newline (header ++ tl)).
      destruct fuel as [|fuel'].
      { cbn [append String.length] in Hlen. lia. }
      unfold tl. rewrite (finditer_header_then_rest _ _ _ Hb Hr). now exists [].
    + change (String c pre ++ String newline (header ++ tl))
        with (String c (pre ++ String newline (header ++ tl))).
      apply IH. cbn [append String.length] in Hlen. lia.
Qed.

(** X5: a section ends at the next line starting with "===".  When the
    last header line is followed by a body free of such lines, then by such
    a line and a text without the header, the record is read from the
    header and that body only: neither what precedes the header nor what
    follows the closing line is read. *)
Theorem section_ends_at_banner (n pre body rest : string) :
  contains_banner body = false ->
  contains_header (next_banner ++ rest) = false ->
  parse_yosys_output n
    (pre ++ String newline (header ++ body ++ next_banner ++ rest)) =
  parse_section (new_results n) (header ++ body).
Proof.
  intros Hb Hr.
  destruct (finditer_last_section_rest body rest Hb Hr
              (S (String.length
                    (pre ++ String newline
                       (header ++ body ++ next_banner ++ rest)))) pre)
    as [earlier He]; [lia|].
  exact (parse_of_last_section n _ earlier _ He).
Qed.

Lemma section_ends_at_banner_witness :
  exists r,
    parse_yosys_output "Dadda"
      (first_section ++
       String newline
         (header ++ second_body ++ next_banner ++ " end ===" ++
          String newline "   99 cells")) = Ok r /\
    total_cells r = 10.
Proof.
  rewrite (section_ends_at_banner "Dadda" first_section second_body
             (" end ===" ++ String newline "   99 cells")).
  - eexists. split; vm_compute; reflexivity.
  - vm_compute. reflexivity.
  - vm_compute. reflexivity.
Defined.

End SectionFacts.

Section SearchFacts.

Lemma take_while_run (p : ascii -> bool) (a t : string) :
  all_chars p a = true -> take_while p t = "" ->
  take_while p (a ++ t) = a /\ drop_while p (a ++ t) = drop_while p t.
Proof.
  intros Ha Ht. induction a as [|c a IH]; cbn [append].
  - now split.
  - cbn [all_chars] in Ha. apply andb_true_iff in Ha as [Hc Ha].
    cbn [take_while drop_while]. rewrite Hc.
    destruct (IH Ha) as [-> ->]. now split.
Qed.

Lemma drop_while_stop (p : ascii -> bool) (t : string) :
  take_while p t = "" -> drop_while p t = t.
Proof.
  destruct t as [|c t]; [reflexivity|]. cbn [take_while drop_while].
  destruct (p c); [discriminate | reflexivity].
Qed.

Lemma space_not_digit (c : ascii) : is_space c = true -> is_digit c = false.
Proof.
  destruct c as [[] [] [] [] [] [] [] []]; vm_compute; congruence.
Qed.

Lemma spaces_start (ws t : string) :
  all_chars is_space ws = true -> ws <> "" -> take_while is_digit (ws ++ t) = "".
Proof.
  destruct ws as [|c ws]; [contradiction|]. cbn [all_chars append take_while].
  intros H _. apply andb_true_iff in H as [Hc _].
  now rewrite (space_not_digit c Hc).
Qed.

Lemma is_empty_false (s : string) : s <> "" -> is_empty s = false.
Proof. destruct s; [contradiction | reflexivity]. Qed.

Lemma match_count_line (kw ds ws rest : string) :
  all_chars is_digit ds = true -> ds <> "" ->
  all_chars is_space ws = true -> ws <> "" ->
  take_while is_space (kw ++ rest) = "" ->
  match_count kw (ds ++ ws ++ kw ++ rest) = Some ds.
Proof.
  intros Hd Hdn Hw Hwn Hk. unfold match_count.
  destruct (take_while_run is_digit ds (ws ++ kw ++ rest) Hd
              (spaces_start ws _ Hw Hwn)) as [-> ->].
  rewrite (drop_while_stop is_digit _ (spaces_start ws _ Hw Hwn)).
  destruct (take_while_run is_space ws (kw ++ rest) Hw Hk) as [-> ->].
  rewrite (drop_while_stop is_space _ Hk).
  rewrite (is_empty_false _ Hdn), (is_empty_false _ Hwn), prefix_append.
  reflexivity.
Qed.

Lemma search_count_skip (kw p s : string) :
  all_chars not_digit p = true ->
  search_count kw (p ++ s) = search_count kw s.
Proof.
  induction p as [|c p IH]; intros H; [reflexivity|].
  cbn [all_chars] in H. apply andb_true_iff in H as [Hc Hp].
  cbn [append search_count]. unfold match_count at 1.
  cbn [take_while]. unfold not_digit in Hc. apply negb_true_iff in Hc.
  rewrite Hc. cbn [is_empty]. now apply IH.
Qed.

Lemma search_count_here (kw s g : string) :
  match_count kw s = Some g -> search_count kw s = Some g.
Proof. intros H. destruct s; cbn [search_count]; now rewrite H. Qed.

(** X6: the searched counts come from the first match.  After any text
    without digits, a run of digits, white space and the keyword give that
    run, whatever follows, later lines with the same keyword included; so
    the [total_cells] of the record returned is the first "cells" count of
    the section, and the parser raises when that count does not convert. *)
Theorem first_count_wins :
  (forall kw p ds ws rest,
     all_chars not_digit p = true ->
     all_chars is_digit ds = true -> ds <> "" ->
     all_chars is_space ws = true -> ws <> "" ->
     take_while is_space (kw ++ rest) = "" ->
     search_count kw (p ++ ds ++ ws ++ kw ++ rest) = Some ds) /\
  (forall r p ds ws rest,
     all_chars not_digit p = true ->
     all_chars is_digit ds = true -> ds <> "" ->
     all_chars is_space ws = true -> ws <> "" ->
     (convertible ds = false ->
        parse_section r (p ++ ds ++ ws ++ "cells" ++ rest) = Raise ValueError) /\
     (section_converts (p ++ ds ++ ws ++ "cells" ++ rest) = true ->
        exists r', parse_section r (p ++ ds ++ ws ++ "cells" ++ rest) = Ok r') /\
     (forall r',
        parse_section r (p ++ ds ++ ws ++ "cells" ++ rest) = Ok r' ->
        total_cells r' = digits_value ds)).
Proof.
  assert (H : forall kw p ds ws rest,
     all_chars not_digit p = true ->
     all_chars is_digit ds = true -> ds <> "" ->
     all_chars is_space ws = true -> ws <> "" ->
     take_while is_space (kw ++ rest) = "" ->
     search_count kw (p ++ ds ++ ws ++ kw ++ rest) = Some ds).
  { intros kw p ds ws rest Hp Hd Hdn Hw Hwn Hk.
    rewrite (search_count_skip kw p _ Hp).
    apply search_count_here, match_count_line; assumption. }
  split; [exact H|].
  intros r p ds ws rest Hp Hd Hdn Hw Hwn.
  pose proof (H "cells" p ds ws rest Hp Hd Hdn Hw Hwn eq_refl) as Hs.
  split; [|split].
  - intros Hc. apply parse_section_raises.
    unfold section_converts, search_converts at 1. now rewrite Hs, Hc.
  - apply parse_section_returns.
  - intros r' Hr.
    destruct (parse_section_searched _ _ _ Hr) as (_ & -> & _).
    now rewrite Hs.
Qed.

Lemma first_count_wins_witness :
  exists r',
    parse_section (new_results "Dadda")
      ((header ++ String newline "   ") ++ "7" ++ " " ++ "cells" ++
       String newline "   9 cells") = Ok r' /\
    total_cells r' = 7.
Proof.
  destruct first_count_wins as [_ H].
  destruct (H (new_results "Dadda") (header ++ String newline "   ") "7" " "
              (String newline "   9 cells"))
    as (_ & Hret & Hval);
    [reflexivity | reflexivity | discriminate | reflexivity | discriminate |].
  destruct (Hret ltac:(vm_compute; reflexivity)) as [r' Hr].
  exists r'. split; [exact Hr | exact (Hval r' Hr)].
Defined.

(** *** One line of the section *)

Lemma set_gate_unrecognised (tok : string) (c : Z) (r : SynthesisResults) :
  ~ In tok (map fst gate_fields) -> set_gate tok c r = r.
Proof.
  intros H. unfold set_gate.
  repeat match goal with
         | |- context [if tok =? ?k then _ else _] =>
             let E := fresh "E" in
             destruct (tok =? k) eqn:E;
             [ exfalso; apply H; apply String.eqb_eq in E; rewrite E;
               cbn; tauto | ]
         end.
  reflexivity.
Qed.

Lemma line_token_converts (l : string) :
  line_token l = None -> line_converts l = true.
Proof.
  unfold line_token, line_converts.
  destruct (line_groups l) as [[g t]|]; [discriminate | reflexivity].
Qed.

(** X8: a line of the section changes at most one field.  A blank or
    unmatched line leaves the record as it is.  A matched line raises when
    its count does not convert; otherwise a line whose token is none of the
    nine leaves the record as it is, and a line with a recognised token
    sets the field of that token to its count and leaves every other gate
    field, the name and the three searched counts as they are. *)
Theorem parse_line_frame (r : SynthesisResults) (l : string) :
  (line_token l = None -> parse_line r l = Ok r) /\
  (line_converts l = false -> parse_line r l = Raise ValueError) /\
  (forall c t,
     line_token l = Some (c, t) ->
     line_converts l = true ->
     exists r',
       parse_line r l = Ok r' /\
       (~ In t (map fst gate_fields) -> r' = r) /\
       (forall g, In (t, g) gate_fields -> g r' = c) /\
       (forall t' g', In (t', g') gate_fields -> t' <> t -> g' r' = g' r) /\
       name r' = name r /\
       total_cells r' = total_cells r /\
       wires r' = wires r /\
       public_wires r' = public_wires r).
Proof.
  rewrite parse_line_spec. split; [|split].
  - intros H. now rewrite (line_token_converts l H), H.
  - now intros ->.
  - intros c t -> ->. eexists. split; [reflexivity|].
    split; [apply set_gate_unrecognised|].
    split.
    { intros g Hin. rewrite (set_gate_field t g Hin).
      now rewrite String.eqb_refl. }
    split.
    { intros t' g' Hin Hne. rewrite (set_gate_field t' g' Hin).
      apply not_eq_sym, String.eqb_neq in Hne. now rewrite Hne. }
    pose proof (set_gate_structure t c r) as H. tauto.
Qed.

Lemma parse_line_frame_witness :
  line_token "  12 $_XOR_" = Some (12, "$_XOR_") /\
  exists r',
    parse_line overfull_record "  12 $_XOR_" = Ok r' /\
    xor_gates r' = 12 /\ and_gates r' = 5.
Proof.
  assert (H : line_token "  12 $_XOR_" = Some (12, "$_XOR_"))
    by (vm_compute; reflexivity).
  split; [exact H|].
  destruct (parse_line_frame overfull_record "  12 $_XOR_") as (_ & _ & F).
  destruct (F 12 "$_XOR_" H ltac:(vm_compute; reflexivity))
    as (r' & Hr & _ & Hset & Hkeep & _).
  exists r'. split; [exact Hr|]. split.
  - apply (Hset xor_gates). cbn. tauto.
  - rewrite (Hkeep "$_AND_" and_gates); [reflexivity | cbn; tauto | discriminate].
Defined.

End SearchFacts.

Section OutputFacts.

Variable P : line -> Prop.

Lemma out_pbind (A B : Type) (m : printer A) (f : A -> printer B) :
  Forall P (fst m) ->
  (forall a, snd m = Ok a -> Forall P (fst (f a))) ->
  Forall P (fst (pbind m f)).
Proof.
  destruct m as [o [a|e]]; cbn [fst snd pbind]; intros Ho Hf; [|exact Ho].
  specialize (Hf a eq_refl). destruct (f a) as [o' r']. cbn [fst] in *.
  apply Forall_app. now split.
Qed.

Lemma out_lift (A : Type) (r : result A) : Forall P (fst (lift r)).
Proof. constructor. Qed.

Lemma out_pret (A : Type) (a : A) : Forall P (fst (pret a)).
Proof. constructor. Qed.

Lemma out_print (l : line) : P l -> Forall P (fst (print l)).
Proof. intros H. cbn. now constructor. Qed.

Lemma out_for_each (A : Type) (l : list A) (body : A -> printer unit) :
  (forall x, In x l -> Forall P (fst (body x))) ->
  Forall P (fst (for_each l body)).
Proof.
  induction l as [|x l IH]; intros H; cbn [for_each]; [apply out_pret|].
  apply out_pbind; [apply H; now left|].
  intros _ _. apply IH. intros y Hy. apply H. now right.
Qed.

Lemma out_for_present (d : store)
    (body : string -> SynthesisResults -> printer unit) :
  (forall n r, dict_get n d = Some r -> Forall P (fst (body n r))) ->
  Forall P (fst (for_present d body)).
Proof.
  intros H. unfold for_present. apply out_for_each. intros n _.
  destruct (dict_get n d) eqn:E; [now apply H | apply out_pret].
Qed.

Lemma out_min_or_one (xs : list float) : Forall P (fst (min_or_one xs)).
Proof. unfold min_or_one. destruct (is_nil xs); constructor. Qed.

Lemma out_max_or_one (xs : list float) : Forall P (fst (max_or_one xs)).
Proof. unfold max_or_one. destruct (is_nil xs); constructor. Qed.

End OutputFacts.

Section ReportExtras.

Local Open Scope float_scope.

Ltac out_step :=
  lazymatch goal with
  | |- Forall _ (fst (pbind _ _)) => apply out_pbind; [|intros ? ?]
  | |- Forall _ (fst (lift _)) => apply out_lift
  | |- Forall _ (fst (pret _)) => apply out_pret
  | |- Forall _ (fst (min_or_one _)) => apply out_min_or_one
  | |- Forall _ (fst (max_or_one _)) => apply out_max_or_one
  | |- Forall _ (fst (for_present _ _)) => apply out_for_present; intros ? ? ?
  | |- Forall _ (fst (print _)) => apply out_print
  end.

(** The six sections before [save_results] write lines that satisfy [P]
    when the row lines and the pairwise lines they can write do. *)
Lemma out_tables (P : line -> Prop) (d : store) :
  (forall l, is_saved l = false -> pair_line_justified d l -> P l) ->
  Forall P (fst (area_analysis d)) /\
  Forall P (fst (timing_analysis d)) /\
  Forall P (fst (power_analysis d)) /\
  Forall P (fst (gate_breakdown d)).
Proof.
  intros H.
  repeat split;
    unfold area_analysis, timing_analysis, power_analysis, gate_breakdown;
    repeat out_step; apply H; exact I || reflexivity.
Qed.

Lemma out_faster (P : line -> Prop) (who : string) (d : store) :
  who = "Wallace"%string \/ who = "Dadda"%string ->
  (forall l, is_saved l = false -> pair_line_justified d l -> P l) ->
  Forall P (fst (faster_than_classical who d)).
Proof.
  intros Hwho H. unfold faster_than_classical.
  destruct (dict_get "Classical" d) as [c|] eqn:Ec; [|constructor].
  destruct (dict_get who d) as [w|] eqn:Ew; [|constructor].
  unfold div.
  destruct (critical_path_delay_ns w =? 0) eqn:Ez; [constructor|].
  cbn. constructor; [|constructor].
  apply H; [reflexivity|]. split; [exact Hwho|]. now exists c, w.
Qed.

Lemma out_wallace_vs_dadda (P : line -> Prop) (d : store) :
  (forall l, is_saved l = false -> pair_line_justified d l -> P l) ->
  Forall P (fst (wallace_vs_dadda d)).
Proof.
  intros H. unfold wallace_vs_dadda.
  destruct (dict_get "Wallace" d) as [w|] eqn:Ew; [|constructor].
  destruct (dict_get "Dadda" d) as [dd|] eqn:Ed; [|constructor].
  unfold div.
  destruct (min_step (critical_path_delay_ns w) (critical_path_delay_ns dd) =? 0)
    eqn:Em; [constructor|].
  destruct (estimated_area_ge w =? 0) eqn:Ez; [constructor|].
  cbn. constructor; [|constructor; [|constructor]].
  - apply H; [reflexivity|]. now exists w, dd.
  - apply H; [reflexivity|]. now exists w, dd.
Qed.

Lemma out_speedup (P : line -> Prop) (d : store) :
  (forall l, is_saved l = false -> pair_line_justified d l -> P l) ->
  Forall P (fst (speedup_analysis d)).
Proof.
  intros H. unfold speedup_analysis.
  apply out_pbind; [apply out_faster; auto|]. intros _ _.
  apply out_pbind; [apply out_faster; auto|]. intros _ _.
  now apply out_wallace_vs_dadda.
Qed.

Lemma out_recommendation (P : line -> Prop) (d : store) :
  (forall l, is_saved l = false -> pair_line_justified d l -> P l) ->
  Forall P (fst (recommendation d)).
Proof.
  intros H. unfold recommendation.
  repeat out_step; apply H; exact I || reflexivity.
Qed.

(** The report up to the call of [save_results]. *)
Lemma report_before_save (d : store) :
  d <> [] ->
  exists (out : list line) (res : result unit),
    Forall (fun l => is_saved l = false /\ pair_line_justified d l) out /\
    generate_report d =
      match res with
      | Ok _ => ((out ++ [SavedResults d])%list, Ok tt)
      | Raise e => (out, Raise e)
      end.
Proof.
  intros Hd. unfold generate_report. rewrite (is_nil_false _ _ Hd).
  set (P := fun l => is_saved l = false /\ pair_line_justified d l).
  assert (HP : forall l, is_saved l = false -> pair_line_justified d l -> P l)
    by (intros; split; assumption).
  destruct (out_tables P d HP) as (Ha & Ht & Hp & Hg).
  pose proof (out_speedup P d HP) as Hs.
  pose proof (out_recommendation P d HP) as Hr.
  destruct (area_analysis d) as [oa [[]|ea]]; cbn [fst pbind] in *;
    [|now exists oa, (Raise ea)].
  destruct (timing_analysis d) as [ot [[]|et]]; cbn [fst pbind] in *;
    [|exists (oa ++ ot)%list, (Raise et); split;
      [apply Forall_app; now split | reflexivity]].
  destruct (power_analysis d) as [op [[]|ep]]; cbn [fst pbind] in *;
    [|exists (oa ++ ot ++ op)%list, (Raise ep); split;
      [repeat (apply Forall_app; split); assumption | reflexivity]].
  destruct (gate_breakdown d) as [og [[]|eg]]; cbn [fst pbind] in *;
    [|exists (oa ++ ot ++ op ++ og)%list, (Raise eg); split;
      [repeat (apply Forall_app; split); assumption | reflexivity]].
  destruct (speedup_analysis d) as [os [[]|es]]; cbn [fst pbind] in *;
    [|exists (oa ++ ot ++ op ++ og ++ os)%list, (Raise es); split;
      [repeat (apply Forall_app; split); assumption | reflexivity]].
  destruct (recommendation d) as [orr [[]|er]]; cbn [fst pbind] in *;
    [|exists (oa ++ ot ++ op ++ og ++ os ++ orr)%list, (Raise er); split;
      [repeat (apply Forall_app; split); assumption | reflexivity]].
  exists (oa ++ ot ++ op ++ og ++ os ++ orr)%list, (Ok tt). split.
  - repeat (apply Forall_app; split); assumption.
  - cbn [save_results print]. rewrite <- !app_assoc. reflexivity.
Qed.

(** X11: the results are saved exactly when the report of a non-empty
    store runs to its end.  For an empty store the report is the single
    no-results line.  Otherwise the line of [save_results] is written last,
    with the store as it was given, when nothing raised, and not at all
    when a section raised. *)
Theorem results_saved_on_completion (d : store) :
  (d = [] -> generate_report d = ([NoResults], Ok tt)) /\
  (d <> [] ->
   exists (out : list line) (res : result unit),
     (forall l, In l out -> is_saved l = false) /\
     generate_report d =
       match res with
       | Ok _ => ((out ++ [SavedResults d])%list, Ok tt)
       | Raise e => (out, Raise e)
       end).
Proof.
  split; [intros ->; reflexivity|].
  intros Hd. destruct (report_before_save d Hd) as (out & res & Hout & Hrep).
  exists out, res. split; [|exact Hrep].
  intros l Hl. rewrite Forall_forall in Hout. now apply Hout.
Qed.

Lemma results_saved_on_completion_witness :
  exists (out : list line) (res : result unit),
    (forall l, In l out -> is_saved l = false) /\
    generate_report fallback_store =
      match res with
      | Ok _ => ((out ++ [SavedResults fallback_store])%list, Ok tt)
      | Raise e => (out, Raise e)
      end.
Proof.
  apply (proj2 (results_saved_on_completion fallback_store)). discriminate.
Defined.

(** X12: whatever the store and however the report ends, a pairwise line
    it has written compares two variants that are both in the store, with a
    divisor that is not zero and the number computed from their records;
    this holds of the timing difference, whose divisor is the smaller of
    the two delays, as of the other pairwise lines. *)
Theorem pairwise_lines_justified (d : store) (l : line) :
  In l (fst (generate_report d)) -> pair_line_justified d l.
Proof.
  destruct d as [|x d'] eqn:Ed.
  - cbn. intros [<- | []]. exact I.
  - rewrite <- Ed.
    destruct (report_before_save d) as (out & res & Hout & ->);
      [rewrite Ed; discriminate|].
    rewrite Forall_forall in Hout.
    destruct res as [[]|e]; cbn [fst]; intros Hin.
    + apply in_app_or in Hin as [Hin | [<- | []]]; [now apply Hout | exact I].
    + now apply Hout.
Qed.

Lemma pairwise_lines_justified_witness :
  pair_line_justified fallback_store
    (FasterThanClassical "Dadda" (9.6 / 6.75)) /\
  pair_line_justified fallback_store
    (TimingDifference (abs (6.75 - 6.75) / min_step 6.75 6.75 * 100)).
Proof.
  split; apply pairwise_lines_justified; vm_compute; tauto.
Defined.

(** *** A zero minimum *)

Lemma contains_not_nil (n : string) (d : store) : contains n d = true -> d <> [].
Proof. destruct d; [discriminate | discriminate]. Qed.

(** X10: when some variant of the three names is in the store and the
    minimum area over the store is zero, the report raises
    [ZeroDivisionError] at the first row of the area table: no line is
    written and nothing is saved. *)
Theorem zero_minimum_area_aborts (d : store) (m : float) :
  some_variant_present d ->
  min_list (map estimated_area_ge (values d)) = Ok m ->
  (m =? 0) = true ->
  generate_report d = ([], Raise ZeroDivisionError).
Proof.
  intros (n & Hn & Hc) Hm Hz.
  pose proof (contains_not_nil n d Hc) as Hd.
  unfold generate_report. rewrite (is_nil_false _ _ Hd).
  unfold area_analysis, min_or_one.
  rewrite (is_nil_false _ _ (values_not_nil d _ Hd)), Hm.
  unfold lift at 1. unfold pbind at 2.
  unfold for_present, variant_order. cbn [for_each].
  unfold contains in Hc. unfold variant_order in Hn. cbn [In] in Hn.
  destruct (dict_get "Classical" d) as [c|] eqn:Ec;
    [unfold div; rewrite Hz; reflexivity|].
  destruct (dict_get "Dadda" d) as [dd|] eqn:Edd;
    [unfold div; rewrite Hz; reflexivity|].
  destruct (dict_get "Wallace" d) as [w|] eqn:Ew;
    [unfold div; rewrite Hz; reflexivity|].
  exfalso.
  destruct Hn as [<- | [<- | [<- | []]]];
    rewrite ?Ec, ?Edd, ?Ew in Hc; discriminate.
Qed.

Lemma zero_minimum_area_aborts_witness :
  generate_report (build_results true None (Some "") None) =
  ([], Raise ZeroDivisionError).
Proof.
  apply (zero_minimum_area_aborts _ 0).
  - exists "Dadda"%string. split; [cbn; tauto | vm_compute; reflexivity].
  - vm_compute. reflexivity.
  - reflexivity.
Defined.

Lemma synthesize_design_sectionless (n output : string) :
  hierarchy_sections output = [] ->
  synthesize_design n (Some output) = synthesize_design n (Some ""%string).
Proof.
  intros H. unfold synthesize_design.
  now rewrite (parse_without_section n output H).
Qed.

(** X13: with the tool present, when no completed run printed a hierarchy
    section the analysis ends in one of two ways: the no-results line when
    no run completed, and [ZeroDivisionError] before any line otherwise. *)
Theorem analysis_without_sections
    (classical_out dadda_out wallace_out : option string) :
  without_section classical_out ->
  without_section dadda_out ->
  without_section wallace_out ->
  analyze_all true classical_out dadda_out wallace_out =
    match classical_out, dadda_out, wallace_out with
    | None, None, None => ([NoResults], Ok tt)
    | _, _, _ => ([], Raise ZeroDivisionError)
    end.
Proof.
  intros Hc Hd Hw. unfold analyze_all, build_results.
  destruct classical_out as [c|], dadda_out as [dd|], wallace_out as [w|];
    cbn [without_section] in *;
    rewrite ?(synthesize_design_sectionless _ _ Hc),
            ?(synthesize_design_sectionless _ _ Hd),
            ?(synthesize_design_sectionless _ _ Hw);
    vm_compute; reflexivity.
Qed.

Lemma analysis_without_sections_witness :
  analyze_all true (Some "yosys: no such file"%string) None None =
  ([], Raise ZeroDivisionError).
Proof.
  apply (analysis_without_sections (Some "yosys: no such file"%string) None None);
    vm_compute; auto.
Defined.

(** X9: on a non-empty store whose areas, delays and powers are all
    non-zero the report raises nothing, whichever variants are present: it
    names a fastest, a smallest and a least-power variant that are entries
    of the store and ends by saving the store. *)
Theorem report_runs_to_end (d : store) :
  d <> [] ->
  nonzero_metrics d ->
  exists out best_speed best_area best_power,
    In best_speed d /\ In best_area d /\ In best_power d /\
    In (Fastest (fst best_speed) (critical_path_delay_ns (snd best_speed))) out /\
    In (Smallest (fst best_area) (estimated_area_ge (snd best_area))) out /\
    In (LeastPower (fst best_power) (estimated_power_mw (snd best_power))) out /\
    generate_report d = ((out ++ [SavedResults d])%list, Ok tt).
Proof.
  intros Hd Hz.
  destruct (report_completes d Hd Hz)
    as (a & t & p & bs & ba & bp & Hbs & Hba & Hbp & H).
  destruct (min_item_defined critical_path_delay_ns d Hd) as (bs' & Hbs' & Hins).
  destruct (min_item_defined estimated_area_ge d Hd) as (ba' & Hba' & Hina).
  destruct (min_item_defined estimated_power_mw d Hd) as (bp' & Hbp' & Hinp).
  assert (bs' = bs) by congruence. assert (ba' = ba) by congruence.
  assert (bp' = bp) by congruence. subst bs' ba' bp'.
  exists (a ++ t ++ p ++ rows_of d GateBreakdown ++ speedup_lines d ++
          [Fastest (fst bs) (critical_path_delay_ns (snd bs));
           Smallest (fst ba) (estimated_area_ge (snd ba));
           LeastPower (fst bp) (estimated_power_mw (snd bp));
           Recommendation])%list, bs, ba, bp.
  repeat (split; [assumption|]).
  split; [repeat (apply in_or_app; right); cbn; tauto|].
  split; [repeat (apply in_or_app; right); cbn; tauto|].
  split; [repeat (apply in_or_app; right); cbn; tauto|].
  rewrite H. f_equal.
  repeat rewrite <- app_assoc. reflexivity.
Qed.

Lemma report_runs_to_end_witness :
  exists out,
    generate_report fallback_store =
      ((out ++ [SavedResults fallback_store])%list, Ok tt).
Proof.
  destruct (report_runs_to_end fallback_store ltac:(discriminate)
              fallback_store_nonzero)
    as (out & _ & _ & _ & _ & _ & _ & _ & _ & _ & H).
  exists out. exact H.
Defined.

End ReportExtras.

Section LineFacts.

Lemma rstrip_keeps (a b : string) :
  rstrip b <> "" -> rstrip (a ++ b) = a ++ rstrip b.
Proof.
  intros Hb. induction a as [|c a IH]; [reflexivity|].
  cbn [append rstrip]. rewrite IH.
  assert (He : is_empty (a ++ rstrip b) = false).
  { destruct a; [now apply is_empty_false | reflexivity]. }
  now rewrite He, andb_false_r.
Qed.

Lemma rstrip_cons (c : ascii) (s : string) :
  is_space c = false -> rstrip (String c s) = String c (rstrip s).
Proof. intros H. cbn [rstrip]. now rewrite H. Qed.

Lemma drop_while_spaces (pad t : string) :
  all_chars is_space pad = true ->
  drop_while is_space (pad ++ t) = drop_while is_space t.
Proof.
  induction pad as [|c pad IH]; intros H; [reflexivity|].
  cbn [all_chars] in H. apply andb_true_iff in H as [Hc Hp].
  cbn [append drop_while]. rewrite Hc. now apply IH.
Qed.

Lemma digits_start (ds t : string) :
  all_chars is_digit ds = true -> ds <> "" ->
  drop_while is_space (ds ++ t) = ds ++ t.
Proof.
  destruct ds as [|c ds]; [contradiction|]. cbn [all_chars append drop_while].
  intros H _. apply andb_true_iff in H as [Hc _].
  destruct (is_space c) eqn:Es; [|reflexivity].
  rewrite (space_not_digit c Es) in Hc. discriminate.
Qed.

(** The stripped line, when the token starts with a character that is not
    white space. *)
Lemma strip_gate_line (pad ds ws : string) (c : ascii) (t rest : string) :
  all_chars is_space pad = true ->
  all_chars is_digit ds = true -> ds <> "" ->
  is_space c = false ->
  strip (pad ++ ds ++ ws ++ String c t ++ rest) =
    ds ++ ws ++ String c (rstrip (t ++ rest)).
Proof.
  intros Hp Hd Hdn Hc. unfold strip.
  rewrite (drop_while_spaces pad _ Hp), (digits_start ds _ Hd Hdn).
  assert (Hr : rstrip (String c t ++ rest) = String c (rstrip (t ++ rest)))
    by (cbn [append]; now apply rstrip_cons).
  rewrite (rstrip_keeps ds), (rstrip_keeps ws); rewrite ?Hr; try discriminate.
  - reflexivity.
  - rewrite (rstrip_keeps ws); rewrite ?Hr; try discriminate.
    destruct ws; discriminate.
Qed.

Lemma match_gate_line_run (ds ws r2 : string) :
  all_chars is_digit ds = true -> ds <> "" ->
  all_chars is_space ws = true -> ws <> "" ->
  take_while is_space r2 = "" ->
  match_gate_line (ds ++ ws ++ r2) =
    match r2 with
    | String "$" r3 =>
        match gate_primitive r3 with
        | Some tok => Some (ds, tok)
        | None =>
            match gate_macro r3 with
            | Some tok => Some (ds, tok)
            | None => None
            end
        end
    | _ => None
    end.
Proof.
  intros Hd Hdn Hw Hwn Hk. unfold match_gate_line.
  destruct (take_while_run is_digit ds (ws ++ r2) Hd
              (spaces_start ws _ Hw Hwn)) as [-> ->].
  rewrite (drop_while_stop is_digit _ (spaces_start ws _ Hw Hwn)).
  destruct (take_while_run is_space ws r2 Hw Hk) as [-> ->].
  rewrite (drop_while_stop is_space _ Hk).
  now rewrite (is_empty_false _ Hdn), (is_empty_false _ Hwn).
Qed.

Lemma take_while_rstrip_stop (p : ascii -> bool) (s : string) :
  take_while p s = "" -> take_while p (rstrip s) = "".
Proof.
  destruct s as [|c s]; [reflexivity|]. cbn [take_while rstrip].
  destruct (p c) eqn:Hc; [discriminate|]. intros _.
  destruct (is_space c && is_empty (rstrip s)); [reflexivity|].
  cbn [take_while]. now rewrite Hc.
Qed.

Lemma word_not_space (c : ascii) : is_word c = true -> is_space c = false.
Proof.
  destruct c as [[] [] [] [] [] [] [] []]; vm_compute; congruence.
Qed.

Lemma line_groups_shape (pad ds ws t rest : string) :
  all_chars is_space pad = true ->
  all_chars is_digit ds = true -> ds <> "" ->
  all_chars is_space ws = true -> ws <> "" ->
  line_groups (pad ++ ds ++ ws ++ String "$" t ++ rest) =
    match gate_primitive (rstrip (t ++ rest)) with
    | Some tok => Some (ds, tok)
    | None =>
        match gate_macro (rstrip (t ++ rest)) with
        | Some tok => Some (ds, tok)
        | None => None
        end
    end.
Proof.
  intros Hp Hd Hdn Hw Hwn. unfold line_groups.
  rewrite (strip_gate_line pad ds ws "$" t rest Hp Hd Hdn eq_refl).
  now rewrite (match_gate_line_run ds ws (String "$" (rstrip (t ++ rest)))
                 Hd Hdn Hw Hwn eq_refl).
Qed.

(** What a line with given groups does to the record. *)
Lemma parse_line_groups (r : SynthesisResults) (l ds tok : string) :
  line_groups l = Some (ds, tok) ->
  line_token l = Some (digits_value ds, tok) /\
  (convertible ds = true ->
     parse_line r l = Ok (set_gate tok (digits_value ds) r)) /\
  (convertible ds = false -> parse_line r l = Raise ValueError).
Proof.
  intros H. rewrite parse_line_spec. unfold line_token, line_converts.
  rewrite H. split; [reflexivity|]. split; now intros ->.
Qed.

(** X7: which lines set a gate count.  After optional white space, a run
    of digits and white space, a primitive token is recognised whatever
    follows it on the line, and the line sets the field of that token to
    the number, or raises when the run of digits does not convert.  The
    token [$add] is recognised when no word character follows it, and is
    not when one does: the line then leaves the record as it is. *)
Theorem gate_line_recognised (pad ds ws rest : string) :
  all_chars is_space pad = true ->
  all_chars is_digit ds = true -> ds <> "" ->
  all_chars is_space ws = true -> ws <> "" ->
  (forall tok, In tok primitive_tokens ->
     line_groups (pad ++ ds ++ ws ++ tok ++ rest) = Some (ds, tok) /\
     line_token (pad ++ ds ++ ws ++ tok ++ rest) = Some (digits_value ds, tok) /\
     (convertible ds = false ->
        forall r, parse_line r (pad ++ ds ++ ws ++ tok ++ rest) =
                  Raise ValueError) /\
     (convertible ds = true ->
        forall g r, In (tok, g) gate_fields ->
          exists r',
            parse_line r (pad ++ ds ++ ws ++ tok ++ rest) = Ok r' /\
            g r' = digits_value ds)) /\
  (take_while is_word rest = "" ->
     line_groups (pad ++ ds ++ ws ++ "$add" ++ rest) = Some (ds, "$add") /\
     line_token (pad ++ ds ++ ws ++ "$add" ++ rest) =
       Some (digits_value ds, "$add") /\
     (convertible ds = false ->
        forall r, parse_line r (pad ++ ds ++ ws ++ "$add" ++ rest) =
                  Raise ValueError) /\
     (convertible ds = true ->
        forall r,
          exists r',
            parse_line r (pad ++ ds ++ ws ++ "$add" ++ rest) = Ok r' /\
            add_cells r' = digits_value ds)) /\
  (forall c rest', rest = String c rest' -> is_word c = true ->
     (convertible ds = false ->
        forall r, parse_line r (pad ++ ds ++ ws ++ "$add" ++ rest) =
                  Raise ValueError) /\
     (convertible ds = true ->
        forall r, parse_line r (pad ++ ds ++ ws ++ "$add" ++ rest) = Ok r)).
Proof.
  intros Hp Hd Hdn Hw Hwn.
  split; [|split].
  - intros tok Hin.
    assert (Hg : line_groups (pad ++ ds ++ ws ++ tok ++ rest) = Some (ds, tok)).
    { cbn [primitive_tokens In] in Hin.
      repeat (destruct Hin as [<- | Hin];
              [ rewrite (line_groups_shape pad ds ws _ rest Hp Hd Hdn Hw Hwn);
                cbn [append]; rewrite !rstrip_cons by reflexivity;
                reflexivity | ]).
      contradiction. }
    split; [exact Hg|].
    split; [exact (proj1 (parse_line_groups (new_results "") _ _ _ Hg))|].
    split.
    + intros Hc r. now apply (parse_line_groups r _ _ _ Hg).
    + intros Hc g r Hin'. eexists. split.
      * now apply (parse_line_groups r _ _ _ Hg).
      * rewrite (set_gate_field tok g Hin'). now rewrite String.eqb_refl.
  - intros Hstop.
    assert (Hg : line_groups (pad ++ ds ++ ws ++ "$add" ++ rest) =
                 Some (ds, "$add")).
    { rewrite (line_groups_shape pad ds ws _ rest Hp Hd Hdn Hw Hwn).
      cbn [append]. rewrite !rstrip_cons by reflexivity.
      unfold gate_primitive, gate_macro. cbn [take_while is_word].
      change (is_word "a") with true. change (is_word "d") with true.
      cbv iota. rewrite (take_while_rstrip_stop _ _ Hstop). reflexivity. }
    split; [exact Hg|].
    split; [exact (proj1 (parse_line_groups (new_results "") _ _ _ Hg))|].
    split.
    + intros Hc r. now apply (parse_line_groups r _ _ _ Hg).
    + intros Hc r. eexists. split.
      * now apply (parse_line_groups r _ _ _ Hg).
      * reflexivity.
  - intros c rest' -> Hc.
    assert (Hg : line_groups (pad ++ ds ++ ws ++ "$add" ++ String c rest') =
                 Some (ds, "$add" ++ take_while is_word
                                       (rstrip (String c rest')))).
    { rewrite (line_groups_shape pad ds ws _ _ Hp Hd Hdn Hw Hwn).
      cbn [append].
      rewrite !rstrip_cons by (reflexivity || now apply word_not_space).
      unfold gate_primitive, gate_macro. cbn [take_while].
      change (is_word "a") with true. change (is_word "d") with true.
      rewrite Hc. cbv iota. cbn [is_empty append]. reflexivity. }
    split.
    + intros Hcv r. now apply (parse_line_groups r _ _ _ Hg).
    + intros Hcv r.
      rewrite (proj1 (proj2 (parse_line_groups r _ _ _ Hg)) Hcv).
      f_equal. apply set_gate_unrecognised.
      rewrite (rstrip_cons c rest') by now apply word_not_space.
      cbn [take_while]. rewrite Hc.
      cbn. intros H.
      repeat (destruct H as [H | H]; [discriminate H|]). exact H.
Qed.

Lemma gate_line_recognised_witness :
  line_token ("   " ++ "42" ++ "  " ++ "$_NAND_" ++ "x  ") =
    Some (42, "$_NAND_") /\
  exists r',
    parse_line (new_results "Dadda")
      ("   " ++ "42" ++ "  " ++ "$_NAND_" ++ "x  ") = Ok r' /\
    nand_gates r' = 42.
Proof.
  destruct (gate_line_recognised "   " "42" "  " "x  ") as (H & _);
    [reflexivity | reflexivity | discriminate | reflexivity | discriminate |].
  destruct (H "$_NAND_" ltac:(cbn; tauto)) as (_ & Ht & _ & Hset).
  split; [exact Ht|].
  exact (Hset eq_refl nand_gates (new_results "Dadda") ltac:(cbn; tauto)).
Defined.

(** *** A run of the tool *)

Lemma build_results_from_runs
    (classical_out dadda_out wallace_out : option string)
    (n : string) (r : SynthesisResults) :
  In (n, r) (build_results true classical_out dadda_out wallace_out) ->
  exists proc, synthesize_design n proc = Some r.
Proof.
  unfold build_results.
  destruct (synthesize_design "Classical" classical_out) as [c|] eqn:Ec,
           (synthesize_design "Dadda" dadda_out) as [dd|] eqn:Ed,
           (synthesize_design "Wallace" wallace_out) as [w|] eqn:Ew;
    cbn [insert_if_some dict_set String.eqb Ascii.eqb Bool.eqb In];
    intros Hin;
    repeat (destruct Hin as [[= <- <-] | Hin]; [eauto|]);
    contradiction.
Qed.

(** X14: with the tool present a delay never stops the report.  Every
    record of the store has a positive delay, so when the areas and the
    powers in a non-empty store are not zero the report runs to its end and
    saves the store. *)
Theorem tool_report_completes
    (classical_out dadda_out wallace_out : option string) :
  let d := build_results true classical_out dadda_out wallace_out in
  (forall n r, In (n, r) d -> (0 <? critical_path_delay_ns r)%float = true) /\
  (d <> [] ->
   (forall n r, In (n, r) d ->
      nonzero (estimated_area_ge r) /\ nonzero (estimated_power_mw r)) ->
   exists out, generate_report d = ((out ++ [SavedResults d])%list, Ok tt)).
Proof.
  cbv zeta.
  assert (Hpos : forall n r,
            In (n, r) (build_results true classical_out dadda_out wallace_out) ->
            (0 <? critical_path_delay_ns r)%float = true).
  { intros n r Hin.
    destruct (build_results_from_runs _ _ _ n r Hin) as [proc Hs].
    destruct proc as [output|]; [|discriminate].
    destruct (synthesize_design_some _ _ _ Hs) as (p & _ & E).
    now apply (estimate_frequency _ _ E). }
  split; [exact Hpos|].
  intros Hd Hz.
  destruct (report_completes _ Hd) as (a & t & p & bs & ba & bp & _ & _ & _ & H).
  { intros n r Hin. destruct (Hz n r Hin) as [Ha Hp].
    split; [exact Ha|]. split; [|exact Hp].
    apply positive_nonzero. now apply (Hpos n r). }
  destruct (report_before_save _ Hd) as (out & res & _ & Hrep).
  destruct res as [[]|e]; [now exists out|].
  rewrite H in Hrep. discriminate.
Qed.

Lemma tool_report_completes_witness :
  exists out,
    generate_report dadda_only_store =
      ((out ++ [SavedResults dadda_only_store])%list, Ok tt).
Proof.
  apply (proj2 (tool_report_completes None (Some (header ++ second_body)) None)).
  - vm_compute. discriminate.
  - intros n r Hin. vm_compute in Hin.
    destruct Hin as [[= <- <-] | []]. vm_compute. split; reflexivity.
Defined.

End LineFacts.
